(** * Window animation engine of the Windows shell: a shallow embedding

    The development follows [window_api.cc] (the per-window animation
    controller [WindowApi]) and [window_api_timer.cc] (the shared tick
    scheduler [WindowApiTimer], in its two revisions).

    - C++ [double] is IEEE 754 binary64, modelled by [spec_float] with
      precision 53 and [emax = 1024]; every arithmetic operation is the
      correctly rounded one of the Standard Library's [SpecFloat].
    - [std::unordered_map<UINT_PTR, WindowAnimation>] is a [gmap] from [Z].
    - Win32 calls are effects: every function returns the list of calls it
      makes, in program order, next to its result; the answers of the
      operating system are read from a [Win32] record passed in.
    - Completion callbacks ([std::function<void()>]) are opaque tokens; the
      invocation of one is the event [OnComplete]. *)

From Stdlib Require Import ZArith Lia List Floats.SpecFloat.
From stdpp Require Import gmap list.

Open Scope Z_scope.

(** ** IEEE 754 binary64 *)

Definition double : Type := spec_float.

Definition b64_of_Z (z : Z) : double := binary_normalize 53 1024 z 0 false.

Definition fadd : double -> double -> double := SFadd 53 1024.
Definition fsub : double -> double -> double := SFsub 53 1024.
Definition fmul : double -> double -> double := SFmul 53 1024.
Definition fdiv : double -> double -> double := SFdiv 53 1024.
Definition fsqrt : double -> double := SFsqrt 53 1024.
Definition fneg : double -> double := SFopp.
Definition flt : double -> double -> bool := SFltb.
Definition fle : double -> double -> bool := SFleb.
Definition feq : double -> double -> bool := SFeqb.

Declare Scope double_scope.
Delimit Scope double_scope with D.
Bind Scope double_scope with double.
Infix "+" := fadd : double_scope.
Infix "-" := fsub : double_scope.
Infix "*" := fmul : double_scope.
Infix "/" := fdiv : double_scope.
Notation "- x" := (fneg x) : double_scope.
Infix "<?" := flt : double_scope.
Infix "<=?" := fle : double_scope.
Infix "=?" := feq : double_scope.

(** The decimal literals of the sources, each the binary64 value nearest to
    the literal (an integer, or the correctly rounded quotient of two). *)
Definition d_0 : double := S754_zero false.
Definition d_1 : double := Eval vm_compute in b64_of_Z 1.
Definition d_2 : double := Eval vm_compute in b64_of_Z 2.
Definition d_3 : double := Eval vm_compute in b64_of_Z 3.
Definition d_10 : double := Eval vm_compute in b64_of_Z 10.
Definition d_16 : double := Eval vm_compute in b64_of_Z 16.
Definition d_100 : double := Eval vm_compute in b64_of_Z 100.
Definition d_255 : double := Eval vm_compute in b64_of_Z 255.
Definition d_300 : double := Eval vm_compute in b64_of_Z 300.
Definition d_400 : double := Eval vm_compute in b64_of_Z 400.
Definition d_500 : double := Eval vm_compute in b64_of_Z 500.
Definition d_1000 : double := Eval vm_compute in b64_of_Z 1000.
Definition d_0_1 : double := Eval vm_compute in fdiv (b64_of_Z 1) (b64_of_Z 10).
Definition d_0_5 : double := Eval vm_compute in fdiv (b64_of_Z 1) (b64_of_Z 2).
Definition d_0_7 : double := Eval vm_compute in fdiv (b64_of_Z 7) (b64_of_Z 10).
Definition d_1_70158 : double :=
  Eval vm_compute in fdiv (b64_of_Z 170158) (b64_of_Z 100000).

(** [std::min(a, b)] is [(b < a) ? b : a] and [std::max(a, b)] is
    [(a < b) ? b : a]: with a NaN second argument both return the first. *)
Definition std_min (a b : double) : double := if (b <? a)%D then b else a.
Definition std_max (a b : double) : double := if (a <? b)%D then b else a.

(** Fixed-width integers: the value of a [w]-bit two's complement result. *)
Definition wrap_signed (w : Z) (z : Z) : Z :=
  (z + 2 ^ (w - 1)) mod 2 ^ w - 2 ^ (w - 1).
Definition wrap_unsigned (w : Z) (z : Z) : Z := z mod 2 ^ w.

Definition int32 (z : Z) : Z := wrap_signed 32 z.
Definition int64 (z : Z) : Z := wrap_signed 64 z.
Definition uint_ptr (z : Z) : Z := wrap_unsigned 64 z.

(** The integral part of a double, rounded toward zero; [None] for NaN and
    the infinities. *)
Definition trunc_double (x : double) : option Z :=
  match x with
  | S754_zero _ => Some 0
  | S754_finite s m e =>
      let mag := if 0 <=? e then Z.pos m * 2 ^ e else Z.pos m / 2 ^ (- e) in
      Some (if s then - mag else mag)
  | S754_infinity _ | S754_nan => None
  end.

(** [static_cast<int>(double)].  The conversion is undefined in C++ when the
    truncated value does not fit; the model returns what the x86-64
    instruction [cvttsd2si] returns there, [INT_MIN]. *)
Definition static_cast_int (x : double) : Z :=
  match trunc_double x with
  | Some z => if (- 2 ^ 31 <=? z) && (z <? 2 ^ 31) then z else - 2 ^ 31
  | None => - 2 ^ 31
  end.

(** [static_cast<BYTE>(double)], used on values of [[0, 255]] only. *)
Definition static_cast_BYTE (x : double) : Z :=
  match trunc_double x with
  | Some z => z mod 256
  | None => 0
  end.

(** ** The C math library

    [sqrt] is the correctly rounded IEEE operation.  [exp], [cos], [sin] and
    [pow] are not specified bit for bit by any standard, so the model takes
    them as the fields of a [Libm]. *)
Record Libm := {
  exp : double -> double;
  cos : double -> double;
  sin : double -> double;
  pow : double -> double -> double
}.

(** C17 Annex F.10.4.4: [pow(+0, y)] is [+0] for a positive [y] that is not
    an odd integer; and for an odd integer [y > 0], [pow(+0, y)] is [+0]
    too.  The animation code uses the exponents 2 and 3. *)
Definition pow_of_zero (libm : Libm) : Prop :=
  pow libm d_0 d_2 = d_0 /\ pow libm d_0 d_3 = d_0.

(** ** Data model ([window_api.h]) *)

Definition HWND : Type := Z.
Definition NULL : HWND := 0.

(** A completion callback: the identity of a [std::function<void()>]. *)
Definition Callback : Type := nat.

Inductive AnimationEasingType :=
  | kLinear | kEaseIn | kEaseOut | kEaseInOut | kSpringBounce | kOvershoot.

Inductive AnimationPropertyType :=
  | kPosition | kSize | kBounds | kOpacity.

Record RECT := { left : Z; top : Z; right : Z; bottom : Z }.

Record AnimationRequest := {
  req_property : AnimationPropertyType;
  req_easing : AnimationEasingType;
  req_target_x : double;
  req_target_y : double;
  req_target_width : double;
  req_target_height : double;
  req_target_opacity : double;
  req_duration : Z;
  req_use_custom_spring : bool;
  req_spring_damping : double;
  req_spring_stiffness : double;
  req_on_complete : option Callback
}.

Record WindowAnimation := {
  timer_id : Z;
  hwnd : HWND;
  property : AnimationPropertyType;
  easing : AnimationEasingType;
  start_x : double;
  start_y : double;
  start_width : double;
  start_height : double;
  start_opacity : double;
  target_x : double;
  target_y : double;
  target_width : double;
  target_height : double;
  target_opacity : double;
  start_time_qpc : Z;
  duration : Z;
  progress : double;
  scale_factor : double;
  shadow_left : Z;
  shadow_right : Z;
  shadow_top : Z;
  shadow_bottom : Z;
  spring_damping : double;
  spring_stiffness : double;
  spring_velocity : double;
  on_complete : option Callback;
  is_active : bool
}.

(** The host window as [WindowApi] sees it: [GetWindowHandle()]. *)
Record HostWindow := { GetWindowHandle : HWND }.

(** The members of [WindowApi] that the animation code reads or writes;
    [window_] is [None] for a null pointer. *)
Record WindowApi := {
  window_ : option HostWindow;
  active_animations_ : gmap Z WindowAnimation;
  next_timer_id_ : Z;
  spring_damping_ : double;
  spring_stiffness_ : double
}.

(** [WindowApi::WindowApi(HostWindow* window)] with the default member
    initialisers of the header. *)
Definition WindowApi_new (window : option HostWindow) : WindowApi :=
  {| window_ := window;
     active_animations_ := ∅;
     next_timer_id_ := 1000;
     spring_damping_ := d_0_7;
     spring_stiffness_ := d_100 |}.

(** Assignments to the fields of a [WindowAnimation]. *)
Definition with_start_xy (x y : double) (a : WindowAnimation) : WindowAnimation :=
  {| timer_id := timer_id a; hwnd := hwnd a; property := property a;
     easing := easing a; start_x := x; start_y := y;
     start_width := start_width a; start_height := start_height a;
     start_opacity := start_opacity a; target_x := target_x a;
     target_y := target_y a; target_width := target_width a;
     target_height := target_height a; target_opacity := target_opacity a;
     start_time_qpc := start_time_qpc a; duration := duration a;
     progress := progress a; scale_factor := scale_factor a;
     shadow_left := shadow_left a; shadow_right := shadow_right a;
     shadow_top := shadow_top a; shadow_bottom := shadow_bottom a;
     spring_damping := spring_damping a; spring_stiffness := spring_stiffness a;
     spring_velocity := spring_velocity a; on_complete := on_complete a;
     is_active := is_active a |}.

Definition with_start_size (w h : double) (a : WindowAnimation) : WindowAnimation :=
  {| timer_id := timer_id a; hwnd := hwnd a; property := property a;
     easing := easing a; start_x := start_x a; start_y := start_y a;
     start_width := w; start_height := h;
     start_opacity := start_opacity a; target_x := target_x a;
     target_y := target_y a; target_width := target_width a;
     target_height := target_height a; target_opacity := target_opacity a;
     start_time_qpc := start_time_qpc a; duration := duration a;
     progress := progress a; scale_factor := scale_factor a;
     shadow_left := shadow_left a; shadow_right := shadow_right a;
     shadow_top := shadow_top a; shadow_bottom := shadow_bottom a;
     spring_damping := spring_damping a; spring_stiffness := spring_stiffness a;
     spring_velocity := spring_velocity a; on_complete := on_complete a;
     is_active := is_active a |}.

Definition with_start_opacity (o : double) (a : WindowAnimation) : WindowAnimation :=
  {| timer_id := timer_id a; hwnd := hwnd a; property := property a;
     easing := easing a; start_x := start_x a; start_y := start_y a;
     start_width := start_width a; start_height := start_height a;
     start_opacity := o; target_x := target_x a;
     target_y := target_y a; target_width := target_width a;
     target_height := target_height a; target_opacity := target_opacity a;
     start_time_qpc := start_time_qpc a; duration := duration a;
     progress := progress a; scale_factor := scale_factor a;
     shadow_left := shadow_left a; shadow_right := shadow_right a;
     shadow_top := shadow_top a; shadow_bottom := shadow_bottom a;
     spring_damping := spring_damping a; spring_stiffness := spring_stiffness a;
     spring_velocity := spring_velocity a; on_complete := on_complete a;
     is_active := is_active a |}.

Definition with_target_xy (x y : double) (a : WindowAnimation) : WindowAnimation :=
  {| timer_id := timer_id a; hwnd := hwnd a; property := property a;
     easing := easing a; start_x := start_x a; start_y := start_y a;
     start_width := start_width a; start_height := start_height a;
     start_opacity := start_opacity a; target_x := x;
     target_y := y; target_width := target_width a;
     target_height := target_height a; target_opacity := target_opacity a;
     start_time_qpc := start_time_qpc a; duration := duration a;
     progress := progress a; scale_factor := scale_factor a;
     shadow_left := shadow_left a; shadow_right := shadow_right a;
     shadow_top := shadow_top a; shadow_bottom := shadow_bottom a;
     spring_damping := spring_damping a; spring_stiffness := spring_stiffness a;
     spring_velocity := spring_velocity a; on_complete := on_complete a;
     is_active := is_active a |}.

Definition with_target_size (w h : double) (a : WindowAnimation) : WindowAnimation :=
  {| timer_id := timer_id a; hwnd := hwnd a; property := property a;
     easing := easing a; start_x := start_x a; start_y := start_y a;
     start_width := start_width a; start_height := start_height a;
     start_opacity := start_opacity a; target_x := target_x a;
     target_y := target_y a; target_width := w;
     target_height := h; target_opacity := target_opacity a;
     start_time_qpc := start_time_qpc a; duration := duration a;
     progress := progress a; scale_factor := scale_factor a;
     shadow_left := shadow_left a; shadow_right := shadow_right a;
     shadow_top := shadow_top a; shadow_bottom := shadow_bottom a;
     spring_damping := spring_damping a; spring_stiffness := spring_stiffness a;
     spring_velocity := spring_velocity a; on_complete := on_complete a;
     is_active := is_active a |}.

Definition with_target_opacity (o : double) (a : WindowAnimation) : WindowAnimation :=
  {| timer_id := timer_id a; hwnd := hwnd a; property := property a;
     easing := easing a; start_x := start_x a; start_y := start_y a;
     start_width := start_width a; start_height := start_height a;
     start_opacity := start_opacity a; target_x := target_x a;
     target_y := target_y a; target_width := target_width a;
     target_height := target_height a; target_opacity := o;
     start_time_qpc := start_time_qpc a; duration := duration a;
     progress := progress a; scale_factor := scale_factor a;
     shadow_left := shadow_left a; shadow_right := shadow_right a;
     shadow_top := shadow_top a; shadow_bottom := shadow_bottom a;
     spring_damping := spring_damping a; spring_stiffness := spring_stiffness a;
     spring_velocity := spring_velocity a; on_complete := on_complete a;
     is_active := is_active a |}.

Definition with_progress (p : double) (a : WindowAnimation) : WindowAnimation :=
  {| timer_id := timer_id a; hwnd := hwnd a; property := property a;
     easing := easing a; start_x := start_x a; start_y := start_y a;
     start_width := start_width a; start_height := start_height a;
     start_opacity := start_opacity a; target_x := target_x a;
     target_y := target_y a; target_width := target_width a;
     target_height := target_height a; target_opacity := target_opacity a;
     start_time_qpc := start_time_qpc a; duration := duration a;
     progress := p; scale_factor := scale_factor a;
     shadow_left := shadow_left a; shadow_right := shadow_right a;
     shadow_top := shadow_top a; shadow_bottom := shadow_bottom a;
     spring_damping := spring_damping a; spring_stiffness := spring_stiffness a;
     spring_velocity := spring_velocity a; on_complete := on_complete a;
     is_active := is_active a |}.

Definition with_is_active (b : bool) (a : WindowAnimation) : WindowAnimation :=
  {| timer_id := timer_id a; hwnd := hwnd a; property := property a;
     easing := easing a; start_x := start_x a; start_y := start_y a;
     start_width := start_width a; start_height := start_height a;
     start_opacity := start_opacity a; target_x := target_x a;
     target_y := target_y a; target_width := target_width a;
     target_height := target_height a; target_opacity := target_opacity a;
     start_time_qpc := start_time_qpc a; duration := duration a;
     progress := progress a; scale_factor := scale_factor a;
     shadow_left := shadow_left a; shadow_right := shadow_right a;
     shadow_top := shadow_top a; shadow_bottom := shadow_bottom a;
     spring_damping := spring_damping a; spring_stiffness := spring_stiffness a;
     spring_velocity := spring_velocity a; on_complete := on_complete a;
     is_active := b |}.

(** Assignments to the members of a [WindowApi]. *)
Definition with_animations (m : gmap Z WindowAnimation) (this : WindowApi)
  : WindowApi :=
  {| window_ := window_ this; active_animations_ := m;
     next_timer_id_ := next_timer_id_ this;
     spring_damping_ := spring_damping_ this;
     spring_stiffness_ := spring_stiffness_ this |}.

Definition with_spring (damping stiffness : double) (this : WindowApi)
  : WindowApi :=
  {| window_ := window_ this; active_animations_ := active_animations_ this;
     next_timer_id_ := next_timer_id_ this;
     spring_damping_ := damping; spring_stiffness_ := stiffness |}.

Definition with_next_timer_id (n : Z) (this : WindowApi) : WindowApi :=
  {| window_ := window_ this; active_animations_ := active_animations_ this;
     next_timer_id_ := n;
     spring_damping_ := spring_damping_ this;
     spring_stiffness_ := spring_stiffness_ this |}.

(** ** The operating system

    Constants of the Windows SDK headers. *)
Definition SWP_NOSIZE : Z := 0x0001.
Definition SWP_NOMOVE : Z := 0x0002.
Definition SWP_NOZORDER : Z := 0x0004.
Definition SWP_NOACTIVATE : Z := 0x0010.
Definition SWP_DEFERERASE : Z := 0x2000.
Definition WS_EX_LAYERED : Z := 0x00080000.
Definition LWA_ALPHA : Z := 0x00000002.
Definition GWL_EXSTYLE : Z := -20.
Definition USER_DEFAULT_SCREEN_DPI : Z := 96.

(** [window_api.cc]: animation timer interval in milliseconds. *)
Definition kAnimationTimerInterval : Z := 16.

(** What the system answers to the queries of one call.  A [RECT] that a
    failed query leaves unwritten is an uninitialised local in the source:
    the record holds whatever the local contains after the call. *)
Record Win32 := {
  os_dpi : Z;
  os_frame_ok : bool;
  os_frame_rect : RECT;
  os_window_rect_ok : bool;
  os_window_rect : RECT;
  os_ex_style : Z;
  os_layered_ok : bool;
  os_layered_alpha : Z;
  os_layered_flags : Z;
  os_qpc_now : Z;
  os_qpc_frequency : Z
}.

(** The calls the animation code makes, and the invocation of a completion
    callback.  Arguments that are always a null pointer in the source
    ([hWndInsertAfter], the timer procedure, the colour-key out parameter)
    are left out.  Reading the performance counter is a read of
    [os_qpc_now] and leaves no event. *)
Inductive Event :=
  | GetDpiForHWND (h : HWND)
  | DwmGetWindowAttribute (h : HWND)
  | GetWindowRect (h : HWND)
  | GetWindowLong (h : HWND) (index : Z)
  | SetWindowLong (h : HWND) (index : Z) (value : Z)
  | GetLayeredWindowAttributes (h : HWND)
  | SetLayeredWindowAttributes (h : HWND) (crKey alpha flags : Z)
  | SetWindowPos (h : HWND) (x y cx cy flags : Z)
  | DwmFlush
  | SetTimer (h : HWND) (id elapse : Z)
  | KillTimer (h : HWND) (id : Z)
  | OnComplete (cb : Callback).

Definition is_OnComplete (e : Event) : bool :=
  match e with OnComplete _ => true | _ => false end.

Definition is_GetLayeredWindowAttributes (e : Event) : bool :=
  match e with GetLayeredWindowAttributes _ => true | _ => false end.

Definition is_KillTimer (e : Event) : bool :=
  match e with KillTimer _ _ => true | _ => false end.

(** ** Easing ([window_api.cc]) *)

Section Animation.

Context (libm : Libm).

Definition CalculateSpringBounce (t damping stiffness : double) : double :=
  if (d_1 <=? t)%D then d_1
  else if (t <=? d_0)%D then d_0
  else
    let omega := fsqrt stiffness in
    let zeta := damping in
    let result :=
      if (zeta <? d_1)%D then
        let omega_d := (omega * fsqrt (d_1 - zeta * zeta))%D in
        let decay := exp libm (- zeta * omega * t)%D in
        (d_1 - decay * (cos libm (omega_d * t)
                        + (zeta * omega / omega_d) * sin libm (omega_d * t)))%D
      else if (zeta =? d_1)%D then
        let decay := exp libm (- omega * t)%D in
        (d_1 - decay * (d_1 + omega * t))%D
      else
        let s1 := (- omega * (zeta + fsqrt (zeta * zeta - d_1)))%D in
        let s2 := (- omega * (zeta - fsqrt (zeta * zeta - d_1)))%D in
        (d_1 - (s2 * exp libm (s1 * t) - s1 * exp libm (s2 * t)) / (s2 - s1))%D
    in
    std_max d_0 (std_min d_1 result).

Definition CalculateEasing (this : WindowApi) (t : double)
    (easing : AnimationEasingType) : double :=
  let t := std_max d_0 (std_min d_1 t) in
  match easing with
  | kLinear => t
  | kEaseIn => (t * t)%D
  | kEaseOut => (d_1 - (d_1 - t) * (d_1 - t))%D
  | kEaseInOut =>
      if (t <? d_0_5)%D then (d_2 * t * t)%D
      else (d_1 - pow libm (- d_2 * t + d_2) d_2 / d_2)%D
  | kSpringBounce =>
      CalculateSpringBounce t (spring_damping_ this) (spring_stiffness_ this)
  | kOvershoot =>
      let c1 := d_1_70158 in
      let c3 := (c1 + d_1)%D in
      (d_1 + c3 * pow libm (t - d_1) d_3 + c1 * pow libm (t - d_1) d_2)%D
  end.

Definition SetSpringParameters (this : WindowApi) (damping stiffness : double)
  : WindowApi :=
  with_spring (std_max d_0_1 (std_min d_2 damping))
              (std_max d_10 (std_min d_500 stiffness)) this.

(** ** Advancing one animation *)

Definition GetElapsedMs (os : Win32) (start : Z) : double :=
  (b64_of_Z (int64 (os_qpc_now os - start)) * d_1000
   / b64_of_Z (os_qpc_frequency os))%D.

Definition lerp (a b t : double) : double := (a + (b - a) * t)%D.

Definition ApplyAnimationFrame (anim : WindowAnimation) (eased_progress : double)
  : list Event :=
  if hwnd anim =? NULL then []
  else
    let scale := scale_factor anim in
    match property anim with
    | kPosition =>
        let current_x := lerp (start_x anim) (target_x anim) eased_progress in
        let current_y := lerp (start_y anim) (target_y anim) eased_progress in
        let physical_x := static_cast_int (current_x * scale)%D in
        let physical_y := static_cast_int (current_y * scale)%D in
        let physical_x := int32 (physical_x - int32 (shadow_left anim)) in
        let physical_y := int32 (physical_y - int32 (shadow_top anim)) in
        [SetWindowPos (hwnd anim) physical_x physical_y 0 0
           (Z.lor (Z.lor (Z.lor SWP_NOSIZE SWP_NOZORDER) SWP_NOACTIVATE)
                  SWP_DEFERERASE);
         DwmFlush]
    | kSize =>
        let current_width :=
          lerp (start_width anim) (target_width anim) eased_progress in
        let current_height :=
          lerp (start_height anim) (target_height anim) eased_progress in
        let physical_width := static_cast_int (current_width * scale)%D in
        let physical_height := static_cast_int (current_height * scale)%D in
        let physical_width :=
          int32 (physical_width + int32 (shadow_left anim + shadow_right anim)) in
        let physical_height :=
          int32 (physical_height + int32 (shadow_top anim + shadow_bottom anim)) in
        [SetWindowPos (hwnd anim) 0 0 physical_width physical_height
           (Z.lor (Z.lor (Z.lor SWP_NOMOVE SWP_NOZORDER) SWP_NOACTIVATE)
                  SWP_DEFERERASE);
         DwmFlush]
    | kBounds =>
        let current_x := lerp (start_x anim) (target_x anim) eased_progress in
        let current_y := lerp (start_y anim) (target_y anim) eased_progress in
        let current_width :=
          lerp (start_width anim) (target_width anim) eased_progress in
        let current_height :=
          lerp (start_height anim) (target_height anim) eased_progress in
        let physical_x := static_cast_int (current_x * scale)%D in
        let physical_y := static_cast_int (current_y * scale)%D in
        let physical_width := static_cast_int (current_width * scale)%D in
        let physical_height := static_cast_int (current_height * scale)%D in
        let physical_x := int32 (physical_x - int32 (shadow_left anim)) in
        let physical_y := int32 (physical_y - int32 (shadow_top anim)) in
        let physical_width :=
          int32 (physical_width + int32 (shadow_left anim + shadow_right anim)) in
        let physical_height :=
          int32 (physical_height + int32 (shadow_top anim + shadow_bottom anim)) in
        [SetWindowPos (hwnd anim) physical_x physical_y
           physical_width physical_height
           (Z.lor (Z.lor SWP_NOZORDER SWP_NOACTIVATE) SWP_DEFERERASE);
         DwmFlush]
    | kOpacity =>
        let current_opacity :=
          lerp (start_opacity anim) (target_opacity anim) eased_progress in
        [SetLayeredWindowAttributes (hwnd anim) 0
           (static_cast_BYTE (std_max d_0 (std_min d_1 current_opacity) * d_255)%D)
           LWA_ALPHA;
         DwmFlush]
    end.

Definition completion_events (anim : WindowAnimation) : list Event :=
  match on_complete anim with
  | Some cb => [OnComplete cb]
  | None => []
  end.

Definition UpdateAnimation (os : Win32) (this : WindowApi)
    (anim : WindowAnimation) : WindowAnimation * list Event :=
  if negb (is_active anim) || (hwnd anim =? NULL) then (anim, [])
  else
    let elapsed := GetElapsedMs os (start_time_qpc anim) in
    if (b64_of_Z (duration anim) <=? elapsed)%D then
      let anim := with_progress d_1 anim in
      let frame := ApplyAnimationFrame anim d_1 in
      let anim := with_is_active false anim in
      (anim,
       frame ++ [KillTimer (hwnd anim) (timer_id anim)] ++ completion_events anim)
    else
      let anim := with_progress (elapsed / b64_of_Z (duration anim))%D anim in
      let eased_progress := CalculateEasing this (progress anim) (easing anim) in
      (anim, ApplyAnimationFrame anim eased_progress).

Definition OnTimer (os : Win32) (this : WindowApi) (wParam : Z)
  : bool * WindowApi * list Event :=
  let id := wParam in
  match active_animations_ this !! id with
  | None => (false, this, [])
  | Some anim =>
      if negb (is_active anim) then
        (true, with_animations (delete id (active_animations_ this)) this, [])
      else
        let '(anim, events) := UpdateAnimation os this anim in
        if negb (is_active anim) then
          (true, with_animations (delete id (active_animations_ this)) this,
           events)
        else
          (true, with_animations (<[id := anim]> (active_animations_ this)) this,
           events)
  end.

End Animation.

(** ** Starting and stopping animations *)

Definition StopAnimation (this : WindowApi) (id : Z) : WindowApi * list Event :=
  match active_animations_ this !! id with
  | Some anim =>
      (with_animations (delete id (active_animations_ this)) this,
       if hwnd anim =? NULL then [] else [KillTimer (hwnd anim) id])
  | None => (this, [])
  end.

(** The [switch] of [StopConflictingAnimations]: does an active animation of
    property [existing] conflict with a new one of property [new_property]? *)
Definition conflicts (new_property existing : AnimationPropertyType) : bool :=
  match new_property with
  | kPosition =>
      match existing with kPosition | kBounds => true | _ => false end
  | kSize =>
      match existing with kSize | kBounds => true | _ => false end
  | kBounds =>
      match existing with kPosition | kSize | kBounds => true | _ => false end
  | kOpacity =>
      match existing with kOpacity => true | _ => false end
  end.

Definition should_stop (new_property : AnimationPropertyType)
    (anim : WindowAnimation) : bool :=
  is_active anim && conflicts new_property (property anim).

(** The first loop: the identifiers to stop, in the iteration order of the
    map (unspecified for [std::unordered_map]; here that of [map_to_list]). *)
Definition to_stop (new_property : AnimationPropertyType)
    (m : gmap Z WindowAnimation) : list Z :=
  (filter (fun p => should_stop new_property p.2 = true) (map_to_list m)).*1.

(** The second loop: [StopAnimation] on each collected identifier. *)
Fixpoint StopEach (this : WindowApi) (ids : list Z) : WindowApi * list Event :=
  match ids with
  | [] => (this, [])
  | id :: rest =>
      let '(this, events) := StopAnimation this id in
      let '(this, more) := StopEach this rest in
      (this, events ++ more)
  end.

Definition StopConflictingAnimations (this : WindowApi)
    (new_property : AnimationPropertyType) : WindowApi * list Event :=
  StopEach this (to_stop new_property (active_animations_ this)).

(** A default-initialised [WindowAnimation] ([start_time_qpc] has no
    initialiser; [StartAnimation] assigns it before any read). *)
Definition WindowAnimation_default : WindowAnimation :=
  {| timer_id := 0; hwnd := NULL; property := kPosition;
     easing := kSpringBounce;
     start_x := d_0; start_y := d_0; start_width := d_0; start_height := d_0;
     start_opacity := d_1;
     target_x := d_0; target_y := d_0; target_width := d_0;
     target_height := d_0; target_opacity := d_1;
     start_time_qpc := 0; duration := 300; progress := d_0;
     scale_factor := d_1;
     shadow_left := 0; shadow_right := 0; shadow_top := 0; shadow_bottom := 0;
     spring_damping := d_0_7; spring_stiffness := d_100;
     spring_velocity := d_0; on_complete := None; is_active := false |}.

Definition rect_width (r : RECT) : Z := int32 (right r - left r).
Definition rect_height (r : RECT) : Z := int32 (bottom r - top r).

(** The opening part of [StartAnimation] after the handle checks and the
    stop of conflicting animations: spring override, DPI, shadow insets and
    the common fields of the record. *)
Definition start_common (os : Win32) (this : WindowApi) (h : HWND)
    (request : AnimationRequest) : WindowApi * WindowAnimation * list Event :=
  let this :=
    if req_use_custom_spring request
    then with_spring (req_spring_damping request)
                     (req_spring_stiffness request) this
    else this in
  let dpi := os_dpi os in
  let scale := (b64_of_Z dpi / b64_of_Z USER_DEFAULT_SCREEN_DPI)%D in
  let frame_rect := os_frame_rect os in
  let window_rect := os_window_rect os in
  let have_shadow := os_frame_ok os && os_window_rect_ok os in
  let shadow_events :=
    DwmGetWindowAttribute h
      :: (if os_frame_ok os then [GetWindowRect h] else []) in
  let id := next_timer_id_ this in
  let this := with_next_timer_id (uint_ptr (id + 1)) this in
  let anim :=
    {| timer_id := id; hwnd := h; property := req_property request;
       easing := req_easing request;
       start_x := d_0; start_y := d_0; start_width := d_0;
       start_height := d_0; start_opacity := d_1;
       target_x := d_0; target_y := d_0; target_width := d_0;
       target_height := d_0; target_opacity := d_1;
       start_time_qpc := os_qpc_now os;
       duration := req_duration request;
       progress := d_0;
       scale_factor := scale;
       shadow_left :=
         if have_shadow then int32 (left frame_rect - left window_rect) else 0;
       shadow_right :=
         if have_shadow then int32 (right window_rect - right frame_rect) else 0;
       shadow_top :=
         if have_shadow then int32 (top frame_rect - top window_rect) else 0;
       shadow_bottom :=
         if have_shadow then int32 (bottom window_rect - bottom frame_rect)
         else 0;
       spring_damping := spring_damping_ this;
       spring_stiffness := spring_stiffness_ this;
       spring_velocity := d_0;
       on_complete := req_on_complete request;
       is_active := true |} in
  (this, anim, GetDpiForHWND h :: shadow_events).

Definition rect_nonzero (r : RECT) : bool :=
  negb (left r =? 0) || negb (top r =? 0) || negb (right r =? 0)
  || negb (bottom r =? 0).

(** The [switch] of [StartAnimation] that captures the start value of the
    animated property and copies the targets. *)
Definition start_values (os : Win32) (request : AnimationRequest)
    (anim : WindowAnimation) : WindowAnimation * list Event :=
  let h := hwnd anim in
  let scale := scale_factor anim in
  let frame_rect := os_frame_rect os in
  let window_rect := os_window_rect os in
  let of_frame_xy :=
    with_start_xy (b64_of_Z (left frame_rect) / scale)%D
                  (b64_of_Z (top frame_rect) / scale)%D in
  let of_window_xy :=
    with_start_xy (b64_of_Z (left window_rect) / scale)%D
                  (b64_of_Z (top window_rect) / scale)%D in
  let of_frame_size :=
    with_start_size (b64_of_Z (rect_width frame_rect) / scale)%D
                    (b64_of_Z (rect_height frame_rect) / scale)%D in
  let of_window_size :=
    with_start_size (b64_of_Z (rect_width window_rect) / scale)%D
                    (b64_of_Z (rect_height window_rect) / scale)%D in
  match req_property request with
  | kPosition =>
      let '(anim, events) :=
        if rect_nonzero frame_rect then (of_frame_xy anim, [])
        else if os_window_rect_ok os then (of_window_xy anim, [GetWindowRect h])
        else (anim, [GetWindowRect h]) in
      (with_target_xy (req_target_x request) (req_target_y request) anim, events)
  | kSize =>
      let '(anim, events) :=
        if 0 <? rect_width frame_rect then (of_frame_size anim, [])
        else if os_window_rect_ok os
        then (of_window_size anim, [GetWindowRect h])
        else (anim, [GetWindowRect h]) in
      (with_target_size (req_target_width request) (req_target_height request)
         anim, events)
  | kBounds =>
      let '(anim, events) :=
        if 0 <? rect_width frame_rect
        then (of_frame_size (of_frame_xy anim), [])
        else if os_window_rect_ok os
        then (of_window_size (of_window_xy anim), [GetWindowRect h])
        else (anim, [GetWindowRect h]) in
      (with_target_size (req_target_width request) (req_target_height request)
         (with_target_xy (req_target_x request) (req_target_y request) anim),
       events)
  | kOpacity =>
      let anim := with_start_opacity d_1 anim in
      let ex_style := os_ex_style os in
      let layered := negb (Z.land ex_style WS_EX_LAYERED =? 0) in
      let mark :=
        if layered then []
        else [SetWindowLong h GWL_EXSTYLE (Z.lor ex_style WS_EX_LAYERED)] in
      let '(anim, query) :=
        if layered then
          (if os_layered_ok os
              && negb (Z.land (os_layered_flags os) LWA_ALPHA =? 0)
           then with_start_opacity
                  (b64_of_Z (os_layered_alpha os) / d_255)%D anim
           else anim,
           [GetLayeredWindowAttributes h])
        else (anim, []) in
      (with_target_opacity (req_target_opacity request) anim,
       GetWindowLong h GWL_EXSTYLE :: mark ++ query)
  end.

Definition StartAnimation (os : Win32) (this : WindowApi)
    (request : AnimationRequest) : Z * WindowApi * list Event :=
  match window_ this with
  | None => (0, this, [])
  | Some window =>
      let h := GetWindowHandle window in
      if h =? NULL then (0, this, [])
      else
        let '(this, stopped) :=
          StopConflictingAnimations this (req_property request) in
        let '(this, anim, common) := start_common os this h request in
        let '(anim, captured) := start_values os request anim in
        (timer_id anim,
         with_animations (<[timer_id anim := anim]> (active_animations_ this))
           this,
         stopped ++ common ++ captured
           ++ [SetTimer h (timer_id anim) kAnimationTimerInterval])
  end.

Definition StopAllAnimations (this : WindowApi) : WindowApi * list Event :=
  match window_ this with
  | None => (this, [])
  | Some window =>
      let h := GetWindowHandle window in
      if h =? NULL then (this, [])
      else
        (with_animations ∅ this,
         map (fun p => KillTimer h p.1) (map_to_list (active_animations_ this)))
  end.

Definition HasActiveAnimation (this : WindowApi) : bool :=
  existsb (fun p => is_active p.2) (map_to_list (active_animations_ this)).

(** ** The shared tick scheduler ([window_api_timer.cc])

    The sources hold two revisions of [WindowApiTimer].  Pointers to
    consumers are integers, [0] for a null pointer. *)

(** [current_time.QuadPart * 1000.0 / qpc_frequency_.QuadPart] *)
Definition qpc_to_ms (count frequency : Z) : double :=
  (b64_of_Z count * d_1000 / b64_of_Z frequency)%D.

(** First revision: a registry of host windows; the delivery loop is posted
    to the engine's task runner. *)
Module TimerPostTask.

(** Modelled from the spec: the header of this revision is not among the
    sources.  [windows_] is the set of registered window pointers (the
    code inserts into it, erases from it, searches it and iterates over
    it); the other members are those [OnTick] reads and writes. *)
Record WindowApiTimer := {
  windows_ : gset Z;
  last_tick_time_ms_ : double;
  qpc_frequency_ : Z
}.

(** The closure [[this, delta_ms]] handed to [PostTask]. *)
Record Task := { delta_ms : double }.

Definition AddWindow (this : WindowApiTimer) (window : Z) : WindowApiTimer :=
  if window =? 0 then this
  else {| windows_ := {[window]} ∪ windows_ this;
          last_tick_time_ms_ := last_tick_time_ms_ this;
          qpc_frequency_ := qpc_frequency_ this |}.

Definition RemoveWindow (this : WindowApiTimer) (window : Z) : WindowApiTimer :=
  if window =? 0 then this
  else {| windows_ := windows_ this ∖ {[window]};
          last_tick_time_ms_ := last_tick_time_ms_ this;
          qpc_frequency_ := qpc_frequency_ this |}.

(** [OnTick] with the performance counter reading [now]: the new state and
    the task it posts. *)
Definition OnTick (this : WindowApiTimer) (now : Z) : WindowApiTimer * Task :=
  let current_time_ms := qpc_to_ms now (qpc_frequency_ this) in
  let delta := (current_time_ms - last_tick_time_ms_ this)%D in
  let this :=
    {| windows_ := windows_ this;
       last_tick_time_ms_ := current_time_ms;
       qpc_frequency_ := qpc_frequency_ this |} in
  let delta := if (d_100 <? delta)%D then d_16 else delta in
  (this, {| delta_ms := delta |}).

(** The body of the posted task, run on the main thread: the calls
    [api->OnAnimationTick(delta_ms)] it makes, as pairs of the consumer
    and the delta.  [GetApi] is [HostWindow::GetApi]. *)
Definition RunTask (GetApi : Z -> Z) (this : WindowApiTimer) (task : Task)
  : list (Z * double) :=
  omap (fun window =>
          if window =? 0 then None
          else
            let api := GetApi window in
            if api =? 0 then None else Some (api, delta_ms task))
       (elements (windows_ this)).

End TimerPostTask.

(** Second revision: a registry of [WindowApi] consumers behind a mutex,
  with a cached copy rebuilt when the dirty flag is set; delivery happens
  inside [OnTick]. *)
Module TimerCache.

Record WindowApiTimer := {
  windowApis_ : gset Z;
  windowApis_cache_ : list Z;
  windowApis_dirty_ : bool;
  last_tick_time_ms_ : double;
  qpc_frequency_ : Z
}.

Definition with_registry (apis : gset Z) (this : WindowApiTimer)
  : WindowApiTimer :=
  {| windowApis_ := apis;
     windowApis_cache_ := windowApis_cache_ this;
     windowApis_dirty_ := true;
     last_tick_time_ms_ := last_tick_time_ms_ this;
     qpc_frequency_ := qpc_frequency_ this |}.

Definition AddWindowApi (this : WindowApiTimer) (windowApi : Z)
  : WindowApiTimer :=
  if windowApi =? 0 then this
  else with_registry ({[windowApi]} ∪ windowApis_ this) this.

Definition RemoveWindowApi (this : WindowApiTimer) (windowApi : Z)
  : WindowApiTimer :=
  if windowApi =? 0 then this
  else with_registry (windowApis_ this ∖ {[windowApi]}) this.

Definition ClearWindows (this : WindowApiTimer) : WindowApiTimer :=
  with_registry ∅ this.

(** The header's initialisers, with the frequency the constructor reads. *)
Definition WindowApiTimer_new (frequency : Z) : WindowApiTimer :=
  {| windowApis_ := ∅; windowApis_cache_ := []; windowApis_dirty_ := true;
     last_tick_time_ms_ := d_0; qpc_frequency_ := frequency |}.

(** [OnTick] with the performance counter reading [now]: the new state and
    the calls [window->OnAnimationTickOnThread(delta_ms)] it makes. *)
Definition OnTick (this : WindowApiTimer) (now : Z)
  : WindowApiTimer * list (Z * double) :=
  let current_time_ms := qpc_to_ms now (qpc_frequency_ this) in
  let delta := (current_time_ms - last_tick_time_ms_ this)%D in
  let delta := if (d_100 <? delta)%D then d_16 else delta in
  let cache :=
    if windowApis_dirty_ this then elements (windowApis_ this)
    else windowApis_cache_ this in
  ({| windowApis_ := windowApis_ this;
      windowApis_cache_ := cache;
      windowApis_dirty_ := false;
      last_tick_time_ms_ := current_time_ms;
      qpc_frequency_ := qpc_frequency_ this |},
   omap (fun window => if window =? 0 then None else Some (window, delta))
        cache).

(** The cache is current whenever the dirty flag is clear. *)
Definition coherent (this : WindowApiTimer) : Prop :=
  windowApis_dirty_ this = false ->
  windowApis_cache_ this = elements (windowApis_ this).

Definition HasWindowApi (this : WindowApiTimer) (windowApi : Z) : bool :=
  bool_decide (windowApi ∈ windowApis_ this).

Definition GetWindowCount (this : WindowApiTimer) : nat :=
  size (windowApis_ this).

(** The members of the timer object that [Initialize], [TimerCallback] and
    the destructor use; handles are integers, [0] for null. *)
Record TimerHandles := {
  engine_ : Z;
  timer_queue_ : Z;
  timer_ : Z;
  timer_running_ : bool;
  initialized_ : bool
}.

(** The header's initialisers. *)
Definition TimerHandles_new : TimerHandles :=
  {| engine_ := 0; timer_queue_ := 0; timer_ := 0;
     timer_running_ := false; initialized_ := false |}.

(** What the system answers during one [Initialize]: the counter reading,
    the handle [CreateTimerQueue] returns, and the result of
    [CreateTimerQueueTimer] with the value it leaves in [timer_]. *)
Record TimerOs := {
  tos_qpc_now : Z;
  tos_CreateTimerQueue : Z;
  tos_CreateTimerQueueTimer : bool;
  tos_timer : Z
}.

Definition with_last_tick (t : double) (this : WindowApiTimer)
  : WindowApiTimer :=
  {| windowApis_ := windowApis_ this;
     windowApis_cache_ := windowApis_cache_ this;
     windowApis_dirty_ := windowApis_dirty_ this;
     last_tick_time_ms_ := t;
     qpc_frequency_ := qpc_frequency_ this |}.

Definition Initialize (os : TimerOs) (engine : Z)
    (this : WindowApiTimer * TimerHandles) : WindowApiTimer * TimerHandles :=
  let '(timer, handles) := this in
  if initialized_ handles then (timer, handles)
  else
    let timer :=
      with_last_tick (qpc_to_ms (tos_qpc_now os) (qpc_frequency_ timer)) timer in
    let queue :=
      if timer_queue_ handles =? 0 then tos_CreateTimerQueue os
      else timer_queue_ handles in
    if queue =? 0 then
      (timer,
       {| engine_ := engine; timer_queue_ := queue; timer_ := timer_ handles;
          timer_running_ := timer_running_ handles;
          initialized_ := false |})
    else
      (timer,
       {| engine_ := engine; timer_queue_ := queue; timer_ := tos_timer os;
          timer_running_ :=
            if tos_CreateTimerQueueTimer os then true
            else timer_running_ handles;
          initialized_ := true |}).

(** [TimerCallback] with [lpParameter] pointing to the timer object, or
    null, at the counter reading [now]. *)
Definition TimerCallback (self : option (WindowApiTimer * TimerHandles))
    (now : Z)
  : option (WindowApiTimer * TimerHandles) * list (Z * double) :=
  match self with
  | None => (None, [])
  | Some (timer, handles) =>
      if negb (timer_running_ handles) then (self, [])
      else
        let '(timer, ticked) := OnTick timer now in
        (Some (timer, handles), ticked)
  end.

End TimerCache.

(** ** Histories of the second scheduler

    The operations other threads and the timer thread perform on the one
    timer object, in the order the mutex and the atomics serialise them. *)
Inductive TimerOp :=
  | TimerAddWindowApi (windowApi : Z)
  | TimerRemoveWindowApi (windowApi : Z)
  | TimerClearWindows
  | TimerOnTick (now : Z).

Definition timer_step (this : TimerCache.WindowApiTimer) (op : TimerOp)
  : TimerCache.WindowApiTimer * list (Z * double) :=
  match op with
  | TimerAddWindowApi windowApi => (TimerCache.AddWindowApi this windowApi, [])
  | TimerRemoveWindowApi windowApi =>
      (TimerCache.RemoveWindowApi this windowApi, [])
  | TimerClearWindows => (TimerCache.ClearWindows this, [])
  | TimerOnTick now => TimerCache.OnTick this now
  end.

Fixpoint timer_run (this : TimerCache.WindowApiTimer) (ops : list TimerOp)
  : TimerCache.WindowApiTimer * list (Z * double) :=
  match ops with
  | [] => (this, [])
  | op :: ops =>
      let '(this, ticked) := timer_step this op in
      let '(this, more) := timer_run this ops in
      (this, ticked ++ more)
  end.

(** The cache is current and the null consumer is not registered. *)
Definition registry_ok (this : TimerCache.WindowApiTimer) : Prop :=
  TimerCache.coherent this /\ 0 ∉ TimerCache.windowApis_ this.

(** Repeated calls of [Initialize], each with the system's answers and the
    engine passed. *)
Fixpoint initialize_all (calls : list (TimerCache.TimerOs * Z))
    (this : TimerCache.WindowApiTimer * TimerCache.TimerHandles)
  : TimerCache.WindowApiTimer * TimerCache.TimerHandles :=
  match calls with
  | [] => this
  | (os, engine) :: calls =>
      initialize_all calls (TimerCache.Initialize os engine this)
  end.

(** ** A math library to run the model

    [pow] by repeated multiplication for the exponents 2 and 3, and [exp],
    [cos] and [sin] by the first terms of their power series, all in
    binary64.  It stands in for the platform's library in the examples. *)
Fixpoint series (n : nat) (k : Z) (x term acc : double) (step : Z)
    (alternate : bool) : double :=
  match n with
  | O => acc
  | S n =>
      let next :=
        if step =? 1 then (term * x / b64_of_Z (k + 1))%D
        else (term * x * x / b64_of_Z ((k + 1) * (k + 2)))%D in
      let next := if alternate then (- next)%D else next in
      series n (k + step) x next (acc + next)%D step alternate
  end.

Definition series_libm : Libm :=
  {| exp := fun x => series 40 0 x d_1 d_1 1 false;
     cos := fun x => series 30 0 x d_1 d_1 2 true;
     sin := fun x => series 30 1 x x x 2 true;
     pow := fun x y =>
       if (y =? d_2)%D then (x * x)%D
       else if (y =? d_3)%D then (x * x * x)%D
       else S754_nan |}.

(** ** Histories of one controller

    The public operations of [WindowApi] that touch the animation state,
    and a change of the host window's handle (creation or destruction of the
    native window), which the controller observes through
    [GetWindowHandle]. *)
Inductive Op :=
  | OpStartAnimation (os : Win32) (request : AnimationRequest)
  | OpStopAnimation (id : Z)
  | OpStopAllAnimations
  | OpOnTimer (os : Win32) (wParam : Z)
  | OpSetSpringParameters (damping stiffness : double)
  | OpHostWindowHandle (h : HWND).

Definition with_window_handle (h : HWND) (this : WindowApi) : WindowApi :=
  {| window_ :=
       match window_ this with
       | Some _ => Some {| GetWindowHandle := h |}
       | None => None
       end;
     active_animations_ := active_animations_ this;
     next_timer_id_ := next_timer_id_ this;
     spring_damping_ := spring_damping_ this;
     spring_stiffness_ := spring_stiffness_ this |}.

Definition step (libm : Libm) (this : WindowApi) (op : Op)
  : WindowApi * list Event :=
  match op with
  | OpStartAnimation os request =>
      let '(_, this, events) := StartAnimation os this request in (this, events)
  | OpStopAnimation id => StopAnimation this id
  | OpStopAllAnimations => StopAllAnimations this
  | OpOnTimer os wParam =>
      let '(_, this, events) := OnTimer libm os this wParam in (this, events)
  | OpSetSpringParameters damping stiffness =>
      (SetSpringParameters this damping stiffness, [])
  | OpHostWindowHandle h => (with_window_handle h this, [])
  end.

Fixpoint run (libm : Libm) (this : WindowApi) (ops : list Op)
  : WindowApi * list Event :=
  match ops with
  | [] => (this, [])
  | op :: ops =>
      let '(this, events) := step libm this op in
      let '(this, more) := run libm this ops in
      (this, events ++ more)
  end.

(** No two distinct stored animations are active in conflicting classes. *)
Definition no_conflicts (m : gmap Z WindowAnimation) : Prop :=
  forall i j a b,
    m !! i = Some a -> m !! j = Some b ->
    is_active a = true -> is_active b = true ->
    conflicts (property a) (property b) = true ->
    i = j.

(** Every stored record is live: active, with a window handle, and stored
    under its own timer identifier. *)
Definition records_live (m : gmap Z WindowAnimation) : Prop :=
  forall k a,
    m !! k = Some a -> is_active a = true /\ hwnd a <> NULL /\ timer_id a = k.

(** The window attributes an animated property writes: the origin, the
    extent, the alpha. *)
Inductive Attribute := Origin | Extent | Alpha.

Definition writes (p : AnimationPropertyType) (attr : Attribute) : bool :=
  match p, attr with
  | kPosition, Origin | kSize, Extent | kOpacity, Alpha => true
  | kBounds, Origin | kBounds, Extent => true
  | _, _ => false
  end.

(** The records [StopConflictingAnimations] leaves in the map. *)
Definition survivors (new_property : AnimationPropertyType)
    (m : gmap Z WindowAnimation) : gmap Z WindowAnimation :=
  filter (fun p => should_stop new_property p.2 = false) m.

(** The state [StartAnimation] leaves on success, given the record it
    stored. *)
Definition started (this : WindowApi) (request : AnimationRequest)
    (anim : WindowAnimation) : WindowApi :=
  {| window_ := window_ this;
     active_animations_ :=
       <[next_timer_id_ this := anim]>
         (survivors (req_property request) (active_animations_ this));
     next_timer_id_ := uint_ptr (next_timer_id_ this + 1);
     spring_damping_ :=
       if req_use_custom_spring request then req_spring_damping request
       else spring_damping_ this;
     spring_stiffness_ :=
       if req_use_custom_spring request then req_spring_stiffness request
       else spring_stiffness_ this |}.

(** ** A concrete window for the examples

    A 800 by 600 window at the origin of a 96 DPI screen, without drop
    shadow and not layered; the performance counter runs at 10 MHz. *)
Definition example_os (now : Z) : Win32 :=
  {| os_dpi := 96;
     os_frame_ok := true;
     os_frame_rect := {| left := 0; top := 0; right := 800; bottom := 600 |};
     os_window_rect_ok := true;
     os_window_rect := {| left := 0; top := 0; right := 800; bottom := 600 |};
     os_ex_style := 0;
     os_layered_ok := false; os_layered_alpha := 0; os_layered_flags := 0;
     os_qpc_now := now;
     os_qpc_frequency := 10000000 |}.

Definition example_api : WindowApi :=
  WindowApi_new (Some {| GetWindowHandle := 42 |}).

(** [AnimationRequest::Position(100, 100, 300, easing)] with a completion
    callback. *)
Definition example_position (easing : AnimationEasingType) : AnimationRequest :=
  {| req_property := kPosition; req_easing := easing;
     req_target_x := d_100; req_target_y := d_100;
     req_target_width := d_0; req_target_height := d_0;
     req_target_opacity := d_1;
     req_duration := 300;
     req_use_custom_spring := false;
     req_spring_damping := d_0_7; req_spring_stiffness := d_100;
     req_on_complete := Some 7%nat |}.

(** [AnimationRequest::Bounds(10, 10, 400, 300)] (spring easing by
    default), without callback. *)
Definition example_bounds : AnimationRequest :=
  {| req_property := kBounds; req_easing := kSpringBounce;
     req_target_x := d_10; req_target_y := d_10;
     req_target_width := d_400; req_target_height := d_300;
     req_target_opacity := d_1;
     req_duration := 300;
     req_use_custom_spring := false;
     req_spring_damping := d_0_7; req_spring_stiffness := d_100;
     req_on_complete := None |}.

(** [AnimationRequest::FadeOut()], optionally with custom spring values. *)
Definition example_fade_out (custom : bool) (damping stiffness : double)
  : AnimationRequest :=
  {| req_property := kOpacity; req_easing := kEaseIn;
     req_target_x := d_0; req_target_y := d_0;
     req_target_width := d_0; req_target_height := d_0;
     req_target_opacity := d_0;
     req_duration := 300;
     req_use_custom_spring := custom;
     req_spring_damping := damping; req_spring_stiffness := stiffness;
     req_on_complete := None |}.

(** The state after the position animation started at counter 0, and the
    record it stored. *)
Definition example_started (easing : AnimationEasingType) : WindowApi :=
  (StartAnimation (example_os 0) example_api (example_position easing)).1.2.

Definition example_anim (easing : AnimationEasingType) : WindowAnimation :=
  default WindowAnimation_default
    (active_animations_ (example_started easing) !! 1000).

(** ** Immediate geometry ([window_api.cc])

    [Point], [Size] and [Rect] are the value types of [geometry.h], which is
    not among the sources; the code only constructs them and, in the C
    export, reads the four components back. *)
Record Point := { point_x : double; point_y : double }.
Record Size := { size_width : double; size_height : double }.
Record Rect := { rect_origin : Point; rect_size : Size }.

(** [WindowPositionRequest] ([window_api.h]) and the fields of
    [WindowSizeRequest] that [SetBounds] reads. *)
Record WindowPositionRequest := { has_pos : bool; pos_x : double; pos_y : double }.
Record WindowSizeRequest := {
  has_preferred_view_size : bool;
  preferred_view_width : double;
  preferred_view_height : double
}.
Record WindowBoundsRequest := {
  request_position : WindowPositionRequest;
  request_size : WindowSizeRequest
}.

Definition dpi_scale (os : Win32) : double :=
  (b64_of_Z (os_dpi os) / b64_of_Z USER_DEFAULT_SCREEN_DPI)%D.

Definition SetBounds (os : Win32) (this : WindowApi)
    (request : WindowBoundsRequest) : list Event :=
  match window_ this with
  | None => []
  | Some window =>
      let window_handle := GetWindowHandle window in
      if window_handle =? NULL then []
      else
        let scale_factor := dpi_scale os in
        let physical_x :=
          static_cast_int (pos_x (request_position request) * scale_factor)%D in
        let physical_y :=
          static_cast_int (pos_y (request_position request) * scale_factor)%D in
        let physical_width :=
          static_cast_int
            (preferred_view_width (request_size request) * scale_factor)%D in
        let physical_height :=
          static_cast_int
            (preferred_view_height (request_size request) * scale_factor)%D in
        let flags := Z.lor SWP_NOZORDER SWP_NOACTIVATE in
        let flags :=
          if has_pos (request_position request) then flags
          else Z.lor flags SWP_NOMOVE in
        let flags :=
          if has_preferred_view_size (request_size request) then flags
          else Z.lor flags SWP_NOSIZE in
        let frame_rect := os_frame_rect os in
        let window_rect := os_window_rect os in
        if os_frame_ok os then
          if os_window_rect_ok os then
            let left_shadow := int32 (left frame_rect - left window_rect) in
            let top_shadow := int32 (top frame_rect - top window_rect) in
            let right_shadow := int32 (right window_rect - right frame_rect) in
            let bottom_shadow :=
              int32 (bottom window_rect - bottom frame_rect) in
            let new_x := int32 (physical_x - left_shadow) in
            let new_y := int32 (physical_y - top_shadow) in
            let new_width :=
              int32 (physical_width + int32 (left_shadow + right_shadow)) in
            let new_height :=
              int32 (physical_height + int32 (top_shadow + bottom_shadow)) in
            [GetDpiForHWND window_handle;
             DwmGetWindowAttribute window_handle;
             GetWindowRect window_handle;
             SetWindowPos window_handle new_x new_y new_width new_height flags]
          else
            [GetDpiForHWND window_handle;
             DwmGetWindowAttribute window_handle;
             GetWindowRect window_handle;
             SetWindowPos window_handle physical_x physical_y
               physical_width physical_height flags]
        else
          [GetDpiForHWND window_handle;
           DwmGetWindowAttribute window_handle;
           SetWindowPos window_handle physical_x physical_y
             physical_width physical_height flags]
  end.

Definition origin_of (r : RECT) (scale_factor : double) : Point :=
  {| point_x := (b64_of_Z (left r) / scale_factor)%D;
     point_y := (b64_of_Z (top r) / scale_factor)%D |}.

Definition extent_of (r : RECT) (scale_factor : double) : Size :=
  {| size_width := (b64_of_Z (rect_width r) / scale_factor)%D;
     size_height := (b64_of_Z (rect_height r) / scale_factor)%D |}.

Definition Point_zero : Point := {| point_x := d_0; point_y := d_0 |}.
Definition Size_zero : Size := {| size_width := d_0; size_height := d_0 |}.

Definition GetPosition (os : Win32) (this : WindowApi) : Point * list Event :=
  match window_ this with
  | None => (Point_zero, [])
  | Some window =>
      let window_handle := GetWindowHandle window in
      if window_handle =? NULL then (Point_zero, [])
      else
        let scale_factor := dpi_scale os in
        if os_frame_ok os then
          (origin_of (os_frame_rect os) scale_factor,
           [GetDpiForHWND window_handle; DwmGetWindowAttribute window_handle])
        else if os_window_rect_ok os then
          (origin_of (os_window_rect os) scale_factor,
           [GetDpiForHWND window_handle; DwmGetWindowAttribute window_handle;
            GetWindowRect window_handle])
        else
          (Point_zero,
           [GetDpiForHWND window_handle; DwmGetWindowAttribute window_handle;
            GetWindowRect window_handle])
  end.

Definition GetBounds (os : Win32) (this : WindowApi) : Rect * list Event :=
  match window_ this with
  | None => ({| rect_origin := Point_zero; rect_size := Size_zero |}, [])
  | Some window =>
      let window_handle := GetWindowHandle window in
      if window_handle =? NULL
      then ({| rect_origin := Point_zero; rect_size := Size_zero |}, [])
      else
        let scale_factor := dpi_scale os in
        if os_frame_ok os then
          ({| rect_origin := origin_of (os_frame_rect os) scale_factor;
              rect_size := extent_of (os_frame_rect os) scale_factor |},
           [GetDpiForHWND window_handle; DwmGetWindowAttribute window_handle])
        else if os_window_rect_ok os then
          ({| rect_origin := origin_of (os_window_rect os) scale_factor;
              rect_size := extent_of (os_window_rect os) scale_factor |},
           [GetDpiForHWND window_handle; DwmGetWindowAttribute window_handle;
            GetWindowRect window_handle])
        else
          ({| rect_origin := Point_zero; rect_size := Size_zero |},
           [GetDpiForHWND window_handle; DwmGetWindowAttribute window_handle;
            GetWindowRect window_handle])
  end.

(** The bounds request that asks for the value a Bounds animation has at
    eased progress [e]. *)
Definition bounds_at (anim : WindowAnimation) (e : double) : WindowBoundsRequest :=
  {| request_position :=
       {| has_pos := true;
          pos_x := lerp (start_x anim) (target_x anim) e;
          pos_y := lerp (start_y anim) (target_y anim) e |};
     request_size :=
       {| has_preferred_view_size := true;
          preferred_view_width :=
            lerp (start_width anim) (target_width anim) e;
          preferred_view_height :=
            lerp (start_height anim) (target_height anim) e |} |}.

(** ** Dragging ([WindowApi::DragWindow])

    The drag members of [WindowApi].  [GetCursorPos] is a read of the
    pointer position passed in and leaves no event. *)
Record POINT := { pt_x : Z; pt_y : Z }.

Record DragState := {
  drag_start_cursor_pos_ : POINT;
  drag_start_window_pos_ : POINT;
  is_dragging_ : bool
}.

(** The header's initialisers. *)
Definition DragState_new : DragState :=
  {| drag_start_cursor_pos_ := {| pt_x := 0; pt_y := 0 |};
     drag_start_window_pos_ := {| pt_x := 0; pt_y := 0 |};
     is_dragging_ := false |}.

Definition DragWindow (os : Win32) (cursor : POINT)
    (window : option HostWindow) (drag : DragState) (state : Z)
  : DragState * list Event :=
  match window with
  | None => (drag, [])
  | Some window =>
      let window_handle := GetWindowHandle window in
      if window_handle =? NULL then (drag, [])
      else if state =? 0 then
        ({| drag_start_cursor_pos_ := cursor;
            drag_start_window_pos_ :=
              if os_window_rect_ok os
              then {| pt_x := left (os_window_rect os);
                      pt_y := top (os_window_rect os) |}
              else drag_start_window_pos_ drag;
            is_dragging_ := true |},
         [GetWindowRect window_handle])
      else if state =? 1 then
        if is_dragging_ drag then
          let delta_x :=
            int32 (pt_x cursor - pt_x (drag_start_cursor_pos_ drag)) in
          let delta_y :=
            int32 (pt_y cursor - pt_y (drag_start_cursor_pos_ drag)) in
          let new_x := int32 (pt_x (drag_start_window_pos_ drag) + delta_x) in
          let new_y := int32 (pt_y (drag_start_window_pos_ drag) + delta_y) in
          (drag,
           [SetWindowPos window_handle new_x new_y 0 0
              (Z.lor (Z.lor SWP_NOSIZE SWP_NOZORDER) SWP_NOACTIVATE)])
        else (drag, [])
      else if state =? 2 then
        ({| drag_start_cursor_pos_ := drag_start_cursor_pos_ drag;
            drag_start_window_pos_ := drag_start_window_pos_ drag;
            is_dragging_ := false |}, [])
      else (drag, [])
  end.

(** A drag gesture: the states the embedder sends, each with the pointer
    position and the system's answers at that moment. *)
Fixpoint drag_run (window : option HostWindow) (drag : DragState)
    (gesture : list (Win32 * POINT * Z)) : DragState * list Event :=
  match gesture with
  | [] => (drag, [])
  | (os, cursor, state) :: rest =>
      let '(drag, events) := DragWindow os cursor window drag state in
      let '(drag, more) := drag_run window drag rest in
      (drag, events ++ more)
  end.

Definition is_resize (e : Event) : bool :=
  match e with
  | SetWindowPos _ _ _ _ _ flags => negb (Z.testbit flags 0)
  | _ => false
  end.

(** ** Centring ([WindowApi::CenterWindowOnMonitor])

    What [GetMonitorUnderMouse] learns: whether [GetCursorPos] succeeded,
    the monitor [MonitorFromPoint] returns, and whether [GetMonitorInfo]
    succeeded with which work area.  These queries leave no event. *)
Definition SWP_FRAMECHANGED : Z := 0x0020.

Record MonitorOs := {
  mon_cursor_ok : bool;
  mon_monitor : Z;
  mon_info_ok : bool;
  mon_work_rect : RECT
}.

Definition RECT_zero : RECT := {| left := 0; top := 0; right := 0; bottom := 0 |}.

(** [GetMonitorUnderMouse]: the monitor handle ([0] for null) and the work
    rectangle of the returned [MonitorData]. *)
Definition GetMonitorUnderMouse (mon : MonitorOs) : Z * RECT :=
  if negb (mon_cursor_ok mon) then (0, RECT_zero)
  else if negb (mon_info_ok mon) then (mon_monitor mon, RECT_zero)
  else (mon_monitor mon, mon_work_rect mon).

Definition CenterWindowOnMonitor (os : Win32) (mon : MonitorOs)
    (this : WindowApi) : list Event :=
  match window_ this with
  | None => []
  | Some window =>
      let h := GetWindowHandle window in
      if h =? NULL then []
      else
        let '(monitor, work) := GetMonitorUnderMouse mon in
        if monitor =? 0 then []
        else
          let frame_rect :=
            if os_frame_ok os then os_frame_rect os
            else if os_window_rect_ok os then os_window_rect os
            else os_frame_rect os in
          let frame_events :=
            DwmGetWindowAttribute h
              :: (if os_frame_ok os then [] else [GetWindowRect h]) in
          let frame_width := int32 (right frame_rect - left frame_rect) in
          let frame_height := int32 (bottom frame_rect - top frame_rect) in
          let target_frame_x :=
            int32 (left work
                   + Z.quot (int32 (int32 (right work - left work) - frame_width))
                            2) in
          let target_frame_y :=
            int32 (top work
                   + Z.quot (int32 (int32 (bottom work - top work) - frame_height))
                            2) in
          let window_rect := os_window_rect os in
          let shadow_offset_x := int32 (left frame_rect - left window_rect) in
          let shadow_offset_y := int32 (top frame_rect - top window_rect) in
          let final_x := int32 (target_frame_x - shadow_offset_x) in
          let final_y := int32 (target_frame_y - shadow_offset_y) in
          frame_events
            ++ [GetWindowRect h;
                SetWindowPos h final_x final_y 0 0
                  (Z.lor (Z.lor (Z.lor SWP_NOSIZE SWP_NOZORDER) SWP_NOACTIVATE)
                         SWP_FRAMECHANGED)]
  end.

(** Coordinates of a desktop: far from the limits of a 32-bit [LONG], so
    that sums and differences of two of them do not wrap. *)
Definition coord_ok (z : Z) : Prop := - 2 ^ 28 <= z <= 2 ^ 28.

Definition point_ok (p : POINT) : Prop := coord_ok (pt_x p) /\ coord_ok (pt_y p).

Definition rect_ok (r : RECT) : Prop :=
  coord_ok (left r) /\ coord_ok (top r) /\ coord_ok (right r)
  /\ coord_ok (bottom r).

(** ** Window styles

    More constants of the Windows SDK headers. *)
Definition GWL_STYLE : Z := -16.
Definition WS_THICKFRAME : Z := 0x00040000.
Definition WS_SYSMENU : Z := 0x00080000.
Definition WS_CAPTION : Z := 0x00C00000.
Definition WS_EX_DLGMODALFRAME : Z := 0x00000001.
Definition WS_EX_TOPMOST : Z := 0x00000008.
Definition WS_EX_TRANSPARENT : Z := 0x00000020.
Definition WS_EX_WINDOWEDGE : Z := 0x00000100.
Definition WS_EX_CLIENTEDGE : Z := 0x00000200.
Definition WS_EX_STATICEDGE : Z := 0x00020000.

Definition uint32 (z : Z) : Z := wrap_unsigned 32 z.

(** [value & ~mask] *)
Definition clear_bits (value mask : Z) : Z := Z.land value (Z.lnot mask).

(** [SetResizable]: the new value of [is_resizable_] and the calls.
    [style] is what [GetWindowLong(GWL_STYLE)] returns. *)
Definition SetResizable (style : Z) (this : WindowApi) (is_resizable_ : bool)
    (is_resizable : bool) : bool * list Event :=
  match window_ this with
  | None => (is_resizable_, [])
  | Some window =>
      let window_handle := GetWindowHandle window in
      if window_handle =? NULL then (is_resizable_, [])
      else
        let gwlStyle := uint32 style in
        let gwlStyle :=
          if is_resizable then uint32 (Z.lor gwlStyle WS_THICKFRAME)
          else uint32 (clear_bits gwlStyle WS_THICKFRAME) in
        (is_resizable,
         [GetWindowLong window_handle GWL_STYLE;
          SetWindowLong window_handle GWL_STYLE (int32 gwlStyle)])
  end.

Definition IsResizable (is_resizable_ : bool) : bool := is_resizable_.

Definition SetNoSystemMenu (style : Z) (this : WindowApi) : list Event :=
  match window_ this with
  | None => []
  | Some window =>
      let window_handle := GetWindowHandle window in
      if window_handle =? NULL then []
      else
        let gwlStyle := uint32 style in
        [GetWindowLong window_handle GWL_STYLE;
         SetWindowLong window_handle GWL_STYLE
           (int32 (uint32 (clear_bits gwlStyle WS_SYSMENU)))]
  end.

(** [SetNoFrame]: [dwStyle] and [dwExStyle] are the fields [GetWindowInfo]
    fills in (a read that leaves no event). *)
Definition SetNoFrame (dwStyle dwExStyle : Z) (this : WindowApi) : list Event :=
  match window_ this with
  | None => []
  | Some window =>
      let window_handle := GetWindowHandle window in
      if window_handle =? NULL then []
      else
        [SetWindowLong window_handle GWL_STYLE
           (int32 (uint32 (clear_bits (uint32 dwStyle)
                             (Z.lor WS_CAPTION WS_THICKFRAME))));
         SetWindowLong window_handle GWL_EXSTYLE
           (int32 (uint32 (clear_bits (uint32 dwExStyle)
                             (Z.lor (Z.lor (Z.lor WS_EX_DLGMODALFRAME
                                                  WS_EX_WINDOWEDGE)
                                           WS_EX_CLIENTEDGE)
                                    WS_EX_STATICEDGE))))]
  end.

Definition IsAlwaysOnTop (os : Win32) (this : WindowApi) : bool * list Event :=
  match window_ this with
  | None => (false, [])
  | Some window =>
      let window_handle := GetWindowHandle window in
      if window_handle =? NULL then (false, [])
      else
        let dwExStyle := uint32 (os_ex_style os) in
        (negb (Z.land dwExStyle WS_EX_TOPMOST =? 0),
         [GetWindowLong window_handle GWL_EXSTYLE])
  end.

Definition SetIgnoreMouseEvents (os : Win32) (this : WindowApi) (ignore : bool)
  : list Event :=
  match window_ this with
  | None => []
  | Some window =>
      let h := GetWindowHandle window in
      if h =? NULL then []
      else
        let ex_style := os_ex_style os in
        let ex_style :=
          if ignore
          then int32 (Z.lor ex_style (Z.lor WS_EX_TRANSPARENT WS_EX_LAYERED))
          else int32 (clear_bits ex_style
                        (Z.lor WS_EX_TRANSPARENT WS_EX_LAYERED)) in
        [GetWindowLong h GWL_EXSTYLE; SetWindowLong h GWL_EXSTYLE ex_style]
  end.

(** ** The exported C interface

    The C-compatible values of the easing enumeration. *)
Definition kAnimationEasingLinear : Z := 0.
Definition kAnimationEasingEaseIn : Z := 1.
Definition kAnimationEasingEaseOut : Z := 2.
Definition kAnimationEasingEaseInOut : Z := 3.
Definition kAnimationEasingSpringBounce : Z := 4.
Definition kAnimationEasingOvershoot : Z := 5.

Definition ConvertEasingType (easing : Z) : AnimationEasingType :=
  if easing =? kAnimationEasingLinear then kLinear
  else if easing =? kAnimationEasingEaseIn then kEaseIn
  else if easing =? kAnimationEasingEaseOut then kEaseOut
  else if easing =? kAnimationEasingEaseInOut then kEaseInOut
  else if easing =? kAnimationEasingSpringBounce then kSpringBounce
  else if easing =? kAnimationEasingOvershoot then kOvershoot
  else kLinear.

(** The value of an enumerator of [AnimationEasingType]: its position in
    the declaration. *)
Definition easing_value (easing : AnimationEasingType) : Z :=
  match easing with
  | kLinear => 0
  | kEaseIn => 1
  | kEaseOut => 2
  | kEaseInOut => 3
  | kSpringBounce => 4
  | kOvershoot => 5
  end.

(** A default-constructed [AnimationRequest]. *)
Definition AnimationRequest_new : AnimationRequest :=
  {| req_property := kPosition; req_easing := kSpringBounce;
     req_target_x := d_0; req_target_y := d_0;
     req_target_width := d_0; req_target_height := d_0;
     req_target_opacity := d_1;
     req_duration := 300;
     req_use_custom_spring := false;
     req_spring_damping := d_0_7; req_spring_stiffness := d_100;
     req_on_complete := None |}.

(** [AnimationRequest::Position], [::Size], [::Bounds], [::Opacity],
    [::FadeIn] and [::FadeOut]. *)
Definition AnimationRequest_Position (x y : double) (duration : Z)
    (easing : AnimationEasingType) : AnimationRequest :=
  {| req_property := kPosition; req_easing := easing;
     req_target_x := x; req_target_y := y;
     req_target_width := req_target_width AnimationRequest_new;
     req_target_height := req_target_height AnimationRequest_new;
     req_target_opacity := req_target_opacity AnimationRequest_new;
     req_duration := duration;
     req_use_custom_spring := req_use_custom_spring AnimationRequest_new;
     req_spring_damping := req_spring_damping AnimationRequest_new;
     req_spring_stiffness := req_spring_stiffness AnimationRequest_new;
     req_on_complete := req_on_complete AnimationRequest_new |}.

Definition AnimationRequest_Size (width height : double) (duration : Z)
    (easing : AnimationEasingType) : AnimationRequest :=
  {| req_property := kSize; req_easing := easing;
     req_target_x := req_target_x AnimationRequest_new;
     req_target_y := req_target_y AnimationRequest_new;
     req_target_width := width; req_target_height := height;
     req_target_opacity := req_target_opacity AnimationRequest_new;
     req_duration := duration;
     req_use_custom_spring := req_use_custom_spring AnimationRequest_new;
     req_spring_damping := req_spring_damping AnimationRequest_new;
     req_spring_stiffness := req_spring_stiffness AnimationRequest_new;
     req_on_complete := req_on_complete AnimationRequest_new |}.

Definition AnimationRequest_Bounds (x y width height : double) (duration : Z)
    (easing : AnimationEasingType) : AnimationRequest :=
  {| req_property := kBounds; req_easing := easing;
     req_target_x := x; req_target_y := y;
     req_target_width := width; req_target_height := height;
     req_target_opacity := req_target_opacity AnimationRequest_new;
     req_duration := duration;
     req_use_custom_spring := req_use_custom_spring AnimationRequest_new;
     req_spring_damping := req_spring_damping AnimationRequest_new;
     req_spring_stiffness := req_spring_stiffness AnimationRequest_new;
     req_on_complete := req_on_complete AnimationRequest_new |}.

Definition AnimationRequest_Opacity (opacity : double) (duration : Z)
    (easing : AnimationEasingType) : AnimationRequest :=
  {| req_property := kOpacity; req_easing := easing;
     req_target_x := req_target_x AnimationRequest_new;
     req_target_y := req_target_y AnimationRequest_new;
     req_target_width := req_target_width AnimationRequest_new;
     req_target_height := req_target_height AnimationRequest_new;
     req_target_opacity := opacity;
     req_duration := duration;
     req_use_custom_spring := req_use_custom_spring AnimationRequest_new;
     req_spring_damping := req_spring_damping AnimationRequest_new;
     req_spring_stiffness := req_spring_stiffness AnimationRequest_new;
     req_on_complete := req_on_complete AnimationRequest_new |}.

Definition AnimationRequest_FadeIn (duration : Z) : AnimationRequest :=
  AnimationRequest_Opacity d_1 duration kEaseOut.

Definition AnimationRequest_FadeOut (duration : Z) : AnimationRequest :=
  AnimationRequest_Opacity d_0 duration kEaseIn.

(** The C-compatible request structures. *)
Record PositionAnimationRequest := {
  pos_target_x : double;
  pos_target_y : double;
  pos_duration : Z;
  pos_easing : Z;
  pos_use_custom_spring : bool;
  pos_spring_damping : double;
  pos_spring_stiffness : double
}.

Record SizeAnimationRequest := {
  size_target_width : double;
  size_target_height : double;
  size_duration : Z;
  size_easing : Z;
  size_use_custom_spring : bool;
  size_spring_damping : double;
  size_spring_stiffness : double
}.

Record BoundsAnimationRequest := {
  bounds_target_x : double;
  bounds_target_y : double;
  bounds_target_width : double;
  bounds_target_height : double;
  bounds_duration : Z;
  bounds_easing : Z;
  bounds_use_custom_spring : bool;
  bounds_spring_damping : double;
  bounds_spring_stiffness : double
}.

Record OpacityAnimationRequest := {
  opacity_target_opacity : double;
  opacity_duration : Z;
  opacity_easing : Z
}.

(** [HostWindow::GetThisFromHandle] followed by [GetApi]: for a handle,
    whether a host window is registered, and the controller its [GetApi]
    returns ([None] for a null pointer). *)
Definition HostWindows : Type := HWND -> option (option WindowApi).

Definition GetWindowApiFromHwnd (hosts : HostWindows) (hwnd : HWND)
  : option WindowApi :=
  if hwnd =? NULL then None
  else
    match hosts hwnd with
    | None => None
    | Some api => api
    end.

(** The exported functions return their result, the new state of the
    controller they reached ([None] when they reached none) and the calls
    made. *)
Definition InternalFlutterWindows_WindowApi_StartPositionAnimation
    (os : Win32) (hosts : HostWindows) (hwnd : HWND)
    (request : option PositionAnimationRequest)
  : Z * option WindowApi * list Event :=
  match request with
  | None => (0, None, [])
  | Some request =>
      match GetWindowApiFromHwnd hosts hwnd with
      | None => (0, None, [])
      | Some api =>
          let easing := ConvertEasingType (pos_easing request) in
          let api :=
            if pos_use_custom_spring request
            then SetSpringParameters api (pos_spring_damping request)
                   (pos_spring_stiffness request)
            else api in
          let anim_request :=
            AnimationRequest_Position (pos_target_x request)
              (pos_target_y request) (pos_duration request) easing in
          let '(id, api, events) := StartAnimation os api anim_request in
          (id, Some api, events)
      end
  end.

Definition InternalFlutterWindows_WindowApi_StartSizeAnimation
    (os : Win32) (hosts : HostWindows) (hwnd : HWND)
    (request : option SizeAnimationRequest)
  : Z * option WindowApi * list Event :=
  match request with
  | None => (0, None, [])
  | Some request =>
      match GetWindowApiFromHwnd hosts hwnd with
      | None => (0, None, [])
      | Some api =>
          let easing := ConvertEasingType (size_easing request) in
          let api :=
            if size_use_custom_spring request
            then SetSpringParameters api (size_spring_damping request)
                   (size_spring_stiffness request)
            else api in
          let anim_request :=
            AnimationRequest_Size (size_target_width request)
              (size_target_height request) (size_duration request) easing in
          let '(id, api, events) := StartAnimation os api anim_request in
          (id, Some api, events)
      end
  end.

Definition InternalFlutterWindows_WindowApi_StartBoundsAnimation
    (os : Win32) (hosts : HostWindows) (hwnd : HWND)
    (request : option BoundsAnimationRequest)
  : Z * option WindowApi * list Event :=
  match request with
  | None => (0, None, [])
  | Some request =>
      match GetWindowApiFromHwnd hosts hwnd with
      | None => (0, None, [])
      | Some api =>
          let easing := ConvertEasingType (bounds_easing request) in
          let api :=
            if bounds_use_custom_spring request
            then SetSpringParameters api (bounds_spring_damping request)
                   (bounds_spring_stiffness request)
            else api in
          let anim_request :=
            AnimationRequest_Bounds (bounds_target_x request)
              (bounds_target_y request) (bounds_target_width request)
              (bounds_target_height request) (bounds_duration request)
              easing in
          let '(id, api, events) := StartAnimation os api anim_request in
          (id, Some api, events)
      end
  end.

Definition InternalFlutterWindows_WindowApi_StartOpacityAnimation
    (os : Win32) (hosts : HostWindows) (hwnd : HWND)
    (request : option OpacityAnimationRequest)
  : Z * option WindowApi * list Event :=
  match request with
  | None => (0, None, [])
  | Some request =>
      match GetWindowApiFromHwnd hosts hwnd with
      | None => (0, None, [])
      | Some api =>
          let easing := ConvertEasingType (opacity_easing request) in
          let anim_request :=
            AnimationRequest_Opacity (opacity_target_opacity request)
              (opacity_duration request) easing in
          let '(id, api, events) := StartAnimation os api anim_request in
          (id, Some api, events)
      end
  end.

Definition InternalFlutterWindows_WindowApi_StopAnimation
    (hosts : HostWindows) (hwnd : HWND) (timer_id : Z)
  : option WindowApi * list Event :=
  match GetWindowApiFromHwnd hosts hwnd with
  | None => (None, [])
  | Some api =>
      let '(api, events) := StopAnimation api timer_id in (Some api, events)
  end.

Definition InternalFlutterWindows_WindowApi_StopAllAnimations
    (hosts : HostWindows) (hwnd : HWND) : option WindowApi * list Event :=
  match GetWindowApiFromHwnd hosts hwnd with
  | None => (None, [])
  | Some api =>
      let '(api, events) := StopAllAnimations api in (Some api, events)
  end.

Definition InternalFlutterWindows_WindowApi_HasActiveAnimation
    (hosts : HostWindows) (hwnd : HWND) : bool :=
  match GetWindowApiFromHwnd hosts hwnd with
  | None => false
  | Some api => HasActiveAnimation api
  end.

Definition InternalFlutterWindows_WindowApi_SetSpringParameters
    (hosts : HostWindows) (hwnd : HWND) (damping stiffness : double)
  : option WindowApi :=
  match GetWindowApiFromHwnd hosts hwnd with
  | None => None
  | Some api => Some (SetSpringParameters api damping stiffness)
  end.

(** *** Histories through the C interface

    The calls an embedder makes on one controller through the exported
    functions, the timer messages the window procedure hands to [OnTimer],
    and the changes of the host window's handle. *)
Inductive COp :=
  | CStartPositionAnimation (os : Win32) (hwnd : HWND)
      (request : option PositionAnimationRequest)
  | CStartSizeAnimation (os : Win32) (hwnd : HWND)
      (request : option SizeAnimationRequest)
  | CStartBoundsAnimation (os : Win32) (hwnd : HWND)
      (request : option BoundsAnimationRequest)
  | CStartOpacityAnimation (os : Win32) (hwnd : HWND)
      (request : option OpacityAnimationRequest)
  | CStopAnimation (hwnd : HWND) (timer_id : Z)
  | CStopAllAnimations (hwnd : HWND)
  | CSetSpringParameters (hwnd : HWND) (damping stiffness : double)
  | COnTimer (os : Win32) (wParam : Z)
  | CHostWindowHandle (h : HWND).

(** Every handle leads to the one controller. *)
Definition sole_host (this : WindowApi) : HostWindows :=
  fun _ => Some (Some this).

Definition c_step (libm : Libm) (this : WindowApi) (op : COp)
  : WindowApi * list Event :=
  match op with
  | CStartPositionAnimation os hwnd request =>
      let '(_, api, events) :=
        InternalFlutterWindows_WindowApi_StartPositionAnimation os
          (sole_host this) hwnd request in
      (default this api, events)
  | CStartSizeAnimation os hwnd request =>
      let '(_, api, events) :=
        InternalFlutterWindows_WindowApi_StartSizeAnimation os
          (sole_host this) hwnd request in
      (default this api, events)
  | CStartBoundsAnimation os hwnd request =>
      let '(_, api, events) :=
        InternalFlutterWindows_WindowApi_StartBoundsAnimation os
          (sole_host this) hwnd request in
      (default this api, events)
  | CStartOpacityAnimation os hwnd request =>
      let '(_, api, events) :=
        InternalFlutterWindows_WindowApi_StartOpacityAnimation os
          (sole_host this) hwnd request in
      (default this api, events)
  | CStopAnimation hwnd timer_id =>
      let '(api, events) :=
        InternalFlutterWindows_WindowApi_StopAnimation (sole_host this) hwnd
          timer_id in
      (default this api, events)
  | CStopAllAnimations hwnd =>
      let '(api, events) :=
        InternalFlutterWindows_WindowApi_StopAllAnimations (sole_host this)
          hwnd in
      (default this api, events)
  | CSetSpringParameters hwnd damping stiffness =>
      (default this
         (InternalFlutterWindows_WindowApi_SetSpringParameters
            (sole_host this) hwnd damping stiffness), [])
  | COnTimer os wParam =>
      let '(_, this, events) := OnTimer libm os this wParam in (this, events)
  | CHostWindowHandle h => (with_window_handle h this, [])
  end.

Fixpoint c_run (libm : Libm) (this : WindowApi) (ops : list COp)
  : WindowApi * list Event :=
  match ops with
  | [] => (this, [])
  | op :: ops =>
      let '(this, events) := c_step libm this op in
      let '(this, more) := c_run libm this ops in
      (this, events ++ more)
  end.

(** The spring parameters are within the limits of [SetSpringParameters]. *)
Definition spring_in_range (this : WindowApi) : Prop :=
  fle d_0_1 (spring_damping_ this) = true
  /\ fle (spring_damping_ this) d_2 = true
  /\ fle d_10 (spring_stiffness_ this) = true
  /\ fle (spring_stiffness_ this) d_500 = true.

Definition no_callbacks (m : gmap Z WindowAnimation) : Prop :=
  forall k a, m !! k = Some a -> on_complete a = None.

(** What a start through the C interface leaves behind: the identifier
    returned is the one the controller had next, the record stored under it
    has the given easing and property and no callback, and the controller's
    spring parameters are the limited ones when custom parameters were
    asked for and the previous ones otherwise. *)
Definition c_started (this : WindowApi) (use_custom_spring : bool)
    (damping stiffness : double) (easing_ : AnimationEasingType)
    (property_ : AnimationPropertyType)
    (result : Z * option WindowApi * list Event) : Prop :=
  exists this' anim,
    result.1 = (next_timer_id_ this, Some this')
    /\ active_animations_ this' !! next_timer_id_ this = Some anim
    /\ easing anim = easing_
    /\ property anim = property_
    /\ on_complete anim = None
    /\ spring_damping_ this'
       = (if use_custom_spring then std_max d_0_1 (std_min d_2 damping)
          else spring_damping_ this)
    /\ spring_stiffness_ this'
       = (if use_custom_spring then std_max d_10 (std_min d_500 stiffness)
          else spring_stiffness_ this)
    /\ (use_custom_spring = true -> spring_in_range this')
    /\ existsb is_OnComplete result.2 = false.

(** ** Non-client hit testing ([WindowApi::OnNcHitTest])

    The hit-test codes of the Windows SDK headers. *)
Definition HTCLIENT : Z := 1.
Definition HTCAPTION : Z := 2.
Definition HTLEFT : Z := 10.
Definition HTRIGHT : Z := 11.
Definition HTTOP : Z := 12.
Definition HTTOPLEFT : Z := 13.
Definition HTTOPRIGHT : Z := 14.
Definition HTBOTTOM : Z := 15.
Definition HTBOTTOMLEFT : Z := 16.
Definition HTBOTTOMRIGHT : Z := 17.

(** What the system answers during one hit test: the function [MulDiv],
    the three system metrics, the window's DPI, the point [ScreenToClient]
    leaves in [pt] and the rectangle [GetClientRect] fills in. *)
Record NcOs := {
  nc_MulDiv : Z -> Z -> Z -> Z;
  nc_SM_CXFRAME : Z;
  nc_SM_CYFRAME : Z;
  nc_SM_CXPADDEDBORDER : Z;
  nc_dpi : Z;
  nc_pt : POINT;
  nc_rc : RECT
}.

Definition ScaleByDpi (os : NcOs) (value dpi : Z) : Z :=
  nc_MulDiv os value dpi 96.

Record NcMetrics := {
  cxFrame : Z;
  cyFrame : Z;
  paddedBorder : Z;
  resizeBorder : Z
}.

Definition GetNcMetrics (os : NcOs) (dpi : Z) : NcMetrics :=
  let cx := ScaleByDpi os (nc_SM_CXFRAME os) dpi in
  let cy := ScaleByDpi os (nc_SM_CYFRAME os) dpi in
  let padded := ScaleByDpi os (nc_SM_CXPADDEDBORDER os) dpi in
  {| cxFrame := cx; cyFrame := cy; paddedBorder := padded;
     resizeBorder := int32 (cx + padded) |}.

Definition OnNcHitTest (os : NcOs) (titleBarHeightLogical : Z) : Z :=
  let pt := nc_pt os in
  let rc := nc_rc os in
  let dpi := nc_dpi os in
  let m := GetNcMetrics os dpi in
  let titleBarHeight := ScaleByDpi os titleBarHeightLogical dpi in
  if pt_y pt <? resizeBorder m then
    if pt_x pt <? resizeBorder m then HTTOPLEFT
    else if int32 (right rc - resizeBorder m) <? pt_x pt then HTTOPRIGHT
    else HTTOP
  else if int32 (bottom rc - resizeBorder m) <? pt_y pt then
    if pt_x pt <? resizeBorder m then HTBOTTOMLEFT
    else if int32 (right rc - resizeBorder m) <? pt_x pt then HTBOTTOMRIGHT
    else HTBOTTOM
  else if pt_x pt <? resizeBorder m then HTLEFT
  else if int32 (right rc - resizeBorder m) <? pt_x pt then HTRIGHT
  else if pt_y pt <? titleBarHeight then HTCAPTION
  else HTCLIENT.

(** The codes that resize from the left, right, top and bottom edge. *)
Definition hit_left (code : Z) : bool :=
  (code =? HTLEFT) || (code =? HTTOPLEFT) || (code =? HTBOTTOMLEFT).
Definition hit_right (code : Z) : bool :=
  (code =? HTRIGHT) || (code =? HTTOPRIGHT) || (code =? HTBOTTOMRIGHT).
Definition hit_top (code : Z) : bool :=
  (code =? HTTOP) || (code =? HTTOPLEFT) || (code =? HTTOPRIGHT).
Definition hit_bottom (code : Z) : bool :=
  (code =? HTBOTTOM) || (code =? HTBOTTOMLEFT) || (code =? HTBOTTOMRIGHT).

(** * Properties *)

(** ** Comparisons of doubles *)

Lemma SFcompare_antisym (a b : double) :
  SFcompare b a = option_map CompOpp (SFcompare a b).
Proof.
  destruct a as [sa|sa| |sa ma ea], b as [sb|sb| |sb mb eb]; simpl;
    try reflexivity;
    try (destruct sa; reflexivity); try (destruct sb; reflexivity);
    try (destruct sa, sb; reflexivity).
  pose proof (Pos.compare_cont_antisym ma mb Eq) as Hm. simpl in Hm.
  destruct sa, sb; simpl; try reflexivity;
    rewrite (Z.compare_antisym ea eb);
    destruct (ea ?= eb) eqn:He; simpl; try reflexivity;
    rewrite <- Hm; destruct (Pos.compare_cont Eq ma mb); reflexivity.
Qed.

Lemma flt_fle (a b : double) : flt a b = true -> fle a b = true.
Proof.
  unfold flt, fle, SFltb, SFleb.
  destruct (SFcompare a b) as [[]|]; congruence.
Qed.

Lemma flt_asym (a b : double) : flt a b = true -> flt b a = false.
Proof.
  unfold flt, SFltb. rewrite (SFcompare_antisym a b).
  destruct (SFcompare a b) as [[]|]; simpl; congruence.
Qed.

Lemma fle_not_flt (a b : double) : fle a b = true -> flt b a = false.
Proof.
  unfold flt, fle, SFltb, SFleb. rewrite (SFcompare_antisym a b).
  destruct (SFcompare a b) as [[]|]; simpl; congruence.
Qed.

Lemma fle_zero_flt_one (t : double) : fle t d_0 = true -> flt t d_1 = true.
Proof.
  destruct t as [s|s| |s m e]; simpl; try discriminate; try reflexivity.
  - destruct s; [reflexivity | discriminate].
  - destruct s; [reflexivity | discriminate].
Qed.

Lemma fle_zero_not_pos (t : double) : fle t d_0 = true -> flt d_0 t = false.
Proof. apply fle_not_flt. Qed.

(** Clamping into [[0, 1]] the way the sources write it. *)
Lemma clamp_range (x : double) :
  fle d_0 (std_max d_0 (std_min d_1 x)) = true
  /\ fle (std_max d_0 (std_min d_1 x)) d_1 = true.
Proof.
  unfold std_max, std_min.
  destruct (x <? d_1)%D eqn:Hx.
  - destruct (d_0 <? x)%D eqn:H0.
    + split; apply flt_fle; assumption.
    + split; reflexivity.
  - split; reflexivity.
Qed.

Lemma clamp_low (t : double) :
  fle t d_0 = true -> std_max d_0 (std_min d_1 t) = d_0.
Proof.
  intros Ht. unfold std_max, std_min.
  rewrite (fle_zero_flt_one t Ht), (fle_zero_not_pos t Ht). reflexivity.
Qed.

Lemma clamp_high (t : double) :
  fle d_1 t = true -> std_max d_0 (std_min d_1 t) = d_1.
Proof.
  intros Ht. unfold std_max, std_min.
  rewrite (fle_not_flt d_1 t Ht). reflexivity.
Qed.

(** ** Easing *)

Section EasingProperties.

Context (libm : Libm).

Lemma spring_bounce_high (t damping stiffness : double) :
  fle d_1 t = true -> CalculateSpringBounce libm t damping stiffness = d_1.
Proof. intros Ht. unfold CalculateSpringBounce. rewrite Ht. reflexivity. Qed.

Lemma spring_bounce_low (t damping stiffness : double) :
  fle t d_0 = true -> CalculateSpringBounce libm t damping stiffness = d_0.
Proof.
  intros Ht. unfold CalculateSpringBounce. rewrite Ht.
  destruct (d_1 <=? t)%D eqn:H1; [|reflexivity].
  unfold fle, SFleb in *.
  destruct t as [s|s| |s m e]; try discriminate;
    destruct s; simpl in *; discriminate.
Qed.

Lemma spring_bounce_range (t damping stiffness : double) :
  fle d_0 (CalculateSpringBounce libm t damping stiffness) = true
  /\ fle (CalculateSpringBounce libm t damping stiffness) d_1 = true.
Proof.
  unfold CalculateSpringBounce.
  destruct (d_1 <=? t)%D; [split; reflexivity|].
  destruct (t <=? d_0)%D; [split; reflexivity|].
  apply clamp_range.
Qed.

(** C3 — SpringBounce easing: for every damping and stiffness the eased
    value at [t = 0] is exactly [0] and at [t = 1] exactly [1]; every
    [t <= 0] gives [0] and every [t >= 1] gives [1] without evaluating the
    oscillator; and for every [t], NaN and the infinities included, the
    output lies in [[0, 1]].  This holds of [CalculateSpringBounce] itself
    and of [CalculateEasing] with [kSpringBounce], whatever the math
    library computes. *)
Theorem spring_bounce_exact_ends_and_clamped :
  forall (this : WindowApi) (t damping stiffness : double),
    CalculateSpringBounce libm d_0 damping stiffness = d_0
    /\ CalculateSpringBounce libm d_1 damping stiffness = d_1
    /\ (fle t d_0 = true ->
        CalculateSpringBounce libm t damping stiffness = d_0)
    /\ (fle d_1 t = true ->
        CalculateSpringBounce libm t damping stiffness = d_1)
    /\ fle d_0 (CalculateSpringBounce libm t damping stiffness) = true
    /\ fle (CalculateSpringBounce libm t damping stiffness) d_1 = true
    /\ CalculateEasing libm this d_0 kSpringBounce = d_0
    /\ CalculateEasing libm this d_1 kSpringBounce = d_1
    /\ fle d_0 (CalculateEasing libm this t kSpringBounce) = true
    /\ fle (CalculateEasing libm this t kSpringBounce) d_1 = true.
Proof.
  intros this t damping stiffness.
  repeat apply conj.
  - apply spring_bounce_low; reflexivity.
  - apply spring_bounce_high; reflexivity.
  - apply spring_bounce_low.
  - apply spring_bounce_high.
  - apply spring_bounce_range.
  - apply spring_bounce_range.
  - apply spring_bounce_low; reflexivity.
  - apply spring_bounce_high; reflexivity.
  - apply spring_bounce_range.
  - apply spring_bounce_range.
Qed.

Lemma clamp_cases (t : double) :
  std_max d_0 (std_min d_1 t) = d_0
  \/ std_max d_0 (std_min d_1 t) = d_1
  \/ (std_max d_0 (std_min d_1 t) = t
      /\ flt t d_1 = true /\ flt d_0 t = true).
Proof.
  unfold std_max, std_min.
  destruct (t <? d_1)%D eqn:H1.
  - destruct (d_0 <? t)%D eqn:H0.
    + right; right. auto.
    + left; reflexivity.
  - right; left; reflexivity.
Qed.

Lemma clamp_idem (t : double) :
  std_max d_0 (std_min d_1 (std_max d_0 (std_min d_1 t)))
  = std_max d_0 (std_min d_1 t).
Proof.
  destruct (clamp_cases t) as [-> | [-> | (-> & H1 & H0)]];
    try reflexivity.
  unfold std_max, std_min. rewrite H1, H0. reflexivity.
Qed.

Lemma CalculateEasing_clamps (this : WindowApi) (t : double)
    (k : AnimationEasingType) :
  CalculateEasing libm this t k
  = CalculateEasing libm this (std_max d_0 (std_min d_1 t)) k.
Proof. unfold CalculateEasing. rewrite clamp_idem. reflexivity. Qed.

Lemma CalculateEasing_below (this : WindowApi) (t : double)
    (k : AnimationEasingType) :
  fle t d_0 = true ->
  CalculateEasing libm this t k = CalculateEasing libm this d_0 k.
Proof.
  intros Ht. rewrite (CalculateEasing_clamps this t), (clamp_low t Ht).
  reflexivity.
Qed.

Lemma CalculateEasing_above (this : WindowApi) (t : double)
    (k : AnimationEasingType) :
  fle d_1 t = true ->
  CalculateEasing libm this t k = CalculateEasing libm this d_1 k.
Proof.
  intros Ht. rewrite (CalculateEasing_clamps this t), (clamp_high t Ht).
  reflexivity.
Qed.

Lemma ease_in_out_at_one (this : WindowApi) :
  pow libm d_0 d_2 = d_0 -> CalculateEasing libm this d_1 kEaseInOut = d_1.
Proof.
  intros Hpow. unfold CalculateEasing.
  replace (std_max d_0 (std_min d_1 d_1)) with d_1 by reflexivity.
  replace (d_1 <? d_0_5)%D with false by reflexivity.
  replace (- d_2 * d_1 + d_2)%D with d_0 by reflexivity.
  rewrite Hpow. reflexivity.
Qed.

Lemma overshoot_at_one (this : WindowApi) :
  pow_of_zero libm -> CalculateEasing libm this d_1 kOvershoot = d_1.
Proof.
  intros [Hp2 Hp3]. unfold CalculateEasing.
  replace (std_max d_0 (std_min d_1 d_1)) with d_1 by reflexivity.
  replace (d_1 - d_1)%D with d_0 by reflexivity.
  cbv zeta. rewrite Hp2, Hp3. reflexivity.
Qed.

(** Under the C standard's values of [pow] at zero, every easing kind maps
    [t = 1] to exactly [1]: the literal [1.0] that [UpdateAnimation] passes
    to the last frame is the eased progress at [t = 1]. *)
Lemma CalculateEasing_at_one (this : WindowApi) (k : AnimationEasingType) :
  pow_of_zero libm -> CalculateEasing libm this d_1 k = d_1.
Proof.
  intros Hpow. destruct k; try reflexivity.
  - apply ease_in_out_at_one, Hpow.
  - apply overshoot_at_one, Hpow.
Qed.

(** C7 — for the easing kinds Linear, EaseIn, EaseOut and EaseInOut the
    eased value at [t = 0] is exactly [0] and at [t = 1] exactly [1]; the
    input is clamped to [[0, 1]] before evaluation, so every [t < 0] eases
    like [0] and every [t > 1] like [1].  The only use of the math library
    is [pow(0, 2)] in EaseInOut at [t = 1], which the C standard fixes to
    [+0]. *)
Theorem quadratic_easings_exact_ends_and_clamped_input :
  forall (this : WindowApi) (k : AnimationEasingType) (t : double),
    pow libm d_0 d_2 = d_0 ->
    k = kLinear \/ k = kEaseIn \/ k = kEaseOut \/ k = kEaseInOut ->
    CalculateEasing libm this d_0 k = d_0
    /\ CalculateEasing libm this d_1 k = d_1
    /\ CalculateEasing libm this t k
       = CalculateEasing libm this (std_max d_0 (std_min d_1 t)) k
    /\ (flt t d_0 = true ->
        CalculateEasing libm this t k = CalculateEasing libm this d_0 k)
    /\ (flt d_1 t = true ->
        CalculateEasing libm this t k = CalculateEasing libm this d_1 k).
Proof.
  intros this k t Hpow Hk.
  assert (H1 : CalculateEasing libm this d_1 k = d_1).
  { destruct Hk as [-> | [-> | [-> | ->]]]; try reflexivity.
    apply ease_in_out_at_one, Hpow. }
  repeat apply conj.
  - destruct Hk as [-> | [-> | [-> | ->]]]; reflexivity.
  - exact H1.
  - apply CalculateEasing_clamps.
  - intros Ht. apply CalculateEasing_below, flt_fle, Ht.
  - intros Ht. apply CalculateEasing_above, flt_fle, Ht.
Qed.

End EasingProperties.

(** The series library computes [pow(0, 2)] and [pow(0, 3)] as the standard
    requires. *)
Lemma series_libm_pow_of_zero : pow_of_zero series_libm.
Proof. split; reflexivity. Qed.

Lemma quadratic_easings_witness :
  pow series_libm d_0 d_2 = d_0
  /\ (kEaseInOut = kLinear \/ kEaseInOut = kEaseIn \/ kEaseInOut = kEaseOut
      \/ kEaseInOut = kEaseInOut)
  /\ CalculateEasing series_libm (WindowApi_new None) d_1 kEaseInOut = d_1.
Proof.
  assert (Hpow : pow series_libm d_0 d_2 = d_0) by reflexivity.
  assert (Hk : kEaseInOut = kLinear \/ kEaseInOut = kEaseIn
               \/ kEaseInOut = kEaseOut \/ kEaseInOut = kEaseInOut)
    by (right; right; right; reflexivity).
  split; [exact Hpow | split; [exact Hk |]].
  exact (proj1 (proj2 (quadratic_easings_exact_ends_and_clamped_input
                         series_libm (WindowApi_new None) kEaseInOut d_0_5
                         Hpow Hk))).
Defined.

(** ** Stopping animations *)

Lemma conflicts_sym (p q : AnimationPropertyType) :
  conflicts p q = conflicts q p.
Proof. destruct p, q; reflexivity. Qed.

(** Two properties conflict exactly when they write a common attribute. *)
Lemma conflicts_iff_common_attribute (p q : AnimationPropertyType) :
  conflicts p q = true <->
  exists attr, writes p attr = true /\ writes q attr = true.
Proof.
  split.
  - destruct p, q; simpl; try discriminate; intros _;
      first [ exists Origin; split; reflexivity
            | exists Extent; split; reflexivity
            | exists Alpha; split; reflexivity ].
  - intros [attr [Hp Hq]].
    destruct p, q, attr; simpl in *; congruence.
Qed.

Lemma StopAnimation_map (this : WindowApi) (id : Z) :
  active_animations_ (StopAnimation this id).1
  = delete id (active_animations_ this).
Proof.
  unfold StopAnimation.
  destruct (active_animations_ this !! id) eqn:Hid; simpl.
  - reflexivity.
  - symmetry. apply delete_id, Hid.
Qed.

Lemma StopAnimation_frame (this : WindowApi) (id : Z) :
  window_ (StopAnimation this id).1 = window_ this
  /\ next_timer_id_ (StopAnimation this id).1 = next_timer_id_ this
  /\ spring_damping_ (StopAnimation this id).1 = spring_damping_ this
  /\ spring_stiffness_ (StopAnimation this id).1 = spring_stiffness_ this.
Proof.
  unfold StopAnimation.
  destruct (active_animations_ this !! id); simpl; auto.
Qed.

Lemma StopAnimation_no_callback (this : WindowApi) (id : Z) :
  existsb is_OnComplete (StopAnimation this id).2 = false.
Proof.
  unfold StopAnimation.
  destruct (active_animations_ this !! id) as [anim|]; simpl;
    [destruct (hwnd anim =? NULL)|]; reflexivity.
Qed.

Lemma StopEach_spec (ids : list Z) :
  forall this : WindowApi,
    (forall k,
        active_animations_ (StopEach this ids).1 !! k
        = if decide (k ∈ ids) then None else active_animations_ this !! k)
    /\ window_ (StopEach this ids).1 = window_ this
    /\ next_timer_id_ (StopEach this ids).1 = next_timer_id_ this
    /\ spring_damping_ (StopEach this ids).1 = spring_damping_ this
    /\ spring_stiffness_ (StopEach this ids).1 = spring_stiffness_ this
    /\ existsb is_OnComplete (StopEach this ids).2 = false.
Proof.
  induction ids as [|id rest IH]; intros this.
  - simpl. repeat apply conj; reflexivity.
  - simpl.
    pose proof (StopAnimation_map this id) as Hmap.
    pose proof (StopAnimation_frame this id) as (Hw & Hn & Hd & Hs).
    pose proof (StopAnimation_no_callback this id) as Hcb.
    destruct (StopAnimation this id) as [this1 events] eqn:Hstop.
    simpl in *.
    destruct (IH this1) as (IHmap & IHw & IHn & IHd & IHs & IHcb).
    destruct (StopEach this1 rest) as [this2 more] eqn:Hrest.
    simpl in *.
    repeat apply conj; try congruence.
    + intros k. rewrite IHmap, Hmap.
      destruct (decide (k ∈ rest)) as [Hin|Hnin].
      * rewrite decide_True; [reflexivity | right; exact Hin].
      * destruct (decide (k = id)) as [->|Hne].
        -- rewrite decide_True; [|left]. apply lookup_delete_eq.
        -- rewrite decide_False.
           ++ apply lookup_delete_ne. congruence.
           ++ intros Hin. apply elem_of_cons in Hin as [?|?]; contradiction.
    + rewrite existsb_app, Hcb, IHcb. reflexivity.
Qed.

Lemma elem_of_to_stop (p : AnimationPropertyType)
    (m : gmap Z WindowAnimation) (k : Z) :
  k ∈ to_stop p m <-> exists a, m !! k = Some a /\ should_stop p a = true.
Proof.
  unfold to_stop. rewrite list_elem_of_fmap. split.
  - intros [[k' a] [-> Hin]]. apply list_elem_of_filter in Hin as [Hp Hin].
    apply elem_of_map_to_list in Hin. exists a. auto.
  - intros [a [Hk Hp]]. exists (k, a). split; [reflexivity|].
    apply list_elem_of_filter. split; [exact Hp|].
    apply elem_of_map_to_list, Hk.
Qed.

(** [StopConflictingAnimations] removes exactly the active animations of a
    conflicting class, touches nothing else, and invokes no callback. *)
Lemma StopConflictingAnimations_spec (this : WindowApi)
    (p : AnimationPropertyType) :
  active_animations_ (StopConflictingAnimations this p).1
  = survivors p (active_animations_ this)
  /\ window_ (StopConflictingAnimations this p).1 = window_ this
  /\ next_timer_id_ (StopConflictingAnimations this p).1 = next_timer_id_ this
  /\ spring_damping_ (StopConflictingAnimations this p).1
     = spring_damping_ this
  /\ spring_stiffness_ (StopConflictingAnimations this p).1
     = spring_stiffness_ this
  /\ existsb is_OnComplete (StopConflictingAnimations this p).2 = false.
Proof.
  unfold StopConflictingAnimations.
  destruct (StopEach_spec (to_stop p (active_animations_ this)) this)
    as (Hmap & Hrest).
  split; [|exact Hrest].
  apply map_eq. intros k. rewrite Hmap. unfold survivors.
  destruct (decide (k ∈ to_stop p (active_animations_ this))) as [Hin|Hnin].
  - symmetry. apply map_lookup_filter_None. right. intros a Ha. simpl.
    apply elem_of_to_stop in Hin as [a' [Ha' Hstop]].
    congruence.
  - destruct (active_animations_ this !! k) as [a|] eqn:Ha.
    + symmetry. apply map_lookup_filter_Some. split; [exact Ha|]. simpl.
      destruct (should_stop p a) eqn:Hstop; [|reflexivity].
      exfalso. apply Hnin, elem_of_to_stop. eauto.
    + symmetry. apply map_lookup_filter_None. left. exact Ha.
Qed.

Lemma survivors_lookup_Some (p : AnimationPropertyType)
    (m : gmap Z WindowAnimation) (k : Z) (a : WindowAnimation) :
  survivors p m !! k = Some a <-> m !! k = Some a /\ should_stop p a = false.
Proof. unfold survivors. rewrite map_lookup_filter_Some. reflexivity. Qed.

(** ** Starting an animation *)

Lemma start_values_fields (os : Win32) (request : AnimationRequest)
    (anim : WindowAnimation) :
  timer_id (start_values os request anim).1 = timer_id anim
  /\ hwnd (start_values os request anim).1 = hwnd anim
  /\ property (start_values os request anim).1 = property anim
  /\ easing (start_values os request anim).1 = easing anim
  /\ is_active (start_values os request anim).1 = is_active anim
  /\ on_complete (start_values os request anim).1 = on_complete anim
  /\ spring_damping (start_values os request anim).1 = spring_damping anim
  /\ spring_stiffness (start_values os request anim).1 = spring_stiffness anim
  /\ existsb is_OnComplete (start_values os request anim).2 = false.
Proof.
  unfold start_values.
  destruct (req_property request).
  - destruct (rect_nonzero (os_frame_rect os)); [|destruct (os_window_rect_ok os)];
      simpl; repeat apply conj; reflexivity.
  - destruct (0 <? rect_width (os_frame_rect os));
      [|destruct (os_window_rect_ok os)];
      simpl; repeat apply conj; reflexivity.
  - destruct (0 <? rect_width (os_frame_rect os));
      [|destruct (os_window_rect_ok os)];
      simpl; repeat apply conj; reflexivity.
  - destruct (negb (Z.land (os_ex_style os) WS_EX_LAYERED =? 0));
      [destruct (os_layered_ok os
                 && negb (Z.land (os_layered_flags os) LWA_ALPHA =? 0))|];
      simpl; repeat apply conj; reflexivity.
Qed.

Lemma StartAnimation_invalid (os : Win32) (this : WindowApi)
    (request : AnimationRequest) :
  window_ this = None
  \/ (exists w, window_ this = Some w /\ GetWindowHandle w = NULL) ->
  StartAnimation os this request = (0, this, []).
Proof.
  intros [Hnone | [w [Hw Hnull]]]; unfold StartAnimation.
  - rewrite Hnone. reflexivity.
  - rewrite Hw, Hnull. reflexivity.
Qed.

Lemma StartAnimation_valid (os : Win32) (this : WindowApi)
    (request : AnimationRequest) (w : HostWindow) :
  window_ this = Some w -> GetWindowHandle w <> NULL ->
  exists anim events,
    StartAnimation os this request
    = (next_timer_id_ this, started this request anim, events)
    /\ timer_id anim = next_timer_id_ this
    /\ hwnd anim = GetWindowHandle w
    /\ property anim = req_property request
    /\ easing anim = req_easing request
    /\ is_active anim = true
    /\ on_complete anim = req_on_complete request
    /\ spring_damping anim = spring_damping_ (started this request anim)
    /\ spring_stiffness anim = spring_stiffness_ (started this request anim)
    /\ existsb is_OnComplete events = false
    /\ last events
       = Some (SetTimer (GetWindowHandle w) (next_timer_id_ this)
                 kAnimationTimerInterval).
Proof.
  intros Hw Hh. unfold StartAnimation. rewrite Hw.
  destruct (GetWindowHandle w =? NULL) eqn:Hnull; [lia|].
  destruct (StopConflictingAnimations_spec this (req_property request))
    as (Hmap & Hwin & Hnext & Hdamp & Hstiff & Hcb).
  destruct (StopConflictingAnimations this (req_property request))
    as [this1 stopped]. simpl in *.
  unfold start_common.
  match goal with
  | |- context [start_values os request ?a] =>
      pose proof (start_values_fields os request a)
        as (Hid & Hhwnd & Hprop & Heas & Hact & Hcomp & Hsd & Hss & Hcb');
      destruct (start_values os request a) as [anim captured]
  end.
  destruct this1 as [win1 map1 next1 damp1 stiff1]. simpl in *. subst.
  assert (Hid' : timer_id anim = next_timer_id_ this).
  { rewrite Hid. destruct (req_use_custom_spring request); reflexivity. }
  eexists anim, _. split.
  { rewrite Hid'. unfold started.
    destruct (req_use_custom_spring request); reflexivity. }
  repeat apply conj; try assumption.
  - rewrite Hsd. destruct (req_use_custom_spring request); reflexivity.
  - rewrite Hss. destruct (req_use_custom_spring request); reflexivity.
  - rewrite existsb_app, Hcb. simpl.
    rewrite !existsb_app, Hcb'.
    destruct (os_frame_ok os); reflexivity.
  - rewrite last_app, !last_cons, !last_app. reflexivity.
Qed.

(** ** Advancing an animation *)

Section ControllerProperties.

Context (libm : Libm).

Lemma UpdateAnimation_fields (os : Win32) (this : WindowApi)
    (anim : WindowAnimation) :
  timer_id (UpdateAnimation libm os this anim).1 = timer_id anim
  /\ hwnd (UpdateAnimation libm os this anim).1 = hwnd anim
  /\ property (UpdateAnimation libm os this anim).1 = property anim
  /\ (is_active (UpdateAnimation libm os this anim).1 = true ->
      is_active anim = true).
Proof.
  unfold UpdateAnimation.
  destruct (negb (is_active anim) || (hwnd anim =? NULL)); simpl; auto.
  destruct (b64_of_Z (duration anim) <=? GetElapsedMs os (start_time_qpc anim))%D;
    simpl; repeat apply conj; try reflexivity; try discriminate.
  destruct (is_active anim); auto.
Qed.

Lemma OnTimer_frame (os : Win32) (this : WindowApi) (wParam : Z) :
  window_ (OnTimer libm os this wParam).1.2 = window_ this
  /\ next_timer_id_ (OnTimer libm os this wParam).1.2 = next_timer_id_ this
  /\ spring_damping_ (OnTimer libm os this wParam).1.2 = spring_damping_ this
  /\ spring_stiffness_ (OnTimer libm os this wParam).1.2
     = spring_stiffness_ this.
Proof.
  unfold OnTimer.
  destruct (active_animations_ this !! wParam) as [anim|]; simpl; auto.
  destruct (negb (is_active anim)); simpl; auto.
  destruct (UpdateAnimation libm os this anim) as [anim' events].
  destruct (negb (is_active anim')); simpl; auto.
Qed.

(** Every record [OnTimer] leaves in the map was there before, under the
    same identifier and with the same property. *)
Lemma OnTimer_lookup (os : Win32) (this : WindowApi) (wParam k : Z)
    (a' : WindowAnimation) :
  active_animations_ (OnTimer libm os this wParam).1.2 !! k = Some a' ->
  is_active a' = true ->
  exists a, active_animations_ this !! k = Some a
            /\ is_active a = true /\ property a = property a'.
Proof.
  unfold OnTimer.
  destruct (active_animations_ this !! wParam) as [anim|] eqn:Hanim; simpl.
  - destruct (negb (is_active anim)) eqn:Hact; simpl.
    + intros Hk Ha'. apply lookup_delete_Some in Hk as [_ Hk]. eauto.
    + pose proof (UpdateAnimation_fields os this anim) as (_ & _ & Hp & Ha).
      destruct (UpdateAnimation libm os this anim) as [anim' events].
      simpl in *.
      destruct (negb (is_active anim')) eqn:Hact'; simpl.
      * intros Hk Ha'. apply lookup_delete_Some in Hk as [_ Hk]. eauto.
      * intros Hk Ha'. apply lookup_insert_Some in Hk as [[<- <-]|[_ Hk]].
        -- exists anim. auto.
        -- eauto.
  - eauto.
Qed.

(** ** The conflict invariant *)

Lemma no_conflicts_shrink (m m' : gmap Z WindowAnimation) :
  (forall k a', m' !! k = Some a' -> is_active a' = true ->
     exists a, m !! k = Some a /\ is_active a = true
               /\ property a = property a') ->
  no_conflicts m -> no_conflicts m'.
Proof.
  intros Hsub Hm i j a b Hi Hj Ha Hb Hc.
  destruct (Hsub i a Hi Ha) as (a0 & Hi0 & Ha0 & Hpa).
  destruct (Hsub j b Hj Hb) as (b0 & Hj0 & Hb0 & Hpb).
  apply (Hm i j a0 b0); try assumption. congruence.
Qed.

Lemma no_conflicts_started (this : WindowApi) (request : AnimationRequest)
    (anim : WindowAnimation) :
  property anim = req_property request ->
  no_conflicts (active_animations_ this) ->
  no_conflicts (active_animations_ (started this request anim)).
Proof.
  intros Hprop Hm i j a b Hi Hj Ha Hb Hc. simpl in Hi, Hj.
  apply lookup_insert_Some in Hi as [[Hi <-]|[Hi Hia]];
    apply lookup_insert_Some in Hj as [[Hj <-]|[Hj Hjb]].
  - congruence.
  - apply survivors_lookup_Some in Hjb as [_ Hkeep].
    unfold should_stop in Hkeep. rewrite Hb in Hkeep. simpl in Hkeep.
    congruence.
  - apply survivors_lookup_Some in Hia as [_ Hkeep].
    unfold should_stop in Hkeep. rewrite Ha in Hkeep. simpl in Hkeep.
    rewrite conflicts_sym in Hc. congruence.
  - apply survivors_lookup_Some in Hia as [Hia _].
    apply survivors_lookup_Some in Hjb as [Hjb _].
    apply (Hm i j a b); assumption.
Qed.

Lemma StartAnimation_no_conflicts (os : Win32) (this : WindowApi)
    (request : AnimationRequest) :
  no_conflicts (active_animations_ this) ->
  no_conflicts (active_animations_ (StartAnimation os this request).1.2).
Proof.
  intros Hm.
  destruct (window_ this) as [w|] eqn:Hw.
  - destruct (decide (GetWindowHandle w = NULL)) as [Hnull|Hh].
    + rewrite StartAnimation_invalid by eauto. exact Hm.
    + destruct (StartAnimation_valid os this request w Hw Hh)
        as (anim & events & -> & _ & _ & Hprop & _).
      simpl. apply no_conflicts_started; assumption.
  - rewrite StartAnimation_invalid by auto. exact Hm.
Qed.

Lemma step_no_conflicts (this : WindowApi) (op : Op) :
  no_conflicts (active_animations_ this) ->
  no_conflicts (active_animations_ (step libm this op).1).
Proof.
  intros Hm. destruct op as [os request|id| |os wParam|damping stiffness|h];
    simpl.
  - pose proof (StartAnimation_no_conflicts os this request Hm) as H.
    destruct (StartAnimation os this request) as [[id this'] events].
    exact H.
  - rewrite StopAnimation_map.
    apply (no_conflicts_shrink (active_animations_ this)); [|exact Hm].
    intros k a' Hk Ha'. apply lookup_delete_Some in Hk as [_ Hk]. eauto.
  - unfold StopAllAnimations.
    destruct (window_ this) as [w|]; [|exact Hm].
    destruct (GetWindowHandle w =? NULL); [exact Hm|]. simpl.
    intros i j a b Hi. rewrite lookup_empty in Hi. discriminate.
  - pose proof (OnTimer_lookup os this wParam) as H.
    destruct (OnTimer libm os this wParam) as [[handled this'] events].
    simpl in *.
    apply (no_conflicts_shrink (active_animations_ this)); assumption.
  - exact Hm.
  - exact Hm.
Qed.

Lemma run_no_conflicts (ops : list Op) :
  forall this : WindowApi,
    no_conflicts (active_animations_ this) ->
    no_conflicts (active_animations_ (run libm this ops).1).
Proof.
  induction ops as [|op ops IH]; intros this Hm; simpl.
  - exact Hm.
  - pose proof (step_no_conflicts this op Hm) as Hstep.
    destruct (step libm this op) as [this1 events].
    specialize (IH this1 Hstep).
    destruct (run libm this1 ops) as [this2 more]. exact IH.
Qed.

Lemma no_conflicts_new (window : option HostWindow) :
  no_conflicts (active_animations_ (WindowApi_new window)).
Proof. intros i j a b Hi. simpl in Hi. rewrite lookup_empty in Hi. discriminate. Qed.

End ControllerProperties.

(** The spec's scenario: a Bounds animation started while a Position
    animation is active stops the Position animation (its timer is killed
    first and its callback never runs) and is itself stored as the only
    record. *)
Lemma bounds_evicts_position_example :
  let started_bounds :=
    StartAnimation (example_os 1000000) (example_started kLinear)
      example_bounds in
  started_bounds.1.1 = 1001
  /\ started_bounds.2
     = [KillTimer 42 1000; GetDpiForHWND 42; DwmGetWindowAttribute 42;
        GetWindowRect 42; SetTimer 42 1001 16]
  /\ (map_to_list (active_animations_ started_bounds.1.2)).*1 = [1001]
  /\ HasActiveAnimation started_bounds.1.2 = true.
Proof. repeat apply conj; vm_compute; reflexivity. Qed.

(** ** Stored records are live *)

Section Liveness.

Context (libm : Libm).

Lemma step_records_live (this : WindowApi) (op : Op) :
  records_live (active_animations_ this) ->
  records_live (active_animations_ (step libm this op).1).
Proof.
  intros Hm. destruct op as [os request|id| |os wParam|damping stiffness|h];
    simpl; try exact Hm.
  - destruct (window_ this) as [w|] eqn:Hw.
    + destruct (decide (GetWindowHandle w = NULL)) as [Hnull|Hh].
      * rewrite StartAnimation_invalid by eauto. exact Hm.
      * destruct (StartAnimation_valid os this request w Hw Hh)
          as (anim & events & -> & Hid & Hhw & _ & _ & Hact & _).
        simpl. intros k a Hk.
        apply lookup_insert_Some in Hk as [[<- <-]|[_ Hk]].
        -- repeat split; congruence.
        -- apply survivors_lookup_Some in Hk as [Hk _]. apply (Hm k a Hk).
    + rewrite StartAnimation_invalid by auto. exact Hm.
  - rewrite StopAnimation_map. intros k a Hk.
    apply lookup_delete_Some in Hk as [_ Hk]. apply (Hm k a Hk).
  - unfold StopAllAnimations.
    destruct (window_ this) as [w|]; [|exact Hm].
    destruct (GetWindowHandle w =? NULL); [exact Hm|]. simpl.
    intros k a Hk. rewrite lookup_empty in Hk. discriminate.
  - unfold OnTimer.
    destruct (active_animations_ this !! wParam) as [anim|] eqn:Hanim;
      simpl; [|exact Hm].
    destruct (Hm wParam anim Hanim) as (Hact & Hh & Hid).
    rewrite Hact. simpl.
    pose proof (UpdateAnimation_fields libm os this anim)
      as (Hid' & Hh' & _ & _).
    destruct (UpdateAnimation libm os this anim) as [anim' events].
    simpl in *.
    destruct (is_active anim') eqn:Hact'; simpl.
    + intros k a Hk. apply lookup_insert_Some in Hk as [[<- <-]|[_ Hk]].
      * repeat split; congruence.
      * apply (Hm k a Hk).
    + intros k a Hk. apply lookup_delete_Some in Hk as [_ Hk].
      apply (Hm k a Hk).
Qed.

(** In every state a controller reaches, all stored records are live: the
    hypotheses on the record in the theorems below hold of every record
    [OnTimer] or [StopAnimation] can find. *)
Lemma run_records_live (ops : list Op) :
  forall this : WindowApi,
    records_live (active_animations_ this) ->
    records_live (active_animations_ (run libm this ops).1).
Proof.
  induction ops as [|op ops IH]; intros this Hm; simpl.
  - exact Hm.
  - pose proof (step_records_live this op Hm) as Hstep.
    destruct (step libm this op) as [this1 events].
    specialize (IH this1 Hstep).
    destruct (run libm this1 ops) as [this2 more]. exact IH.
Qed.

Lemma records_live_new (window : option HostWindow) :
  records_live (active_animations_ (WindowApi_new window)).
Proof. intros k a Hk. simpl in Hk. rewrite lookup_empty in Hk. discriminate. Qed.

End Liveness.

(** ** Completion *)

Lemma ApplyAnimationFrame_no_callback (anim : WindowAnimation) (e : double) :
  List.filter is_OnComplete (ApplyAnimationFrame anim e) = [].
Proof.
  unfold ApplyAnimationFrame.
  destruct (hwnd anim =? NULL); [reflexivity|].
  destruct (property anim); reflexivity.
Qed.

Section Completion.

Context (libm : Libm).

(** What [UpdateAnimation] and [OnTimer] do with a live record whose
    duration has elapsed. *)
Lemma completion_of_live_record :
  forall (os : Win32) (this : WindowApi) (id : Z) (anim : WindowAnimation),
    active_animations_ this !! id = Some anim ->
    is_active anim = true ->
    hwnd anim <> NULL ->
    fle (b64_of_Z (duration anim)) (GetElapsedMs os (start_time_qpc anim))
    = true ->
    let settled := with_is_active false (with_progress d_1 anim) in
    let frame := ApplyAnimationFrame anim d_1 in
    let events :=
      frame ++ [KillTimer (hwnd anim) (timer_id anim)]
        ++ completion_events anim in
    let erased := with_animations (delete id (active_animations_ this)) this in
    UpdateAnimation libm os this anim = (settled, events)
    /\ progress settled = d_1
    /\ is_active settled = false
    /\ (pow_of_zero libm ->
        frame
        = ApplyAnimationFrame anim
            (CalculateEasing libm this d_1 (easing anim)))
    /\ List.filter is_OnComplete frame = []
    /\ length (List.filter is_OnComplete events)
       = match on_complete anim with Some _ => 1%nat | None => 0%nat end
    /\ (forall cb, on_complete anim = Some cb ->
                   last events = Some (OnComplete cb))
    /\ OnTimer libm os this id = (true, erased, events)
    /\ active_animations_ erased !! id = None
    /\ (forall os', OnTimer libm os' erased id = (false, erased, [])).
Proof.
  intros os this id anim Hid Hact Hh Helapsed settled frame events erased.
  assert (Hnull : (hwnd anim =? NULL) = false) by lia.
  assert (Hupd : UpdateAnimation libm os this anim = (settled, events)).
  { unfold UpdateAnimation. rewrite Hact, Hnull. simpl. rewrite Helapsed.
    reflexivity. }
  assert (Hgone : active_animations_ erased !! id = None).
  { simpl. apply lookup_delete_eq. }
  repeat apply conj.
  - exact Hupd.
  - reflexivity.
  - reflexivity.
  - intros Hpow. rewrite CalculateEasing_at_one by exact Hpow. reflexivity.
  - apply ApplyAnimationFrame_no_callback.
  - unfold events. rewrite !List.filter_app, length_app.
    unfold frame. rewrite ApplyAnimationFrame_no_callback.
    unfold completion_events. destruct (on_complete anim); reflexivity.
  - intros cb Hcb. unfold events, completion_events. rewrite Hcb.
    rewrite !last_app. reflexivity.
  - unfold OnTimer. rewrite Hid, Hact. simpl. rewrite Hupd. reflexivity.
  - exact Hgone.
  - intros os'. unfold OnTimer. rewrite Hgone. reflexivity.
Qed.

(** C1 — for every animation record a controller holds, in any state it
    reaches from its construction: when [UpdateAnimation] runs and the
    elapsed time has reached the record's duration, it sets the progress to
    [1.0], applies the frame for eased progress [1.0] (the eased value at
    [t = 1] for every easing kind), clears the active flag, kills the timer
    that was armed under the record's identifier and then, last, invokes
    the completion callback if there is one: exactly once when present,
    never otherwise.  [OnTimer] then erases the record, and a later
    [OnTimer] for the same identifier finds nothing: it reports the timer
    as not its own, changes no state and makes no call. *)
Theorem UpdateAnimation_completes_once :
  forall (os : Win32) (window : option HostWindow) (ops : list Op)
         (id : Z) (anim : WindowAnimation),
    let this := (run libm (WindowApi_new window) ops).1 in
    active_animations_ this !! id = Some anim ->
    fle (b64_of_Z (duration anim)) (GetElapsedMs os (start_time_qpc anim))
    = true ->
    let settled := with_is_active false (with_progress d_1 anim) in
    let frame := ApplyAnimationFrame anim d_1 in
    let events :=
      frame ++ [KillTimer (hwnd anim) id] ++ completion_events anim in
    let erased := with_animations (delete id (active_animations_ this)) this in
    UpdateAnimation libm os this anim = (settled, events)
    /\ progress settled = d_1
    /\ is_active settled = false
    /\ (pow_of_zero libm ->
        frame
        = ApplyAnimationFrame anim
            (CalculateEasing libm this d_1 (easing anim)))
    /\ List.filter is_OnComplete frame = []
    /\ length (List.filter is_OnComplete events)
       = match on_complete anim with Some _ => 1%nat | None => 0%nat end
    /\ (forall cb, on_complete anim = Some cb ->
                   last events = Some (OnComplete cb))
    /\ OnTimer libm os this id = (true, erased, events)
    /\ active_animations_ erased !! id = None
    /\ (forall os', OnTimer libm os' erased id = (false, erased, [])).
Proof.
  intros os window ops id anim this Hid Helapsed.
  assert (Hlive : records_live (active_animations_ this)).
  { apply run_records_live, records_live_new. }
  destruct (Hlive id anim Hid) as (Hact & Hh & Htimer).
  pose proof (completion_of_live_record os this id anim Hid Hact Hh Helapsed)
    as H.
  rewrite Htimer in H. exact H.
Qed.

End Completion.

(** The spec's scenario: a linear position animation to (100, 100) over
    300 ms, ticked at exactly 300 ms, lands on (100, 100) and calls back
    once; the record is gone afterwards. *)
Lemma UpdateAnimation_completes_once_witness :
  OnTimer series_libm (example_os 3000000) (example_started kLinear) 1000
  = (true,
     with_animations ∅ (example_started kLinear),
     [SetWindowPos 42 100 100 0 0 8213; DwmFlush; KillTimer 42 1000;
      OnComplete 7%nat])
  /\ OnTimer series_libm (example_os 3160000)
       (with_animations ∅ (example_started kLinear)) 1000
     = (false, with_animations ∅ (example_started kLinear), []).
Proof.
  pose (ops := [OpStartAnimation (example_os 0) (example_position kLinear)]).
  assert (Hrun : (run series_libm
                    (WindowApi_new (Some {| GetWindowHandle := 42 |})) ops).1
                 = example_started kLinear) by (vm_compute; reflexivity).
  assert (H1 : active_animations_
                 (run series_libm
                    (WindowApi_new (Some {| GetWindowHandle := 42 |})) ops).1
                 !! 1000
               = Some (example_anim kLinear)) by (vm_compute; reflexivity).
  assert (H2 : fle (b64_of_Z (duration (example_anim kLinear)))
                 (GetElapsedMs (example_os 3000000)
                    (start_time_qpc (example_anim kLinear))) = true)
    by (vm_compute; reflexivity).
  pose proof (UpdateAnimation_completes_once series_libm (example_os 3000000)
                (Some {| GetWindowHandle := 42 |}) ops 1000
                (example_anim kLinear) H1 H2) as H.
  cbv zeta in H. rewrite Hrun in H.
  destruct H as (_ & _ & _ & _ & _ & _ & _ & Htimer & _ & Hagain).
  assert (Hmap : delete 1000 (active_animations_ (example_started kLinear))
                 = ∅) by (vm_compute; reflexivity).
  rewrite Hmap in Htimer, Hagain.
  split.
  - rewrite Htimer. vm_compute. reflexivity.
  - apply Hagain.
Defined.

(** ** [StopAnimation] *)

(** C6 — [StopAnimation] never invokes a callback and is idempotent: a
    record stored under the identifier is erased and its timer is killed,
    which is the only call made (in every state a controller reaches; in
    general, whenever the record has a window handle); nothing else of the
    controller changes; an absent identifier changes nothing; and a second
    [StopAnimation] on the same identifier makes no call and leaves the
    state, the registry included, as the first call left it. *)
Theorem StopAnimation_idempotent_without_callback :
  forall (this : WindowApi) (id : Z),
    existsb is_OnComplete (StopAnimation this id).2 = false
    /\ active_animations_ (StopAnimation this id).1
       = delete id (active_animations_ this)
    /\ active_animations_ (StopAnimation this id).1 !! id = None
    /\ (forall anim,
          active_animations_ this !! id = Some anim -> hwnd anim <> NULL ->
          (StopAnimation this id).2 = [KillTimer (hwnd anim) id])
    /\ (forall libm window ops anim,
          this = (run libm (WindowApi_new window) ops).1 ->
          active_animations_ this !! id = Some anim ->
          (StopAnimation this id).2 = [KillTimer (hwnd anim) id])
    /\ (active_animations_ this !! id = None ->
        StopAnimation this id = (this, []))
    /\ window_ (StopAnimation this id).1 = window_ this
    /\ next_timer_id_ (StopAnimation this id).1 = next_timer_id_ this
    /\ spring_damping_ (StopAnimation this id).1 = spring_damping_ this
    /\ spring_stiffness_ (StopAnimation this id).1 = spring_stiffness_ this
    /\ StopAnimation (StopAnimation this id).1 id
       = ((StopAnimation this id).1, []).
Proof.
  intros this id.
  pose proof (StopAnimation_map this id) as Hmap.
  pose proof (StopAnimation_frame this id) as (Hw & Hn & Hd & Hs).
  assert (Hgone : active_animations_ (StopAnimation this id).1 !! id = None).
  { rewrite Hmap. apply lookup_delete_eq. }
  assert (Hkill : forall anim,
             active_animations_ this !! id = Some anim -> hwnd anim <> NULL ->
             (StopAnimation this id).2 = [KillTimer (hwnd anim) id]).
  { intros anim Hid Hh. unfold StopAnimation. rewrite Hid. simpl.
    destruct (hwnd anim =? NULL) eqn:Hnull; [lia | reflexivity]. }
  repeat apply conj; try assumption.
  - apply StopAnimation_no_callback.
  - intros libm window ops anim Hreach Hid. apply Hkill; [exact Hid|].
    assert (Hlive : records_live (active_animations_ this)).
    { rewrite Hreach. apply run_records_live, records_live_new. }
    apply (Hlive id anim Hid).
  - intros Hid. unfold StopAnimation. rewrite Hid. reflexivity.
  - unfold StopAnimation at 1. rewrite Hgone. reflexivity.
Qed.

(** Stopping the running example animation kills its timer; stopping it
    again does nothing. *)
Lemma StopAnimation_example :
  StopAnimation (example_started kLinear) 1000
  = (with_animations ∅ (example_started kLinear), [KillTimer 42 1000])
  /\ StopAnimation (with_animations ∅ (example_started kLinear)) 1000
     = (with_animations ∅ (example_started kLinear), []).
Proof. split; vm_compute; reflexivity. Qed.

(** ** Failure of [StartAnimation] and the identifiers it returns *)

Section Identifiers.

Context (libm : Libm).

Lemma uint_ptr_small (z : Z) : 0 <= z < 2 ^ 64 -> uint_ptr z = z.
Proof. intros Hz. unfold uint_ptr, wrap_unsigned. apply Z.mod_small, Hz. Qed.

Lemma StartAnimation_next_timer_id (os : Win32) (this : WindowApi)
    (request : AnimationRequest) :
  next_timer_id_ (StartAnimation os this request).1.2 = next_timer_id_ this
  \/ next_timer_id_ (StartAnimation os this request).1.2
     = uint_ptr (next_timer_id_ this + 1).
Proof.
  destruct (window_ this) as [w|] eqn:Hw.
  - destruct (decide (GetWindowHandle w = NULL)) as [Hnull|Hh].
    + rewrite StartAnimation_invalid by eauto. left; reflexivity.
    + destruct (StartAnimation_valid os this request w Hw Hh)
        as (anim & events & -> & _).
      right; reflexivity.
  - rewrite StartAnimation_invalid by auto. left; reflexivity.
Qed.

Lemma step_next_timer_id (this : WindowApi) (op : Op) :
  next_timer_id_ (step libm this op).1 = next_timer_id_ this
  \/ next_timer_id_ (step libm this op).1 = uint_ptr (next_timer_id_ this + 1).
Proof.
  destruct op as [os request|id| |os wParam|damping stiffness|h]; simpl.
  - pose proof (StartAnimation_next_timer_id os this request) as H.
    destruct (StartAnimation os this request) as [[id this'] events].
    exact H.
  - left. apply StopAnimation_frame.
  - left. unfold StopAllAnimations.
    destruct (window_ this) as [w|]; [|reflexivity].
    destruct (GetWindowHandle w =? NULL); reflexivity.
  - left. pose proof (OnTimer_frame libm os this wParam) as (_ & H & _).
    destruct (OnTimer libm os this wParam) as [[handled this'] events].
    exact H.
  - left; reflexivity.
  - left; reflexivity.
Qed.

(** Identifiers count up from the base: after [n] operations the next
    identifier lies between the one before and that plus [n], as long as
    the 64-bit counter cannot have wrapped. *)
Lemma run_next_timer_id (ops : list Op) :
  forall this : WindowApi,
    0 <= next_timer_id_ this ->
    next_timer_id_ this + Z.of_nat (length ops) < 2 ^ 64 ->
    next_timer_id_ this <= next_timer_id_ (run libm this ops).1
    <= next_timer_id_ this + Z.of_nat (length ops).
Proof.
  induction ops as [|op ops IH]; intros this Hlo Hhi; simpl.
  - lia.
  - pose proof (step_next_timer_id this op) as Hstep.
    destruct (step libm this op) as [this1 events]. simpl in Hstep.
    simpl length in Hhi.
    assert (Hnext : next_timer_id_ this <= next_timer_id_ this1
                    <= next_timer_id_ this + 1).
    { destruct Hstep as [-> | ->]; [lia|].
      rewrite uint_ptr_small by lia. lia. }
    specialize (IH this1).
    destruct (run libm this1 ops) as [this2 more]. simpl in *.
    lia.
Qed.

(** C5 — on a null host window pointer or a null window handle,
    [StartAnimation] returns the sentinel [0], leaves the controller
    exactly as it was (no record stored or removed, spring parameters and
    identifier counter untouched) and makes no system call at all (no
    timer is killed or armed).  Identifiers start at 1000: a controller
    that has so far performed fewer than [2^64 - 1000] operations returns,
    on a valid window, the identifier [next_timer_id_], which is at least
    1000 and so never the sentinel. *)
Theorem StartAnimation_fails_cleanly_and_ids_are_nonzero :
  forall (os : Win32) (request : AnimationRequest) (this : WindowApi)
         (window : option HostWindow) (ops : list Op),
    (window_ this = None
     \/ (exists w, window_ this = Some w /\ GetWindowHandle w = NULL) ->
     StartAnimation os this request = (0, this, []))
    /\ next_timer_id_ (WindowApi_new window) = 1000
    /\ (let reached := (run libm (WindowApi_new window) ops).1 in
        forall w,
          window_ reached = Some w -> GetWindowHandle w <> NULL ->
          Z.of_nat (length ops) < 2 ^ 64 - 1000 ->
          (StartAnimation os reached request).1.1 = next_timer_id_ reached
          /\ 1000 <= (StartAnimation os reached request).1.1 < 2 ^ 64
          /\ (StartAnimation os reached request).1.1 <> 0).
Proof.
  intros os request this window ops.
  repeat apply conj.
  - apply StartAnimation_invalid.
  - reflexivity.
  - intros reached w Hw Hh Hlen.
    destruct (StartAnimation_valid os reached request w Hw Hh)
      as (anim & events & -> & _).
    simpl.
    pose proof (run_next_timer_id ops (WindowApi_new window)) as Hrun.
    simpl in Hrun. fold reached in Hrun. lia.
Qed.

End Identifiers.

(** A controller without host window, and one whose window has no handle
    yet: both refuse to start, and nothing happens. *)
Lemma StartAnimation_fails_cleanly_example :
  StartAnimation (example_os 0) (WindowApi_new None) (example_position kLinear)
  = (0, WindowApi_new None, [])
  /\ StartAnimation (example_os 0)
       (WindowApi_new (Some {| GetWindowHandle := NULL |}))
       (example_position kLinear)
     = (0, WindowApi_new (Some {| GetWindowHandle := NULL |}), [])
  /\ (StartAnimation (example_os 0) example_api (example_position kLinear)).1.1
     = 1000.
Proof. repeat apply conj; vm_compute; reflexivity. Qed.

(** ** Spring parameters *)

Lemma clamp_between (lo hi x : double) :
  flt lo hi = true -> fle lo lo = true -> fle hi hi = true ->
  fle lo (std_max lo (std_min hi x)) = true
  /\ fle (std_max lo (std_min hi x)) hi = true.
Proof.
  intros Hlohi Hlo Hhi. unfold std_max, std_min.
  destruct (x <? hi)%D eqn:Hx.
  - destruct (lo <? x)%D eqn:H0.
    + split; apply flt_fle; assumption.
    + split; [exact Hlo | apply flt_fle, Hlohi].
  - rewrite Hlohi. split; [apply flt_fle, Hlohi | exact Hhi].
Qed.

Lemma SetSpringParameters_range (this : WindowApi) (damping stiffness : double) :
  fle d_0_1 (spring_damping_ (SetSpringParameters this damping stiffness)) = true
  /\ fle (spring_damping_ (SetSpringParameters this damping stiffness)) d_2 = true
  /\ fle d_10 (spring_stiffness_ (SetSpringParameters this damping stiffness))
     = true
  /\ fle (spring_stiffness_ (SetSpringParameters this damping stiffness)) d_500
     = true.
Proof.
  simpl.
  destruct (clamp_between d_0_1 d_2 damping) as [H1 H2]; try reflexivity.
  destruct (clamp_between d_10 d_500 stiffness) as [H3 H4]; try reflexivity.
  auto.
Qed.

(** C9 — a successful [StartAnimation] whose request sets
    [use_custom_spring] stores the request's damping and stiffness in the
    controller as they are, whatever their values: no clamping is applied
    (and the new record captures the same raw values). *)
Theorem StartAnimation_custom_spring_is_not_clamped :
  forall (os : Win32) (this : WindowApi) (request : AnimationRequest)
         (w : HostWindow),
    window_ this = Some w -> GetWindowHandle w <> NULL ->
    req_use_custom_spring request = true ->
    spring_damping_ (StartAnimation os this request).1.2
    = req_spring_damping request
    /\ spring_stiffness_ (StartAnimation os this request).1.2
       = req_spring_stiffness request
    /\ (exists anim,
          active_animations_ (StartAnimation os this request).1.2
            !! (StartAnimation os this request).1.1 = Some anim
          /\ spring_damping anim = req_spring_damping request
          /\ spring_stiffness anim = req_spring_stiffness request).
Proof.
  intros os this request w Hw Hh Hcustom.
  destruct (StartAnimation_valid os this request w Hw Hh)
    as (anim & events & -> & _ & _ & _ & _ & _ & _ & Hd & Hs & _).
  simpl in *. rewrite Hcustom in *.
  repeat apply conj; try reflexivity.
  exists anim. rewrite lookup_insert_eq. auto.
Qed.

(** A request with damping 10 and stiffness 1000, both beyond the ranges
    [[0.1, 2.0]] and [[10, 500]] of [SetSpringParameters], leaves exactly
    these values in the controller. *)
Lemma StartAnimation_custom_spring_witness :
  let after :=
    (StartAnimation (example_os 0) example_api
       (example_fade_out true d_10 d_1000)).1.2 in
  spring_damping_ after = d_10
  /\ spring_stiffness_ after = d_1000
  /\ fle (spring_damping_ after) d_2 = false
  /\ fle (spring_stiffness_ after) d_500 = false.
Proof.
  assert (Hw : window_ example_api = Some {| GetWindowHandle := 42 |})
    by reflexivity.
  assert (Hh : GetWindowHandle {| GetWindowHandle := 42 |} <> NULL)
    by (vm_compute; lia).
  assert (Hc : req_use_custom_spring (example_fade_out true d_10 d_1000) = true)
    by reflexivity.
  destruct (StartAnimation_custom_spring_is_not_clamped (example_os 0)
              example_api (example_fade_out true d_10 d_1000) _ Hw Hh Hc)
    as (Hd & Hs & _).
  cbv zeta. rewrite Hd, Hs.
  repeat apply conj; reflexivity.
Defined.

(** ** The start value of an opacity animation *)

Lemma StopEach_only_kills (ids : list Z) :
  forall this : WindowApi, forallb is_KillTimer (StopEach this ids).2 = true.
Proof.
  induction ids as [|id rest IH]; intros this; simpl; [reflexivity|].
  assert (Hone : forallb is_KillTimer (StopAnimation this id).2 = true).
  { unfold StopAnimation.
    destruct (active_animations_ this !! id) as [anim|]; simpl;
      [destruct (hwnd anim =? NULL)|]; reflexivity. }
  destruct (StopAnimation this id) as [this1 events]. simpl in Hone.
  specialize (IH this1).
  destruct (StopEach this1 rest) as [this2 more]. simpl in *.
  rewrite forallb_app, Hone, IH. reflexivity.
Qed.

Lemma only_kills_no_alpha_query (events : list Event) :
  forallb is_KillTimer events = true ->
  existsb is_GetLayeredWindowAttributes events = false.
Proof.
  induction events as [|e events IH]; simpl; [reflexivity|].
  intros H. apply andb_true_iff in H as [He Hrest].
  rewrite (IH Hrest). destruct e; try discriminate; reflexivity.
Qed.

Lemma StartAnimation_unfold (os : Win32) (this : WindowApi)
    (request : AnimationRequest) (w : HostWindow) :
  window_ this = Some w -> GetWindowHandle w <> NULL ->
  StartAnimation os this request
  = (let h := GetWindowHandle w in
     let stop := StopConflictingAnimations this (req_property request) in
     let common := start_common os stop.1 h request in
     let values := start_values os request common.1.2 in
     (timer_id values.1,
      with_animations
        (<[timer_id values.1 := values.1]> (active_animations_ common.1.1))
        common.1.1,
      stop.2 ++ common.2 ++ values.2
        ++ [SetTimer h (timer_id values.1) kAnimationTimerInterval])).
Proof.
  intros Hw Hh. unfold StartAnimation. rewrite Hw.
  destruct (GetWindowHandle w =? NULL) eqn:Hnull; [lia|].
  cbv zeta.
  destruct (StopConflictingAnimations this (req_property request))
    as [this1 stopped]. cbn [fst snd].
  destruct (start_common os this1 (GetWindowHandle w) request)
    as [[this2 anim] common]. cbn [fst snd].
  destruct (start_values os request anim) as [anim' captured].
  reflexivity.
Qed.

Lemma start_values_opacity (os : Win32) (request : AnimationRequest)
    (anim : WindowAnimation) :
  req_property request = kOpacity ->
  let layered := negb (Z.land (os_ex_style os) WS_EX_LAYERED =? 0) in
  start_opacity (start_values os request anim).1
  = (if layered && os_layered_ok os
        && negb (Z.land (os_layered_flags os) LWA_ALPHA =? 0)
     then (b64_of_Z (os_layered_alpha os) / d_255)%D else d_1)
  /\ (start_values os request anim).2
     = GetWindowLong (hwnd anim) GWL_EXSTYLE
         :: (if layered then []
             else [SetWindowLong (hwnd anim) GWL_EXSTYLE
                     (Z.lor (os_ex_style os) WS_EX_LAYERED)])
         ++ (if layered then [GetLayeredWindowAttributes (hwnd anim)] else []).
Proof.
  intros Hp layered. unfold start_values. rewrite Hp. fold layered.
  destruct layered; simpl.
  - destruct (os_layered_ok os
              && negb (Z.land (os_layered_flags os) LWA_ALPHA =? 0));
      split; reflexivity.
  - split; reflexivity.
Qed.

(** C10 — a successful [StartAnimation] for Opacity reads the extended
    style once.  If the layered flag was clear, it sets the flag
    ([SetWindowLong] with the style or-ed with [WS_EX_LAYERED]), never
    calls [GetLayeredWindowAttributes], and the record starts from opacity
    [1.0].  The alpha is queried exactly when the window was layered before
    the call, and it becomes the start opacity ([alpha / 255]) only when
    that query succeeds with the alpha flag set; in every other case the
    start opacity is the default [1.0]. *)
Theorem StartAnimation_opacity_start_value :
  forall (os : Win32) (this : WindowApi) (request : AnimationRequest)
         (w : HostWindow),
    window_ this = Some w -> GetWindowHandle w <> NULL ->
    req_property request = kOpacity ->
    let result := StartAnimation os this request in
    let events := result.2 in
    let layered := negb (Z.land (os_ex_style os) WS_EX_LAYERED =? 0) in
    exists anim,
      active_animations_ result.1.2 !! result.1.1 = Some anim
      /\ In (GetWindowLong (GetWindowHandle w) GWL_EXSTYLE) events
      /\ (layered = false ->
          In (SetWindowLong (GetWindowHandle w) GWL_EXSTYLE
                (Z.lor (os_ex_style os) WS_EX_LAYERED)) events
          /\ existsb is_GetLayeredWindowAttributes events = false
          /\ start_opacity anim = d_1)
      /\ existsb is_GetLayeredWindowAttributes events = layered
      /\ start_opacity anim
         = (if layered && os_layered_ok os
               && negb (Z.land (os_layered_flags os) LWA_ALPHA =? 0)
            then (b64_of_Z (os_layered_alpha os) / d_255)%D else d_1).
Proof.
  intros os this request w Hw Hh Hp result events layered.
  unfold events, result. rewrite (StartAnimation_unfold os this request w Hw Hh).
  cbv zeta.
  pose proof (StopEach_only_kills
                (to_stop (req_property request) (active_animations_ this))
                this) as Hkills.
  fold (StopConflictingAnimations this (req_property request)) in Hkills.
  apply only_kills_no_alpha_query in Hkills.
  destruct (StopConflictingAnimations this (req_property request))
    as [this1 stopped]. simpl in Hkills.
  unfold start_common.
  match goal with
  | |- context [start_values os request ?a] =>
      pose proof (start_values_opacity os request a Hp) as [Hstart Hevents];
      pose proof (start_values_fields os request a) as (_ & Hhwnd & _);
      destruct (start_values os request a) as [anim captured]
  end.
  cbv zeta in Hstart, Hevents. fold layered in Hstart, Hevents.
  simpl in Hstart, Hevents, Hhwnd. simpl.
  assert (Hquery :
    existsb is_GetLayeredWindowAttributes
      (stopped ++ GetDpiForHWND (GetWindowHandle w)
         :: DwmGetWindowAttribute (GetWindowHandle w)
         :: (if os_frame_ok os then [GetWindowRect (GetWindowHandle w)] else [])
         ++ captured
         ++ [SetTimer (GetWindowHandle w) (timer_id anim)
               kAnimationTimerInterval]) = layered).
  { rewrite existsb_app, Hkills. simpl. rewrite !existsb_app.
    rewrite Hevents. destruct (os_frame_ok os), layered; reflexivity. }
  exists anim. repeat apply conj.
  - apply lookup_insert_eq.
  - apply in_or_app. right. right. right. apply in_or_app. right.
    apply in_or_app. left. rewrite Hevents. left. reflexivity.
  - intros Hl. repeat apply conj.
    + apply in_or_app. right. right. right. apply in_or_app. right.
      apply in_or_app. left. rewrite Hevents, Hl. right. left. reflexivity.
    + rewrite Hquery. exact Hl.
    + rewrite Hstart, Hl. reflexivity.
  - exact Hquery.
  - exact Hstart.
Qed.

(** Fading out the example window, which is not layered: the style gains
    the layered flag, the alpha is never queried, and the start opacity is
    [1.0]. *)
Lemma StartAnimation_opacity_witness :
  (StartAnimation (example_os 0) example_api
     (example_fade_out false d_0_7 d_100)).2
  = [GetDpiForHWND 42; DwmGetWindowAttribute 42; GetWindowRect 42;
     GetWindowLong 42 GWL_EXSTYLE; SetWindowLong 42 GWL_EXSTYLE WS_EX_LAYERED;
     SetTimer 42 1000 16]
  /\ exists anim,
       active_animations_
         (StartAnimation (example_os 0) example_api
            (example_fade_out false d_0_7 d_100)).1.2 !! 1000 = Some anim
       /\ start_opacity anim = d_1.
Proof.
  assert (Hw : window_ example_api = Some {| GetWindowHandle := 42 |})
    by reflexivity.
  assert (Hh : GetWindowHandle {| GetWindowHandle := 42 |} <> NULL)
    by (vm_compute; lia).
  assert (Hp : req_property (example_fade_out false d_0_7 d_100) = kOpacity)
    by reflexivity.
  destruct (StartAnimation_opacity_start_value (example_os 0) example_api
              (example_fade_out false d_0_7 d_100) _ Hw Hh Hp)
    as (anim & Hanim & _ & _ & _ & Hstart).
  split; [vm_compute; reflexivity|].
  exists anim. split; [exact Hanim | exact Hstart].
Defined.

(** ** Spring parameters and animations in flight *)

Lemma UpdateAnimation_in_flight (libm : Libm) (os : Win32) (this : WindowApi)
    (anim : WindowAnimation) :
  is_active anim = true -> hwnd anim <> NULL ->
  fle (b64_of_Z (duration anim)) (GetElapsedMs os (start_time_qpc anim))
  = false ->
  let p :=
    (GetElapsedMs os (start_time_qpc anim) / b64_of_Z (duration anim))%D in
  UpdateAnimation libm os this anim
  = (with_progress p anim,
     ApplyAnimationFrame anim (CalculateEasing libm this p (easing anim))).
Proof.
  intros Hact Hh Helapsed p.
  assert (Hnull : (hwnd anim =? NULL) = false) by lia.
  unfold UpdateAnimation. rewrite Hact, Hnull. simpl. rewrite Helapsed.
  reflexivity.
Qed.

(** C8 — [SetSpringParameters] stores the damping clamped to [[0.1, 2.0]]
    and the stiffness clamped to [[10, 500]].  It does reach an animation
    already in flight: [CalculateEasing] reads the controller's current
    [spring_damping_] and [spring_stiffness_], not the values the record
    captured at its start.  The example position animation starts with the
    defaults 0.7 and 100, which its record keeps; after
    [SetSpringParameters(2.0, 10.0)] the frame at half time is eased with
    damping 2.0 and stiffness 10.0, for every math library, and with the
    series library the window is placed at (29, 29) instead of
    (100, 100). *)
Theorem SetSpringParameters_changes_animation_in_flight :
  (forall (this : WindowApi) (damping stiffness : double),
      spring_damping_ (SetSpringParameters this damping stiffness)
      = std_max d_0_1 (std_min d_2 damping)
      /\ spring_stiffness_ (SetSpringParameters this damping stiffness)
         = std_max d_10 (std_min d_500 stiffness)
      /\ fle d_0_1 (spring_damping_ (SetSpringParameters this damping stiffness))
         = true
      /\ fle (spring_damping_ (SetSpringParameters this damping stiffness)) d_2
         = true
      /\ fle d_10 (spring_stiffness_ (SetSpringParameters this damping stiffness))
         = true
      /\ fle (spring_stiffness_ (SetSpringParameters this damping stiffness))
           d_500 = true)
  /\ (let running := example_started kSpringBounce in
      let retuned := SetSpringParameters running d_2 d_10 in
      let anim := example_anim kSpringBounce in
      active_animations_ retuned !! 1000 = Some anim
      /\ spring_damping anim = d_0_7
      /\ spring_stiffness anim = d_100
      /\ (forall libm : Libm,
            (OnTimer libm (example_os 1500000) retuned 1000).2
            = ApplyAnimationFrame anim
                (CalculateSpringBounce libm d_0_5 d_2 d_10)
            /\ (OnTimer libm (example_os 1500000) running 1000).2
               = ApplyAnimationFrame anim
                   (CalculateSpringBounce libm d_0_5 d_0_7 d_100))
      /\ (OnTimer series_libm (example_os 1500000) running 1000).2
         = [SetWindowPos 42 100 100 0 0 8213; DwmFlush]
      /\ (OnTimer series_libm (example_os 1500000) retuned 1000).2
         = [SetWindowPos 42 29 29 0 0 8213; DwmFlush]).
Proof.
  split.
  - intros this damping stiffness.
    pose proof (SetSpringParameters_range this damping stiffness)
      as (H1 & H2 & H3 & H4).
    repeat apply conj; try assumption; reflexivity.
  - cbv zeta.
    assert (Hact : is_active (example_anim kSpringBounce) = true)
      by reflexivity.
    assert (Hh : hwnd (example_anim kSpringBounce) <> NULL)
      by (vm_compute; lia).
    assert (Hel : fle (b64_of_Z (duration (example_anim kSpringBounce)))
                    (GetElapsedMs (example_os 1500000)
                       (start_time_qpc (example_anim kSpringBounce))) = false)
      by (vm_compute; reflexivity).
    assert (Hp : (GetElapsedMs (example_os 1500000)
                    (start_time_qpc (example_anim kSpringBounce))
                  / b64_of_Z (duration (example_anim kSpringBounce)))%D = d_0_5)
      by (vm_compute; reflexivity).
    assert (Hlook : forall this,
               active_animations_ this
               = active_animations_ (example_started kSpringBounce) ->
               active_animations_ this !! 1000
               = Some (example_anim kSpringBounce)).
    { intros this ->. vm_compute. reflexivity. }
    assert (Hstep : forall libm this,
               active_animations_ this
               = active_animations_ (example_started kSpringBounce) ->
               (OnTimer libm (example_os 1500000) this 1000).2
               = ApplyAnimationFrame (example_anim kSpringBounce)
                   (CalculateSpringBounce libm d_0_5 (spring_damping_ this)
                      (spring_stiffness_ this))).
    { intros libm this Hmap. unfold OnTimer.
      rewrite (Hlook this Hmap), Hact. simpl negb. cbv iota.
      pose proof (UpdateAnimation_in_flight libm (example_os 1500000) this
                    (example_anim kSpringBounce) Hact Hh Hel) as Hupd.
      cbv zeta in Hupd. rewrite Hp in Hupd. rewrite Hupd.
      change (is_active (with_progress d_0_5 (example_anim kSpringBounce)))
        with true.
      reflexivity. }
    repeat apply conj.
    + apply Hlook. reflexivity.
    + reflexivity.
    + reflexivity.
    + intros libm. split; apply (Hstep libm); reflexivity.
    + vm_compute. reflexivity.
    + vm_compute. reflexivity.
Qed.

(** ** Conflict classes *)

Lemma StopEach_kills (ids : list Z) :
  forall this : WindowApi,
    (forall k a, active_animations_ this !! k = Some a -> hwnd a <> NULL) ->
    forall h k,
      KillTimer h k ∈ (StopEach this ids).2
      <-> k ∈ ids
          /\ exists a, active_animations_ this !! k = Some a /\ hwnd a = h.
Proof.
  induction ids as [|id rest IH]; intros this Hlive h k.
  - cbn. split.
    + intros Hin. apply elem_of_nil in Hin. contradiction.
    + intros [Hin _]. apply elem_of_nil in Hin. contradiction.
  - cbn [StopEach].
    pose proof (StopAnimation_map this id) as Hmap.
    assert (Hone : (StopAnimation this id).2
                   = match active_animations_ this !! id with
                     | Some a => [KillTimer (hwnd a) id]
                     | None => []
                     end).
    { unfold StopAnimation.
      destruct (active_animations_ this !! id) as [a|] eqn:Hid;
        [|reflexivity].
      cbn [snd]. pose proof (Hlive id a Hid).
      destruct (hwnd a =? NULL) eqn:Hnull; [lia | reflexivity]. }
    destruct (StopAnimation this id) as [this1 events]. cbn [fst snd] in *.
    assert (Hlive1 : forall k a,
              active_animations_ this1 !! k = Some a -> hwnd a <> NULL).
    { intros k' a'. rewrite Hmap. intros [_ Hk]%lookup_delete_Some.
      exact (Hlive k' a' Hk). }
    specialize (IH this1 Hlive1 h k).
    destruct (StopEach this1 rest) as [this2 more]. cbn [fst snd] in *.
    rewrite elem_of_app, IH, Hone, elem_of_cons, Hmap. split.
    + intros [Hfirst | (Hin & a & Hk & Hh)].
      * destruct (active_animations_ this !! id) as [a|] eqn:Hid.
        -- apply list_elem_of_singleton in Hfirst. injection Hfirst as -> ->.
           split; [left; reflexivity|]. exists a. split; [exact Hid|reflexivity].
        -- apply elem_of_nil in Hfirst. contradiction.
      * apply lookup_delete_Some in Hk as [_ Hk].
        split; [right; exact Hin|]. exists a. split; assumption.
    + intros ([-> | Hin] & a & Hk & Hh).
      * left. rewrite Hk, Hh. apply list_elem_of_singleton. reflexivity.
      * destruct (decide (k = id)) as [->|Hne].
        -- left. rewrite Hk, Hh. apply list_elem_of_singleton. reflexivity.
        -- right. split; [exact Hin|]. exists a. split; [|exact Hh].
           apply lookup_delete_Some. split; [congruence | exact Hk].
Qed.

Lemma StopEach_events_ids (ids : list Z) :
  forall (this : WindowApi) (e : Event),
    e ∈ (StopEach this ids).2 -> exists h k, e = KillTimer h k /\ k ∈ ids.
Proof.
  induction ids as [|id rest IH]; intros this e.
  - cbn. intros Hin. apply elem_of_nil in Hin. contradiction.
  - cbn [StopEach].
    assert (Hone : forall e', e' ∈ (StopAnimation this id).2 ->
                              exists h, e' = KillTimer h id).
    { intros e'. unfold StopAnimation.
      destruct (active_animations_ this !! id) as [a|]; cbn [snd];
        [destruct (hwnd a =? NULL)|]; intros Hin;
        try (apply elem_of_nil in Hin; contradiction).
      apply list_elem_of_singleton in Hin. eauto. }
    destruct (StopAnimation this id) as [this1 events]. cbn [fst snd] in *.
    specialize (IH this1 e).
    destruct (StopEach this1 rest) as [this2 more]. cbn [fst snd] in *.
    rewrite elem_of_app. intros [Hin|Hin].
    + destruct (Hone e Hin) as [h ->]. exists h, id. split; [reflexivity|left].
    + destruct (IH Hin) as (h & k & -> & Hk). exists h, k.
      split; [reflexivity | right; exact Hk].
Qed.

Lemma StopEach_NoDup (ids : list Z) :
  NoDup ids -> forall this : WindowApi, NoDup (StopEach this ids).2.
Proof.
  induction 1 as [|id rest Hnotin Hnodup IH]; intros this.
  - cbn. apply NoDup_nil. exact I.
  - cbn [StopEach].
    assert (Hone : (StopAnimation this id).2 = []
                   \/ exists h, (StopAnimation this id).2 = [KillTimer h id]).
    { unfold StopAnimation.
      destruct (active_animations_ this !! id) as [a|]; cbn [snd];
        [destruct (hwnd a =? NULL)|]; eauto. }
    destruct (StopAnimation this id) as [this1 events]. cbn [fst snd] in *.
    pose proof (StopEach_events_ids rest this1) as Hids.
    specialize (IH this1).
    destruct (StopEach this1 rest) as [this2 more]. cbn [fst snd] in *.
    destruct Hone as [-> | [h ->]]; [exact IH|].
    cbn [app]. apply NoDup_cons. split; [|exact IH].
    intros Hin. destruct (Hids _ Hin) as (h' & k & Heq & Hk).
    injection Heq as _ <-. contradiction.
Qed.

Lemma to_stop_NoDup (p : AnimationPropertyType) (m : gmap Z WindowAnimation) :
  NoDup (to_stop p m).
Proof.
  unfold to_stop.
  apply (sublist_NoDup _ (map_to_list m).*1);
    [apply NoDup_fst_map_to_list|].
  apply fmap_sublist, sublist_filter.
Qed.

Lemma start_common_no_kill (os : Win32) (this : WindowApi) (h : HWND)
    (request : AnimationRequest) :
  existsb is_KillTimer (start_common os this h request).2 = false.
Proof.
  unfold start_common. cbn [snd]. destruct (os_frame_ok os); reflexivity.
Qed.

Lemma start_values_no_kill (os : Win32) (request : AnimationRequest)
    (anim : WindowAnimation) :
  existsb is_KillTimer (start_values os request anim).2 = false.
Proof.
  unfold start_values.
  destruct (req_property request).
  - destruct (rect_nonzero (os_frame_rect os));
      [|destruct (os_window_rect_ok os)]; reflexivity.
  - destruct (0 <? rect_width (os_frame_rect os));
      [|destruct (os_window_rect_ok os)]; reflexivity.
  - destruct (0 <? rect_width (os_frame_rect os));
      [|destruct (os_window_rect_ok os)]; reflexivity.
  - cbn zeta.
    destruct (negb (Z.land (os_ex_style os) WS_EX_LAYERED =? 0));
      [destruct (os_layered_ok os
                 && negb (Z.land (os_layered_flags os) LWA_ALPHA =? 0))|];
      reflexivity.
Qed.

Section ConflictClasses.

Context (libm : Libm).

(** C2 — in every state that a window's controller reaches from its
    construction, by any sequence of [StartAnimation] calls (interleaved
    with any other operation), at most one active animation exists per
    conflict class: two stored active animations of conflicting properties
    are one and the same, and for each window attribute (origin, extent,
    alpha) all active animations writing it share one identifier.
    Conflicts are those of the source: Position with Position and Bounds;
    Size with Size and Bounds; Bounds with Position, Size and Bounds;
    Opacity with Opacity only.  Starting a new animation on a valid window
    stops exactly the active animations of a conflicting class: it first
    issues [KillTimer], on the stopped record's window and identifier, once
    for each of them and for no other, and removes their records; it keeps
    every other record unchanged, invokes no completion callback, stores
    the new record as active under the returned identifier, arms its timer
    last, and leaves a state with the same property. *)
Theorem at_most_one_active_animation_per_conflict_class :
  forall (window : option HostWindow) (ops : list Op),
    let this := (run libm (WindowApi_new window) ops).1 in
    no_conflicts (active_animations_ this)
    /\ (forall attr i j a b,
          active_animations_ this !! i = Some a ->
          active_animations_ this !! j = Some b ->
          is_active a = true -> is_active b = true ->
          writes (property a) attr = true ->
          writes (property b) attr = true ->
          i = j)
    /\ (forall p q,
          conflicts p q
          = match p, q with
            | kPosition, (kPosition | kBounds) => true
            | kSize, (kSize | kBounds) => true
            | kBounds, (kPosition | kSize | kBounds) => true
            | kOpacity, kOpacity => true
            | _, _ => false
            end)
    /\ (forall os request w,
          window_ this = Some w -> GetWindowHandle w <> NULL ->
          exists anim events,
            StartAnimation os this request
            = (next_timer_id_ this, started this request anim, events)
            /\ (forall k a,
                  k <> next_timer_id_ this ->
                  active_animations_ this !! k = Some a ->
                  active_animations_ (started this request anim) !! k
                  = if is_active a && conflicts (req_property request) (property a)
                    then None else Some a)
            /\ existsb is_OnComplete events = false
            /\ active_animations_ (started this request anim)
                 !! next_timer_id_ this = Some anim
            /\ is_active anim = true
            /\ property anim = req_property request
            /\ last events
               = Some (SetTimer (GetWindowHandle w) (next_timer_id_ this)
                         kAnimationTimerInterval)
            /\ no_conflicts (active_animations_ (started this request anim))
            /\ (exists stopped rest,
                  events = stopped ++ rest
                  /\ forallb is_KillTimer stopped = true
                  /\ existsb is_KillTimer rest = false
                  /\ NoDup stopped
                  /\ (forall h k,
                        KillTimer h k ∈ stopped
                        <-> exists a,
                              active_animations_ this !! k = Some a
                              /\ is_active a = true
                              /\ conflicts (req_property request) (property a)
                                 = true
                              /\ hwnd a = h))).
Proof.
  intros window ops this.
  assert (Hinv : no_conflicts (active_animations_ this)).
  { apply run_no_conflicts, no_conflicts_new. }
  assert (Hlive : records_live (active_animations_ this)).
  { apply run_records_live, records_live_new. }
  repeat apply conj.
  - exact Hinv.
  - intros attr i j a b Hi Hj Ha Hb Hwa Hwb.
    apply (Hinv i j a b); try assumption.
    apply conflicts_iff_common_attribute. eauto.
  - intros p q. destruct p, q; reflexivity.
  - intros os request w Hw Hh.
    destruct (StartAnimation_valid os this request w Hw Hh)
      as (anim & events & Heq & _ & _ & Hprop & _ & Hact & _ & _ & _ & Hcb & Hlast).
    exists anim, events.
    split; [exact Heq|]. split; [|split; [exact Hcb|]].
    { intros k a Hk Ha. simpl. rewrite lookup_insert_ne by congruence.
      fold (should_stop (req_property request) a).
      destruct (should_stop (req_property request) a) eqn:Hstop.
      * apply map_lookup_filter_None. right. intros a' Ha'. simpl.
        congruence.
      * apply survivors_lookup_Some. auto. }
    split; [simpl; apply lookup_insert_eq|].
    split; [exact Hact|]. split; [exact Hprop|]. split; [exact Hlast|].
    split; [apply no_conflicts_started; assumption|].
    pose proof (StartAnimation_unfold os this request w Hw Hh) as Hunfold.
    cbv zeta in Hunfold. rewrite Heq in Hunfold.
    apply (f_equal snd) in Hunfold. cbn [snd] in Hunfold.
    rename Hunfold into Hevents.
    exists (StopConflictingAnimations this (req_property request)).2.
    eexists. split; [exact Hevents|].
    unfold StopConflictingAnimations.
    split; [apply StopEach_only_kills|].
    split.
    { rewrite !existsb_app, start_common_no_kill, start_values_no_kill.
      reflexivity. }
    split; [apply StopEach_NoDup, to_stop_NoDup|].
    intros h k. rewrite StopEach_kills.
    + rewrite elem_of_to_stop. unfold should_stop. split.
      * intros ((a & Hk & Hstop) & a' & Hk' & Hh').
        assert (a' = a) as -> by congruence.
        apply andb_true_iff in Hstop as [Hactive Hconf].
        exists a. repeat split; assumption.
      * intros (a & Hk & Hactive & Hconf & Hh').
        split; exists a; split; try assumption.
        rewrite Hactive, Hconf. reflexivity.
    + intros k' a' Hk'. apply (Hlive k' a' Hk').
Qed.

End ConflictClasses.

(** ** The tick scheduler *)

Lemma TimerCache_deliveries (cache : list Z) (delivered : double)
    (api : Z) (delta : double) :
  (api, delta)
    ∈ omap (fun window : Z =>
              if window =? 0 then None else Some (window, delivered)) cache
  <-> api ∈ cache /\ api <> 0 /\ delta = delivered.
Proof.
  rewrite list_elem_of_omap. split.
  - intros [window [Hin Hsome]].
    destruct (window =? 0) eqn:Hz; [discriminate|].
    injection Hsome as <- <-. repeat split; [assumption | lia].
  - intros (Hin & Hnz & ->). exists api. split; [assumption|].
    destruct (api =? 0) eqn:Hz; [lia | reflexivity].
Qed.

Lemma TimerPostTask_deliveries (GetApi : Z -> Z) (windows : list Z)
    (delivered : double) (api : Z) (delta : double) :
  (api, delta)
    ∈ omap (fun window : Z =>
              if window =? 0 then None
              else if GetApi window =? 0 then None
                   else Some (GetApi window, delivered)) windows
  <-> (exists window,
          window ∈ windows /\ window <> 0 /\ GetApi window = api /\ api <> 0)
      /\ delta = delivered.
Proof.
  rewrite list_elem_of_omap. split.
  - intros [window [Hin Hsome]].
    destruct (window =? 0) eqn:Hz; [discriminate|].
    destruct (GetApi window =? 0) eqn:Ha; [discriminate|].
    injection Hsome as <- <-. split; [|reflexivity].
    exists window. repeat split; [assumption | lia | lia].
  - intros [(window & Hin & Hnz & <- & Ha) ->]. exists window.
    split; [assumption|].
    destruct (window =? 0) eqn:Hz; [lia|].
    destruct (GetApi window =? 0) eqn:Hz'; [lia | reflexivity].
Qed.

(** C4 — for two consecutive ticks, at counter readings [previous] and
    [now], the measured elapsed time is the difference of the two readings
    in milliseconds, each computed as [count * 1000.0 / frequency].  If it
    exceeds 100 ms, every consumer ticked on the second tick receives
    16 ms; otherwise every one receives the measured time.  In the first
    revision the consumers are the [WindowApi] objects of the registered,
    non-null host windows, ticked by the posted task; in the second they
    are the non-null entries of the cache, which are the registered
    consumers whenever the cache was current before.  On a 10 MHz counter,
    fires 250 ms apart deliver 16 ms, fires exactly 100 ms apart deliver
    the 100 ms measured, and fires 16.5 ms apart deliver 16.5 ms. *)
Theorem OnTick_caps_stalled_delta :
  (forall previous now : Z,
    (forall (this : TimerPostTask.WindowApiTimer) (GetApi : Z -> Z),
        let frequency := TimerPostTask.qpc_frequency_ this in
        let measured :=
          (b64_of_Z now * d_1000 / b64_of_Z frequency
           - b64_of_Z previous * d_1000 / b64_of_Z frequency)%D in
        let delivered := if (d_100 <? measured)%D then d_16 else measured in
        let first := TimerPostTask.OnTick this previous in
        let second := TimerPostTask.OnTick first.1 now in
        TimerPostTask.delta_ms second.2 = delivered
        /\ forall api delta,
             (api, delta) ∈ TimerPostTask.RunTask GetApi second.1 second.2
             <-> (exists window,
                     window ∈ TimerPostTask.windows_ this /\ window <> 0
                     /\ GetApi window = api /\ api <> 0)
                 /\ delta = delivered)
    /\ (forall this : TimerCache.WindowApiTimer,
          let frequency := TimerCache.qpc_frequency_ this in
          let measured :=
            (b64_of_Z now * d_1000 / b64_of_Z frequency
             - b64_of_Z previous * d_1000 / b64_of_Z frequency)%D in
          let delivered := if (d_100 <? measured)%D then d_16 else measured in
          let first := TimerCache.OnTick this previous in
          let second := TimerCache.OnTick first.1 now in
          (forall api delta, (api, delta) ∈ second.2 -> delta = delivered)
          /\ (TimerCache.coherent this ->
              forall api delta,
                (api, delta) ∈ second.2
                <-> api ∈ TimerCache.windowApis_ this /\ api <> 0
                    /\ delta = delivered)))
  /\ (forall this : TimerPostTask.WindowApiTimer,
        TimerPostTask.qpc_frequency_ this = 10000000 ->
        let first := (TimerPostTask.OnTick this 50000000).1 in
        TimerPostTask.delta_ms (TimerPostTask.OnTick first 52500000).2 = d_16
        /\ TimerPostTask.delta_ms (TimerPostTask.OnTick first 51000000).2
           = d_100
        /\ TimerPostTask.delta_ms (TimerPostTask.OnTick first 50165000).2
           = (b64_of_Z 33 / d_2)%D)
  /\ (forall (this : TimerCache.WindowApiTimer) (api : Z) (delta : double),
        TimerCache.qpc_frequency_ this = 10000000 ->
        TimerCache.coherent this ->
        let first := (TimerCache.OnTick this 50000000).1 in
        ((api, delta) ∈ (TimerCache.OnTick first 52500000).2
         <-> api ∈ TimerCache.windowApis_ this /\ api <> 0 /\ delta = d_16)
        /\ ((api, delta) ∈ (TimerCache.OnTick first 51000000).2
            <-> api ∈ TimerCache.windowApis_ this /\ api <> 0
                /\ delta = d_100)
        /\ ((api, delta) ∈ (TimerCache.OnTick first 50165000).2
            <-> api ∈ TimerCache.windowApis_ this /\ api <> 0
                /\ delta = (b64_of_Z 33 / d_2)%D)).
Proof.
  assert (Hgeneral : forall previous now : Z,
    (forall (this : TimerPostTask.WindowApiTimer) (GetApi : Z -> Z),
        let frequency := TimerPostTask.qpc_frequency_ this in
        let measured :=
          (b64_of_Z now * d_1000 / b64_of_Z frequency
           - b64_of_Z previous * d_1000 / b64_of_Z frequency)%D in
        let delivered := if (d_100 <? measured)%D then d_16 else measured in
        let first := TimerPostTask.OnTick this previous in
        let second := TimerPostTask.OnTick first.1 now in
        TimerPostTask.delta_ms second.2 = delivered
        /\ forall api delta,
             (api, delta) ∈ TimerPostTask.RunTask GetApi second.1 second.2
             <-> (exists window,
                     window ∈ TimerPostTask.windows_ this /\ window <> 0
                     /\ GetApi window = api /\ api <> 0)
                 /\ delta = delivered)
    /\ (forall this : TimerCache.WindowApiTimer,
          let frequency := TimerCache.qpc_frequency_ this in
          let measured :=
            (b64_of_Z now * d_1000 / b64_of_Z frequency
             - b64_of_Z previous * d_1000 / b64_of_Z frequency)%D in
          let delivered := if (d_100 <? measured)%D then d_16 else measured in
          let first := TimerCache.OnTick this previous in
          let second := TimerCache.OnTick first.1 now in
          (forall api delta, (api, delta) ∈ second.2 -> delta = delivered)
          /\ (TimerCache.coherent this ->
              forall api delta,
                (api, delta) ∈ second.2
                <-> api ∈ TimerCache.windowApis_ this /\ api <> 0
                    /\ delta = delivered))).
  { intros previous now. split.
    - intros this GetApi frequency measured delivered first second.
      split; [reflexivity|].
      intros api delta. unfold TimerPostTask.RunTask. simpl.
      fold frequency. unfold qpc_to_ms. fold measured. fold delivered.
      rewrite TimerPostTask_deliveries.
      setoid_rewrite elem_of_elements. reflexivity.
    - intros this frequency measured delivered first second.
      assert (Hsecond :
        second.2
        = omap (fun window : Z =>
                  if window =? 0 then None else Some (window, delivered))
               (if TimerCache.windowApis_dirty_ this
                then elements (TimerCache.windowApis_ this)
                else TimerCache.windowApis_cache_ this)) by reflexivity.
      rewrite Hsecond. split.
      + intros api delta Hin. apply TimerCache_deliveries in Hin. tauto.
      + intros Hcoherent api delta. rewrite TimerCache_deliveries.
        unfold TimerCache.coherent in Hcoherent.
        destruct (TimerCache.windowApis_dirty_ this).
        * rewrite elem_of_elements. reflexivity.
        * rewrite Hcoherent by reflexivity. rewrite elem_of_elements.
          reflexivity. }
  assert (H250 :
    (if (d_100 <? b64_of_Z 52500000 * d_1000 / b64_of_Z 10000000
                  - b64_of_Z 50000000 * d_1000 / b64_of_Z 10000000)%D
     then d_16
     else (b64_of_Z 52500000 * d_1000 / b64_of_Z 10000000
           - b64_of_Z 50000000 * d_1000 / b64_of_Z 10000000)%D) = d_16)
    by (vm_compute; reflexivity).
  assert (H100 :
    (if (d_100 <? b64_of_Z 51000000 * d_1000 / b64_of_Z 10000000
                  - b64_of_Z 50000000 * d_1000 / b64_of_Z 10000000)%D
     then d_16
     else (b64_of_Z 51000000 * d_1000 / b64_of_Z 10000000
           - b64_of_Z 50000000 * d_1000 / b64_of_Z 10000000)%D) = d_100)
    by (vm_compute; reflexivity).
  assert (H16 :
    (if (d_100 <? b64_of_Z 50165000 * d_1000 / b64_of_Z 10000000
                  - b64_of_Z 50000000 * d_1000 / b64_of_Z 10000000)%D
     then d_16
     else (b64_of_Z 50165000 * d_1000 / b64_of_Z 10000000
           - b64_of_Z 50000000 * d_1000 / b64_of_Z 10000000)%D)
    = (b64_of_Z 33 / d_2)%D)
    by (vm_compute; reflexivity).
  split; [exact Hgeneral|]. split.
  - intros this Hf first.
    pose proof (proj1 (proj1 (Hgeneral 50000000 52500000) this id)) as Ha.
    pose proof (proj1 (proj1 (Hgeneral 50000000 51000000) this id)) as Hb.
    pose proof (proj1 (proj1 (Hgeneral 50000000 50165000) this id)) as Hc.
    cbv zeta in Ha, Hb, Hc. rewrite Hf in Ha, Hb, Hc.
    rewrite H250 in Ha. rewrite H100 in Hb. rewrite H16 in Hc.
    split; [exact Ha|]. split; [exact Hb | exact Hc].
  - intros this api delta Hf Hcoherent first.
    pose proof (proj2 (proj2 (Hgeneral 50000000 52500000) this)
                  Hcoherent api delta) as Ha.
    pose proof (proj2 (proj2 (Hgeneral 50000000 51000000) this)
                  Hcoherent api delta) as Hb.
    pose proof (proj2 (proj2 (Hgeneral 50000000 50165000) this)
                  Hcoherent api delta) as Hc.
    cbv zeta in Ha, Hb, Hc. rewrite Hf in Ha, Hb, Hc.
    rewrite H250 in Ha. rewrite H100 in Hb. rewrite H16 in Hc.
    split; [exact Ha|]. split; [exact Hb | exact Hc].
Qed.

(** The spec's scenario: two fires 250 ms apart on a 10 MHz counter
    deliver 16 ms to the registered consumer; two fires 16.5 ms apart
    deliver the 16.5 ms measured. *)
Lemma OnTick_caps_stalled_delta_example :
  let timer :=
    TimerCache.AddWindowApi (TimerCache.WindowApiTimer_new 10000000) 7 in
  let first := (TimerCache.OnTick timer 50000000).1 in
  (TimerCache.OnTick first 52500000).2 = [(7, d_16)]
  /\ (TimerCache.OnTick first 50165000).2
     = [(7, (b64_of_Z 33 / d_2)%D)].
Proof. split; vm_compute; reflexivity. Qed.

(** * Further properties of the controller *)

(** ** [StopAllAnimations] and [HasActiveAnimation] *)

Lemma HasActiveAnimation_true_iff (this : WindowApi) :
  HasActiveAnimation this = true
  <-> exists id anim,
        active_animations_ this !! id = Some anim /\ is_active anim = true.
Proof.
  unfold HasActiveAnimation. rewrite existsb_exists. split.
  - intros [[id anim] [Hin Hact]]. exists id, anim. split; [|exact Hact].
    apply elem_of_map_to_list, list_elem_of_In, Hin.
  - intros (id & anim & Hid & Hact). exists (id, anim). split; [|exact Hact].
    apply list_elem_of_In, elem_of_map_to_list, Hid.
Qed.

(** X2 — [HasActiveAnimation] is true exactly when some stored record has
    its active flag set; in every state a controller reaches this is the
    case exactly when the registry is not empty, and it is false on a new
    controller. *)
Theorem HasActiveAnimation_iff_animation_stored :
  forall (libm : Libm) (this : WindowApi) (window : option HostWindow)
         (ops : list Op),
    (HasActiveAnimation this = true
     <-> exists id anim,
           active_animations_ this !! id = Some anim /\ is_active anim = true)
    /\ (let reached := (run libm (WindowApi_new window) ops).1 in
        (HasActiveAnimation reached = true
         <-> exists id anim, active_animations_ reached !! id = Some anim)
        /\ (HasActiveAnimation reached = false
            <-> active_animations_ reached = ∅))
    /\ HasActiveAnimation (WindowApi_new window) = false.
Proof.
  intros libm this window ops.
  split; [apply HasActiveAnimation_true_iff|]. split; [|reflexivity].
  intros reached.
  assert (Hlive : records_live (active_animations_ reached)).
  { apply run_records_live, records_live_new. }
  assert (Hiff : HasActiveAnimation reached = true
                 <-> exists id anim, active_animations_ reached !! id = Some anim).
  { rewrite HasActiveAnimation_true_iff. split.
    - intros (id & anim & Hid & _). eauto.
    - intros (id & anim & Hid). exists id, anim. split; [exact Hid|].
      apply (Hlive id anim Hid). }
  split; [exact Hiff|]. split.
  - intros Hfalse. apply map_empty. intros i.
    destruct (active_animations_ reached !! i) as [a|] eqn:Hi; [|reflexivity].
    assert (Htrue : HasActiveAnimation reached = true) by (apply Hiff; eauto).
    congruence.
  - intros Hempty. apply not_true_iff_false. intros Hhas.
    apply Hiff in Hhas as (id & anim & Hid).
    rewrite Hempty, lookup_empty in Hid. discriminate.
Qed.

Lemma kill_each_key (h : HWND) (l : list (Z * WindowAnimation)) :
  map (fun p : Z * WindowAnimation => KillTimer h p.1) l
  = map (KillTimer h) l.*1.
Proof. induction l as [|p l IH]; simpl; [|rewrite IH]; reflexivity. Qed.

Lemma kill_each_no_callback (h : HWND) (ids : list Z) :
  existsb is_OnComplete (map (KillTimer h) ids) = false.
Proof. induction ids as [|id ids IH]; simpl; [reflexivity | exact IH]. Qed.

(** X1 — on a valid window [StopAllAnimations] empties the registry,
    issues exactly one [KillTimer], on the window's current handle, for
    every stored identifier and nothing else (no callback), so that
    [HasActiveAnimation] is false afterwards, a late [OnTimer] for any
    identifier is refused, and a second [StopAllAnimations] does nothing.
    With a null window pointer or a null handle it does nothing at all:
    stored records stay and no timer is killed. *)
Theorem StopAllAnimations_clears_the_registry :
  forall (this : WindowApi),
    (forall w,
        window_ this = Some w -> GetWindowHandle w <> NULL ->
        active_animations_ (StopAllAnimations this).1 = ∅
        /\ HasActiveAnimation (StopAllAnimations this).1 = false
        /\ (StopAllAnimations this).2
           = map (KillTimer (GetWindowHandle w))
                 (map_to_list (active_animations_ this)).*1
        /\ (forall id,
              In (KillTimer (GetWindowHandle w) id) (StopAllAnimations this).2
              <-> is_Some (active_animations_ this !! id))
        /\ NoDup (StopAllAnimations this).2
        /\ length (StopAllAnimations this).2 = size (active_animations_ this)
        /\ existsb is_OnComplete (StopAllAnimations this).2 = false
        /\ window_ (StopAllAnimations this).1 = window_ this
        /\ next_timer_id_ (StopAllAnimations this).1 = next_timer_id_ this
        /\ (forall libm os id,
              OnTimer libm os (StopAllAnimations this).1 id
              = (false, (StopAllAnimations this).1, []))
        /\ StopAllAnimations (StopAllAnimations this).1
           = ((StopAllAnimations this).1, []))
    /\ (window_ this = None
        \/ (exists w, window_ this = Some w /\ GetWindowHandle w = NULL) ->
        StopAllAnimations this = (this, [])).
Proof.
  intros this. split.
  - intros w Hw Hh.
    assert (Hnull : (GetWindowHandle w =? NULL) = false) by lia.
    assert (Hrun : StopAllAnimations this
                   = (with_animations ∅ this,
                      map (fun p : Z * WindowAnimation =>
                             KillTimer (GetWindowHandle w) p.1)
                          (map_to_list (active_animations_ this)))).
    { unfold StopAllAnimations. rewrite Hw, Hnull. reflexivity. }
    assert (Hevents : (StopAllAnimations this).2
                      = map (KillTimer (GetWindowHandle w))
                            (map_to_list (active_animations_ this)).*1).
    { rewrite Hrun. apply kill_each_key. }
    repeat apply conj.
    + rewrite Hrun. reflexivity.
    + rewrite Hrun. unfold HasActiveAnimation. simpl.
      rewrite map_to_list_empty. reflexivity.
    + exact Hevents.
    + intros id. rewrite Hevents, in_map_iff. split.
      * intros [k [Hk Hin]]. injection Hk as ->.
        apply list_elem_of_In, list_elem_of_fmap in Hin as [[k a] [-> Hin]].
        apply elem_of_map_to_list in Hin. simpl. eauto.
      * intros [a Ha]. exists id. split; [reflexivity|].
        apply list_elem_of_In, list_elem_of_fmap. exists (id, a).
        split; [reflexivity|]. apply elem_of_map_to_list, Ha.
    + rewrite Hevents.
      assert (Hinj : Inj (=) (=) (KillTimer (GetWindowHandle w))).
      { intros x y Hxy. injection Hxy as ->. reflexivity. }
      change (NoDup (KillTimer (GetWindowHandle w)
                       <$> (map_to_list (active_animations_ this)).*1)).
      apply (NoDup_fmap_2 _), NoDup_fst_map_to_list.
    + rewrite Hevents, length_map, length_fmap. apply length_map_to_list.
    + rewrite Hevents. apply kill_each_no_callback.
    + rewrite Hrun. reflexivity.
    + rewrite Hrun. reflexivity.
    + intros libm os id. rewrite Hrun. unfold OnTimer. simpl.
      rewrite lookup_empty. reflexivity.
    + rewrite Hrun. unfold StopAllAnimations. simpl. rewrite Hw, Hnull.
      simpl. rewrite map_to_list_empty. reflexivity.
  - intros [Hnone | [w [Hw Hnull]]]; unfold StopAllAnimations.
    + rewrite Hnone. reflexivity.
    + rewrite Hw, Hnull. reflexivity.
Qed.

(** Stopping everything while the example position animation runs. *)
Lemma StopAllAnimations_example :
  StopAllAnimations (example_started kLinear)
  = (with_animations ∅ (example_started kLinear), [KillTimer 42 1000])
  /\ StopAllAnimations
       (with_window_handle NULL (example_started kLinear))
     = (with_window_handle NULL (example_started kLinear), []).
Proof. split; vm_compute; reflexivity. Qed.

(** ** Identifiers are fresh *)

Section FreshIdentifiers.

Context (libm : Libm).

Lemma step_ids_below (this : WindowApi) (op : Op) :
  0 <= next_timer_id_ this -> next_timer_id_ this + 1 < 2 ^ 64 ->
  (forall k a, active_animations_ this !! k = Some a ->
               1000 <= k < next_timer_id_ this) ->
  1000 <= next_timer_id_ this ->
  forall k a,
    active_animations_ (step libm this op).1 !! k = Some a ->
    1000 <= k < next_timer_id_ (step libm this op).1.
Proof.
  intros Hlo Hhi Hm Hbase k a.
  destruct op as [os request|id| |os wParam|damping stiffness|h]; simpl.
  - destruct (window_ this) as [w|] eqn:Hw.
    + destruct (decide (GetWindowHandle w = NULL)) as [Hnull|Hh].
      * rewrite StartAnimation_invalid by eauto. apply Hm.
      * destruct (StartAnimation_valid os this request w Hw Hh)
          as (anim & events & -> & _).
        simpl. rewrite uint_ptr_small by lia.
        intros Hk. apply lookup_insert_Some in Hk as [[<- _]|[_ Hk]]; [lia|].
        apply survivors_lookup_Some in Hk as [Hk _].
        specialize (Hm k a Hk). lia.
    + rewrite StartAnimation_invalid by auto. apply Hm.
  - pose proof (StopAnimation_frame this id) as (_ & Hn & _).
    rewrite StopAnimation_map, Hn. intros Hk.
    apply lookup_delete_Some in Hk as [_ Hk]. apply (Hm k a Hk).
  - unfold StopAllAnimations.
    destruct (window_ this) as [w|]; [|apply Hm].
    destruct (GetWindowHandle w =? NULL); [apply Hm|]. simpl.
    rewrite lookup_empty. discriminate.
  - pose proof (OnTimer_frame libm os this wParam) as (_ & Hn & _).
    unfold OnTimer in *.
    destruct (active_animations_ this !! wParam) as [anim|] eqn:Hanim;
      simpl in *; [|apply Hm].
    destruct (negb (is_active anim)); simpl in *.
    + intros Hk. apply lookup_delete_Some in Hk as [_ Hk]. apply (Hm k a Hk).
    + destruct (UpdateAnimation libm os this anim) as [anim' events].
      destruct (negb (is_active anim')); simpl in *.
      * intros Hk. apply lookup_delete_Some in Hk as [_ Hk]. apply (Hm k a Hk).
      * intros Hk. apply lookup_insert_Some in Hk as [[<- _]|[_ Hk]].
        -- apply (Hm wParam anim Hanim).
        -- apply (Hm k a Hk).
  - apply Hm.
  - apply Hm.
Qed.

Lemma run_ids_below (ops : list Op) :
  forall this : WindowApi,
    1000 <= next_timer_id_ this ->
    next_timer_id_ this + Z.of_nat (length ops) < 2 ^ 64 ->
    (forall k a, active_animations_ this !! k = Some a ->
                 1000 <= k < next_timer_id_ this) ->
    forall k a,
      active_animations_ (run libm this ops).1 !! k = Some a ->
      1000 <= k < next_timer_id_ (run libm this ops).1.
Proof.
  induction ops as [|op ops IH]; intros this Hbase Hhi Hm; simpl.
  - exact Hm.
  - simpl length in Hhi.
    pose proof (step_ids_below this op) as Hstep.
    pose proof (step_next_timer_id libm this op) as Hnext.
    destruct (step libm this op) as [this1 events]. simpl in *.
    assert (Hbound : next_timer_id_ this <= next_timer_id_ this1
                     <= next_timer_id_ this + 1).
    { destruct Hnext as [-> | ->]; [lia|].
      rewrite uint_ptr_small by lia. lia. }
    specialize (IH this1).
    destruct (run libm this1 ops) as [this2 more]. simpl in *.
    apply IH; [lia | lia |].
    apply Hstep; [lia | lia | exact Hm | exact Hbase].
Qed.

(** X3 — identifiers are never reused.  In a state reached by fewer than
    [2^64 - 1001] operations every stored identifier is at least 1000 and
    below [next_timer_id_]; a successful [StartAnimation] therefore returns
    an identifier that is not stored and is larger than all stored ones,
    advances the counter by one, overwrites nothing, and leaves each older
    record either removed (active in a conflicting class) or untouched. *)
Theorem StartAnimation_returns_a_fresh_identifier :
  forall (os : Win32) (request : AnimationRequest)
         (window : option HostWindow) (ops : list Op) (w : HostWindow),
    let reached := (run libm (WindowApi_new window) ops).1 in
    Z.of_nat (length ops) < 2 ^ 64 - 1001 ->
    window_ reached = Some w -> GetWindowHandle w <> NULL ->
    let result := StartAnimation os reached request in
    active_animations_ reached !! result.1.1 = None
    /\ (forall k a, active_animations_ reached !! k = Some a ->
                    1000 <= k < result.1.1)
    /\ next_timer_id_ result.1.2 = result.1.1 + 1
    /\ (forall k a,
          active_animations_ reached !! k = Some a ->
          active_animations_ result.1.2 !! k
          = if is_active a && conflicts (req_property request) (property a)
            then None else Some a).
Proof.
  intros os request window ops w reached Hlen Hw Hh result.
  pose proof (run_next_timer_id libm ops (WindowApi_new window)) as Hnext.
  pose proof (run_ids_below ops (WindowApi_new window)) as Hbelow.
  simpl in Hnext, Hbelow. fold reached in Hnext, Hbelow.
  assert (Hstored : forall k a, active_animations_ reached !! k = Some a ->
                                1000 <= k < next_timer_id_ reached).
  { apply Hbelow; [lia | lia |]. intros k a Hk.
    rewrite lookup_empty in Hk. discriminate. }
  assert (Hcount : 1000 <= next_timer_id_ reached
                   <= 1000 + Z.of_nat (length ops)) by (apply Hnext; lia).
  unfold result.
  destruct (StartAnimation_valid os reached request w Hw Hh)
    as (anim & events & -> & _).
  simpl. repeat apply conj.
  - destruct (active_animations_ reached !! next_timer_id_ reached) as [a|]
      eqn:Hk; [|reflexivity].
    specialize (Hstored _ _ Hk). lia.
  - exact Hstored.
  - apply uint_ptr_small. lia.
  - intros k a Hk. specialize (Hstored k a Hk).
    rewrite lookup_insert_ne by lia.
    fold (should_stop (req_property request) a).
    destruct (should_stop (req_property request) a) eqn:Hstop.
    + apply map_lookup_filter_None. right. intros a' Ha'. simpl. congruence.
    + apply survivors_lookup_Some. auto.
Qed.

End FreshIdentifiers.

(** After the position animation (identifier 1000), a fade-out gets 1001
    and leaves the position animation as it is. *)
Lemma StartAnimation_fresh_identifier_witness :
  let ops := [OpStartAnimation (example_os 0) (example_position kLinear)] in
  let reached := (run series_libm example_api ops).1 in
  let result :=
    StartAnimation (example_os 1000000) reached
      (example_fade_out false d_0_7 d_100) in
  active_animations_ reached !! result.1.1 = None
  /\ result.1.1 = 1001
  /\ active_animations_ result.1.2 !! 1000
     = active_animations_ reached !! 1000.
Proof.
  cbv zeta.
  pose (ops := [OpStartAnimation (example_os 0) (example_position kLinear)]).
  assert (Hlen : Z.of_nat (length ops) < 2 ^ 64 - 1001)
    by (vm_compute; reflexivity).
  assert (Hw : window_
                 (run series_libm
                    (WindowApi_new (Some {| GetWindowHandle := 42 |})) ops).1
               = Some {| GetWindowHandle := 42 |}) by (vm_compute; reflexivity).
  assert (Hh : GetWindowHandle {| GetWindowHandle := 42 |} <> NULL)
    by (vm_compute; lia).
  pose proof (StartAnimation_returns_a_fresh_identifier series_libm
                (example_os 1000000) (example_fade_out false d_0_7 d_100)
                (Some {| GetWindowHandle := 42 |}) ops _ Hlen Hw Hh) as H.
  cbv zeta in H. destruct H as (Hfresh & _ & _ & _).
  split; [exact Hfresh|]. split; vm_compute; reflexivity.
Defined.

(** ** Ticks before the duration has elapsed *)

Lemma ApplyAnimationFrame_shape (anim : WindowAnimation) (e : double) :
  hwnd anim <> NULL ->
  exists placement,
    ApplyAnimationFrame anim e = [placement; DwmFlush]
    /\ is_KillTimer placement = false
    /\ is_OnComplete placement = false.
Proof.
  intros Hh. unfold ApplyAnimationFrame.
  destruct (hwnd anim =? NULL) eqn:Hnull; [lia|].
  destruct (property anim); eexists; repeat split; reflexivity.
Qed.

Section InFlight.

Context (libm : Libm).

(** X4 — a completion callback never fires early.  For a record held in a
    reached state whose duration has not yet elapsed, [OnTimer] stores the
    progress [elapsed / duration], leaves the record active under its
    identifier and every other record untouched, and makes exactly two
    calls: one placement for the eased progress and [DwmFlush].  It kills
    no timer and invokes no callback. *)
Theorem OnTimer_in_flight_keeps_the_animation :
  forall (os : Win32) (window : option HostWindow) (ops : list Op)
         (id : Z) (anim : WindowAnimation),
    let this := (run libm (WindowApi_new window) ops).1 in
    active_animations_ this !! id = Some anim ->
    fle (b64_of_Z (duration anim)) (GetElapsedMs os (start_time_qpc anim))
    = false ->
    let p :=
      (GetElapsedMs os (start_time_qpc anim) / b64_of_Z (duration anim))%D in
    let result := OnTimer libm os this id in
    result.1.1 = true
    /\ result.2
       = ApplyAnimationFrame anim (CalculateEasing libm this p (easing anim))
    /\ (exists placement, result.2 = [placement; DwmFlush])
    /\ existsb is_KillTimer result.2 = false
    /\ existsb is_OnComplete result.2 = false
    /\ active_animations_ result.1.2 !! id = Some (with_progress p anim)
    /\ is_active (with_progress p anim) = true
    /\ (forall k, k <> id ->
                  active_animations_ result.1.2 !! k
                  = active_animations_ this !! k)
    /\ next_timer_id_ result.1.2 = next_timer_id_ this.
Proof.
  intros os window ops id anim this Hid Helapsed p result.
  assert (Hlive : records_live (active_animations_ this)).
  { apply run_records_live, records_live_new. }
  destruct (Hlive id anim Hid) as (Hact & Hh & _).
  pose proof (UpdateAnimation_in_flight libm os this anim Hact Hh Helapsed)
    as Hupd.
  cbv zeta in Hupd. fold p in Hupd.
  assert (Hresult :
    result
    = (true,
       with_animations (<[id := with_progress p anim]> (active_animations_ this))
         this,
       ApplyAnimationFrame anim (CalculateEasing libm this p (easing anim)))).
  { unfold result, OnTimer. rewrite Hid, Hact. simpl negb. cbv iota.
    rewrite Hupd.
    change (is_active (with_progress p anim)) with (is_active anim).
    rewrite Hact. reflexivity. }
  destruct (ApplyAnimationFrame_shape anim
              (CalculateEasing libm this p (easing anim)) Hh)
    as (placement & Hframe & Hnk & Hnc).
  rewrite Hresult. simpl. repeat apply conj.
  - reflexivity.
  - reflexivity.
  - exists placement. exact Hframe.
  - rewrite Hframe. simpl. rewrite Hnk. reflexivity.
  - rewrite Hframe. simpl. rewrite Hnc. reflexivity.
  - apply lookup_insert_eq.
  - exact Hact.
  - intros k Hk. apply lookup_insert_ne. congruence.
  - reflexivity.
Qed.


End InFlight.

(** The example position animation at half time: the window moves to
    (50, 50), the record stays. *)
Lemma OnTimer_in_flight_witness :
  (OnTimer series_libm (example_os 1500000) (example_started kLinear) 1000).2
  = [SetWindowPos 42 50 50 0 0 8213; DwmFlush]
  /\ active_animations_
       (OnTimer series_libm (example_os 1500000) (example_started kLinear)
          1000).1.2 !! 1000
     = Some (with_progress d_0_5 (example_anim kLinear)).
Proof.
  pose (ops := [OpStartAnimation (example_os 0) (example_position kLinear)]).
  assert (Hrun : (run series_libm
                    (WindowApi_new (Some {| GetWindowHandle := 42 |})) ops).1
                 = example_started kLinear) by (vm_compute; reflexivity).
  assert (H1 : active_animations_
                 (run series_libm
                    (WindowApi_new (Some {| GetWindowHandle := 42 |})) ops).1
                 !! 1000
               = Some (example_anim kLinear)) by (vm_compute; reflexivity).
  assert (H2 : fle (b64_of_Z (duration (example_anim kLinear)))
                 (GetElapsedMs (example_os 1500000)
                    (start_time_qpc (example_anim kLinear))) = false)
    by (vm_compute; reflexivity).
  pose proof (OnTimer_in_flight_keeps_the_animation series_libm
                (example_os 1500000) (Some {| GetWindowHandle := 42 |}) ops
                1000 (example_anim kLinear) H1 H2) as H.
  cbv zeta in H. rewrite Hrun in H.
  destruct H as (_ & Hevents & _ & _ & _ & Hstored & _).
  split.
  - rewrite Hevents. vm_compute. reflexivity.
  - rewrite Hstored. vm_compute. reflexivity.
Defined.


(** ** [SetSpringParameters] at and beyond its bounds *)

Lemma SFcompare_refl (x : double) :
  x <> S754_nan -> SFcompare x x = Some Eq.
Proof.
  destruct x as [s|s| |s m e]; simpl; try congruence.
  - destruct s; reflexivity.
  - intros _. rewrite Z.compare_refl.
    assert (Hm : Pos.compare_cont Eq m m = Eq) by apply Pos.compare_refl.
    rewrite Hm. destruct s; reflexivity.
Qed.

Lemma fle_not_nan_r (a x : double) : fle a x = true -> x <> S754_nan.
Proof.
  intros Hle ->. destruct a as [s|s| |s m e]; discriminate.
Qed.

Lemma clamp_in_range (lo hi x : double) :
  flt lo hi = true -> fle lo x = true -> fle x hi = true ->
  feq (std_max lo (std_min hi x)) x = true.
Proof.
  intros Hlohi Hlo Hhi.
  pose proof (SFcompare_refl x (fle_not_nan_r lo x Hlo)) as Hxx.
  unfold std_max, std_min, feq, SFeqb, flt, fle, SFltb, SFleb in *.
  pose proof (SFcompare_antisym x hi) as Hhx.
  pose proof (SFcompare_antisym lo x) as Hxl.
  destruct (SFcompare x hi) as [[]|] eqn:Hc1; try discriminate.
  - (* x = hi *)
    rewrite Hlohi. simpl in Hhx. rewrite Hhx. reflexivity.
  - (* x < hi *)
    destruct (SFcompare lo x) as [[]|] eqn:Hc2; try discriminate.
    + rewrite Hc2. reflexivity.
    + rewrite Hxx. reflexivity.
Qed.

Ltac compare_cases :=
  repeat match goal with
    | H : context [Pos.compare_cont Eq ?a ?b] |- _ =>
        change (Pos.compare_cont Eq a b) with (Pos.compare a b) in H
    | |- context [Pos.compare_cont Eq ?a ?b] =>
        change (Pos.compare_cont Eq a b) with (Pos.compare a b)
    end;
  repeat match goal with
    | H : context [Z.compare ?a ?b] |- _ =>
        destruct (Z.compare_spec a b); simpl in H; try discriminate
    | H : context [Pos.compare ?a ?b] |- _ =>
        destruct (Pos.compare_spec a b); simpl in H; try discriminate
    end;
  repeat match goal with
    | |- context [Z.compare ?a ?b] => destruct (Z.compare_spec a b); simpl
    | |- context [Pos.compare ?a ?b] => destruct (Pos.compare_spec a b); simpl
    end;
  subst; try reflexivity; try discriminate; try lia.

Lemma flt_trans (a b c : double) :
  flt a b = true -> flt b c = true -> flt a c = true.
Proof.
  unfold flt, SFltb.
  destruct a as [sa|sa| |sa ma ea], b as [sb|sb| |sb mb eb],
           c as [sc|sc| |sc mc ec];
    simpl; try discriminate; try reflexivity;
    try (destruct sa; simpl; try discriminate; try reflexivity);
    try (destruct sb; simpl; try discriminate; try reflexivity);
    try (destruct sc; simpl; try discriminate; try reflexivity);
    intros Hab Hbc; compare_cases.
Qed.

Lemma clamp_below (lo hi x : double) :
  flt lo hi = true -> flt x lo = true -> std_max lo (std_min hi x) = lo.
Proof.
  intros Hlohi Hx. unfold std_max, std_min.
  rewrite (flt_trans x lo hi Hx Hlohi), (flt_asym x lo Hx). reflexivity.
Qed.

Lemma clamp_above (lo hi x : double) :
  flt lo hi = true -> flt hi x = true -> std_max lo (std_min hi x) = hi.
Proof.
  intros Hlohi Hx. unfold std_max, std_min.
  rewrite (flt_asym hi x Hx), Hlohi. reflexivity.
Qed.

Lemma clamp_twice (lo hi x : double) :
  flt lo hi = true ->
  std_max lo (std_min hi (std_max lo (std_min hi x)))
  = std_max lo (std_min hi x).
Proof.
  intros Hlohi.
  pose proof (flt_asym lo hi Hlohi) as Hhilo.
  assert (Hlolo : flt lo lo = false).
  { destruct (flt lo lo) eqn:H; [|reflexivity].
    rewrite (flt_asym lo lo H) in H. discriminate. }
  assert (Hhihi : flt hi hi = false).
  { destruct (flt hi hi) eqn:H; [|reflexivity].
    rewrite (flt_asym hi hi H) in H. discriminate. }
  assert (Hcases : std_max lo (std_min hi x) = lo
                   \/ std_max lo (std_min hi x) = hi
                   \/ (std_max lo (std_min hi x) = x
                       /\ flt x hi = true /\ flt lo x = true)).
  { unfold std_max, std_min.
    destruct (x <? hi)%D eqn:Hx.
    - destruct (lo <? x)%D eqn:H0; auto.
    - rewrite Hlohi. auto. }
  destruct Hcases as [-> | [-> | (-> & Hx & H0)]]; unfold std_max, std_min.
  - rewrite Hlohi, Hlolo. reflexivity.
  - rewrite Hhihi, Hlohi. reflexivity.
  - rewrite Hx, H0. reflexivity.
Qed.

(** X6 — what [SetSpringParameters] stores.  Values inside the ranges are
    stored as given (up to the sign of zero and the encoding); a damping
    below 0.1 becomes 0.1 and above 2.0 becomes 2.0, a stiffness below 10
    becomes 10 and above 500 becomes 500; a NaN, for which every
    comparison is false, becomes the upper bound, 2.0 or 500.  Setting the
    stored values again changes nothing, and the call touches neither the
    registry nor the identifier counter nor the window. *)
Theorem SetSpringParameters_stores_clamped_values :
  forall (this : WindowApi) (damping stiffness : double),
    let after := SetSpringParameters this damping stiffness in
    (fle d_0_1 damping = true -> fle damping d_2 = true ->
     feq (spring_damping_ after) damping = true)
    /\ (fle d_10 stiffness = true -> fle stiffness d_500 = true ->
        feq (spring_stiffness_ after) stiffness = true)
    /\ (flt damping d_0_1 = true -> spring_damping_ after = d_0_1)
    /\ (flt d_2 damping = true -> spring_damping_ after = d_2)
    /\ (flt stiffness d_10 = true -> spring_stiffness_ after = d_10)
    /\ (flt d_500 stiffness = true -> spring_stiffness_ after = d_500)
    /\ spring_damping_ (SetSpringParameters this S754_nan stiffness) = d_2
    /\ spring_stiffness_ (SetSpringParameters this damping S754_nan) = d_500
    /\ SetSpringParameters after (spring_damping_ after)
         (spring_stiffness_ after) = after
    /\ active_animations_ after = active_animations_ this
    /\ next_timer_id_ after = next_timer_id_ this
    /\ window_ after = window_ this.
Proof.
  intros this damping stiffness after.
  repeat apply conj; try reflexivity.
  - intros Hlo Hhi. apply clamp_in_range; [reflexivity | assumption..].
  - intros Hlo Hhi. apply clamp_in_range; [reflexivity | assumption..].
  - intros Hx. apply clamp_below; [reflexivity | exact Hx].
  - intros Hx. apply clamp_above; [reflexivity | exact Hx].
  - intros Hx. apply clamp_below; [reflexivity | exact Hx].
  - intros Hx. apply clamp_above; [reflexivity | exact Hx].
  - unfold after, SetSpringParameters, with_spring. simpl.
    rewrite !clamp_twice by reflexivity. reflexivity.
Qed.

(** * Immediate geometry *)

Lemma int32_small (z : Z) : - 2 ^ 31 <= z < 2 ^ 31 -> int32 z = z.
Proof.
  intros Hz. unfold int32, wrap_signed.
  change (2 ^ (32 - 1)) with (2 ^ 31).
  rewrite Z.mod_small by lia. lia.
Qed.

Lemma int32_range (z : Z) : - 2 ^ 31 <= int32 z < 2 ^ 31.
Proof.
  unfold int32, wrap_signed. change (2 ^ (32 - 1)) with (2 ^ 31).
  pose proof (Z.mod_pos_bound (z + 2 ^ 31) (2 ^ 32)). lia.
Qed.

Lemma int32_idem (z : Z) : int32 (int32 z) = int32 z.
Proof. apply int32_small, int32_range. Qed.

Lemma static_cast_int_range (x : double) :
  - 2 ^ 31 <= static_cast_int x < 2 ^ 31.
Proof.
  unfold static_cast_int.
  destruct (trunc_double x) as [z|]; [|lia].
  destruct ((- 2 ^ 31 <=? z) && (z <? 2 ^ 31)) eqn:Hz; [|lia].
  apply andb_true_iff in Hz as [H1 H2]. lia.
Qed.

(** X7 — [GetBounds] and [GetPosition] agree: for every window and every
    answer of the system the origin of [GetBounds] is the point
    [GetPosition] returns, after the same queries.  Both report zeros
    without any query when the window pointer or the handle is null, zeros
    when neither the DWM frame bounds nor the window rectangle can be read,
    the frame rectangle when DWM answers and the raw window rectangle
    otherwise. *)
Theorem GetBounds_origin_is_GetPosition :
  forall (os : Win32) (this : WindowApi),
    rect_origin (GetBounds os this).1 = (GetPosition os this).1
    /\ (GetBounds os this).2 = (GetPosition os this).2
    /\ (window_ this = None
        \/ (exists w, window_ this = Some w /\ GetWindowHandle w = NULL) ->
        GetBounds os this
        = ({| rect_origin := Point_zero; rect_size := Size_zero |}, []))
    /\ (forall w,
          window_ this = Some w -> GetWindowHandle w <> NULL ->
          (os_frame_ok os = true ->
           (GetBounds os this).1
           = {| rect_origin := origin_of (os_frame_rect os) (dpi_scale os);
                rect_size := extent_of (os_frame_rect os) (dpi_scale os) |})
          /\ (os_frame_ok os = false -> os_window_rect_ok os = true ->
              (GetBounds os this).1
              = {| rect_origin := origin_of (os_window_rect os) (dpi_scale os);
                   rect_size := extent_of (os_window_rect os) (dpi_scale os) |})
          /\ (os_frame_ok os = false -> os_window_rect_ok os = false ->
              (GetBounds os this).1
              = {| rect_origin := Point_zero; rect_size := Size_zero |})).
Proof.
  intros os this. unfold GetBounds, GetPosition.
  destruct (window_ this) as [w|] eqn:Hw.
  - destruct (GetWindowHandle w =? NULL) eqn:Hnull.
    + repeat apply conj; try reflexivity.
      intros w' Hw' Hh. injection Hw' as <-. lia.
    + repeat apply conj.
      * destruct (os_frame_ok os); [|destruct (os_window_rect_ok os)];
          reflexivity.
      * destruct (os_frame_ok os); [|destruct (os_window_rect_ok os)];
          reflexivity.
      * intros [Hnone | [w' [Hw' Hh]]]; [discriminate|].
        injection Hw' as <-. lia.
      * intros w' _ _. repeat apply conj.
        -- intros ->. reflexivity.
        -- intros -> ->. reflexivity.
        -- intros -> ->. reflexivity.
  - repeat apply conj; try reflexivity.
    intros w' Hw'. discriminate.
Qed.

Lemma start_values_cache (os : Win32) (request : AnimationRequest)
    (anim : WindowAnimation) :
  scale_factor (start_values os request anim).1 = scale_factor anim
  /\ shadow_left (start_values os request anim).1 = shadow_left anim
  /\ shadow_right (start_values os request anim).1 = shadow_right anim
  /\ shadow_top (start_values os request anim).1 = shadow_top anim
  /\ shadow_bottom (start_values os request anim).1 = shadow_bottom anim.
Proof.
  unfold start_values.
  destruct (req_property request).
  - destruct (rect_nonzero (os_frame_rect os)); [|destruct (os_window_rect_ok os)];
      simpl; repeat apply conj; reflexivity.
  - destruct (0 <? rect_width (os_frame_rect os));
      [|destruct (os_window_rect_ok os)];
      simpl; repeat apply conj; reflexivity.
  - destruct (0 <? rect_width (os_frame_rect os));
      [|destruct (os_window_rect_ok os)];
      simpl; repeat apply conj; reflexivity.
  - destruct (negb (Z.land (os_ex_style os) WS_EX_LAYERED =? 0));
      [destruct (os_layered_ok os
                 && negb (Z.land (os_layered_flags os) LWA_ALPHA =? 0))|];
      simpl; repeat apply conj; reflexivity.
Qed.

Lemma rect_width_pos_nonzero (r : RECT) :
  (0 <? rect_width r) = true -> rect_nonzero r = true.
Proof.
  intros Hw. unfold rect_nonzero, rect_width in *.
  destruct (left r =? 0) eqn:Hl; [|reflexivity].
  destruct (right r =? 0) eqn:Hr; [|simpl; rewrite orb_true_r; reflexivity].
  apply Z.eqb_eq in Hl, Hr. rewrite Hl, Hr in Hw. discriminate.
Qed.

(** What [StartAnimation] stores, by the parts of the source. *)
Lemma StartAnimation_stored (os : Win32) (this : WindowApi)
    (request : AnimationRequest) (w : HostWindow) :
  window_ this = Some w -> GetWindowHandle w <> NULL ->
  exists this1 anim0,
    hwnd anim0 = GetWindowHandle w
    /\ scale_factor anim0 = dpi_scale os
    /\ shadow_left anim0
       = (if os_frame_ok os && os_window_rect_ok os
          then int32 (left (os_frame_rect os) - left (os_window_rect os))
          else 0)
    /\ shadow_right anim0
       = (if os_frame_ok os && os_window_rect_ok os
          then int32 (right (os_window_rect os) - right (os_frame_rect os))
          else 0)
    /\ shadow_top anim0
       = (if os_frame_ok os && os_window_rect_ok os
          then int32 (top (os_frame_rect os) - top (os_window_rect os))
          else 0)
    /\ shadow_bottom anim0
       = (if os_frame_ok os && os_window_rect_ok os
          then int32 (bottom (os_window_rect os) - bottom (os_frame_rect os))
          else 0)
    /\ start_x anim0 = d_0 /\ start_y anim0 = d_0
    /\ start_width anim0 = d_0 /\ start_height anim0 = d_0
    /\ active_animations_ (StartAnimation os this request).1.2
         !! (StartAnimation os this request).1.1
       = Some (start_values os request anim0).1
    /\ window_ (StartAnimation os this request).1.2 = window_ this1
    /\ window_ this1 = window_ this
    /\ property anim0 = req_property request.
Proof.
  intros Hw Hh. rewrite (StartAnimation_unfold os this request w Hw Hh).
  cbv zeta.
  pose proof (StopConflictingAnimations_spec this (req_property request))
    as (_ & Hwin & _).
  destruct (StopConflictingAnimations this (req_property request))
    as [this1 stopped]. cbn [fst snd] in *.
  unfold start_common. cbn [fst snd].
  match goal with
  | |- context [start_values os request ?a] => exists this1, a
  end.
  repeat apply conj; try reflexivity.
  - cbn [fst snd active_animations_ with_animations].
    apply lookup_insert_eq.
  - cbn [fst snd window_ with_animations with_next_timer_id].
    destruct (req_use_custom_spring request); reflexivity.
  - exact Hwin.
Qed.

(** X8 — a started animation begins where the window is reported to be.
    When DWM answers with a frame rectangle of positive width, the record a
    successful [StartAnimation] stores has, for the components its property
    animates, exactly the origin and the extent that [GetBounds] (and
    [GetPosition]) report at that moment, and it caches the DPI scale they
    divide by. *)
Theorem StartAnimation_starts_at_the_reported_bounds :
  forall (os : Win32) (this : WindowApi) (request : AnimationRequest)
         (w : HostWindow),
    window_ this = Some w -> GetWindowHandle w <> NULL ->
    os_frame_ok os = true ->
    (0 <? rect_width (os_frame_rect os)) = true ->
    exists anim,
      active_animations_ (StartAnimation os this request).1.2
        !! (StartAnimation os this request).1.1 = Some anim
      /\ scale_factor anim = dpi_scale os
      /\ (req_property request = kPosition
          \/ req_property request = kBounds ->
          {| point_x := start_x anim; point_y := start_y anim |}
          = (GetPosition os this).1)
      /\ (req_property request = kSize \/ req_property request = kBounds ->
          {| size_width := start_width anim;
             size_height := start_height anim |}
          = rect_size (GetBounds os this).1).
Proof.
  intros os this request w Hw Hh Hframe Hwidth.
  destruct (StartAnimation_stored os this request w Hw Hh)
    as (this1 & anim0 & _ & Hscale & _ & _ & _ & _ & _ & _ & _ & _
        & Hstored & _).
  exists (start_values os request anim0).1.
  assert (Hnull : (GetWindowHandle w =? NULL) = false) by lia.
  pose proof (rect_width_pos_nonzero _ Hwidth) as Hnz.
  pose proof (start_values_cache os request anim0) as (Hsc & _).
  unfold GetPosition, GetBounds. rewrite Hw, Hnull, Hframe.
  cbn [fst snd rect_size].
  split; [exact Hstored|]. split; [congruence|].
  unfold start_values. rewrite Hnz, Hwidth, Hscale. fold (dpi_scale os).
  split.
  - intros [Hp | Hp]; rewrite Hp; reflexivity.
  - intros [Hp | Hp]; rewrite Hp; reflexivity.
Qed.

Lemma StartAnimation_starts_at_the_reported_bounds_witness :
  exists anim,
    active_animations_
      (StartAnimation (example_os 0) example_api example_bounds).1.2 !! 1000
    = Some anim
    /\ rect_size (GetBounds (example_os 0) example_api).1
       = {| size_width := start_width anim; size_height := start_height anim |}
    /\ start_width anim = b64_of_Z 800.
Proof.
  assert (Hw : window_ example_api = Some {| GetWindowHandle := 42 |})
    by reflexivity.
  assert (Hh : GetWindowHandle {| GetWindowHandle := 42 |} <> NULL)
    by (vm_compute; lia).
  assert (Hf : os_frame_ok (example_os 0) = true) by reflexivity.
  assert (Hwd : (0 <? rect_width (os_frame_rect (example_os 0))) = true)
    by (vm_compute; reflexivity).
  destruct (StartAnimation_starts_at_the_reported_bounds (example_os 0)
              example_api example_bounds _ Hw Hh Hf Hwd)
    as (anim & Hanim & _ & _ & Hsize).
  exists anim. split; [exact Hanim|].
  assert (Hs := Hsize (or_intror eq_refl)). split; [symmetry; exact Hs|].
  change (start_width anim)
    with (size_width {| size_width := start_width anim;
                        size_height := start_height anim |}).
  rewrite Hs. vm_compute. reflexivity.
Defined.

(** X9 — jumping to a value and animating to it place the window alike.
    For the record a successful Bounds [StartAnimation] stores and every
    eased progress [e], [ApplyAnimationFrame] issues [SetWindowPos] with
    the same position and size that [SetBounds] issues, in the same state
    of the system, for the request asking for the animation's value at
    [e]; the animation adds only [SWP_DEFERERASE] to the flags and a
    [DwmFlush]. *)
Theorem SetBounds_places_like_an_animation_frame :
  forall (os : Win32) (this : WindowApi) (request : AnimationRequest)
         (w : HostWindow) (e : double),
    window_ this = Some w -> GetWindowHandle w <> NULL ->
    req_property request = kBounds ->
    exists anim x y cx cy,
      active_animations_ (StartAnimation os this request).1.2
        !! (StartAnimation os this request).1.1 = Some anim
      /\ ApplyAnimationFrame anim e
         = [SetWindowPos (GetWindowHandle w) x y cx cy
              (Z.lor (Z.lor SWP_NOZORDER SWP_NOACTIVATE) SWP_DEFERERASE);
            DwmFlush]
      /\ last (SetBounds os (StartAnimation os this request).1.2
                 (bounds_at anim e))
         = Some (SetWindowPos (GetWindowHandle w) x y cx cy
                   (Z.lor SWP_NOZORDER SWP_NOACTIVATE)).
Proof.
  intros os this request w e Hw Hh Hp.
  destruct (StartAnimation_stored os this request w Hw Hh)
    as (this1 & anim0 & Hhwnd & Hscale & Hsl & Hsr & Hst & Hsb & _ & _ & _ & _
        & Hstored & Hwin1 & Hwin & Hprop0').
  pose proof (start_values_cache os request anim0)
    as (Hsc & Hl & Hr & Ht & Hb).
  pose proof (start_values_fields os request anim0)
    as (_ & Hh' & Hprop & _).
  assert (Hprop0 : property (start_values os request anim0).1 = kBounds)
    by congruence.
  assert (Hnull : (GetWindowHandle w =? NULL) = false) by lia.
  set (anim := (start_values os request anim0).1) in *.
  exists anim.
  unfold ApplyAnimationFrame, SetBounds.
  rewrite Hwin1, Hwin, Hw, Hh', Hhwnd, Hnull, Hprop0, Hsc, Hl, Hr, Ht, Hb,
    Hscale, Hsl, Hsr, Hst, Hsb.
  cbn [bounds_at request_position request_size has_pos pos_x pos_y
       has_preferred_view_size preferred_view_width preferred_view_height].
  destruct (os_frame_ok os); [destruct (os_window_rect_ok os)|];
    cbn [andb]; do 4 eexists; (split; [exact Hstored|]).
  - rewrite !int32_idem. split; reflexivity.
  - replace (int32 (0 + 0)) with 0 by reflexivity.
    replace (int32 0) with 0 by reflexivity.
    rewrite !Z.sub_0_r, !Z.add_0_r.
    rewrite !(int32_small _ (static_cast_int_range _)).
    split; reflexivity.
  - replace (int32 (0 + 0)) with 0 by reflexivity.
    replace (int32 0) with 0 by reflexivity.
    rewrite !Z.sub_0_r, !Z.add_0_r.
    rewrite !(int32_small _ (static_cast_int_range _)).
    split; reflexivity.
Qed.

(** The example bounds animation at its start: frame and jump both place
    the window at (0, 0) with size 800 by 600. *)
Lemma SetBounds_places_like_an_animation_frame_witness :
  exists anim,
    active_animations_
      (StartAnimation (example_os 0) example_api example_bounds).1.2 !! 1000
    = Some anim
    /\ ApplyAnimationFrame anim d_0
       = [SetWindowPos 42 0 0 800 600 8212; DwmFlush]
    /\ last (SetBounds (example_os 0)
               (StartAnimation (example_os 0) example_api example_bounds).1.2
               (bounds_at anim d_0))
       = Some (SetWindowPos 42 0 0 800 600 20).
Proof.
  assert (Hw : window_ example_api = Some {| GetWindowHandle := 42 |})
    by reflexivity.
  assert (Hh : GetWindowHandle {| GetWindowHandle := 42 |} <> NULL)
    by (vm_compute; lia).
  assert (Hp : req_property example_bounds = kBounds) by reflexivity.
  destruct (SetBounds_places_like_an_animation_frame (example_os 0)
              example_api example_bounds _ d_0 Hw Hh Hp)
    as (anim & x & y & cx & cy & Hanim & Hframe & Hset).
  assert (Hanim' :
    active_animations_
      (StartAnimation (example_os 0) example_api example_bounds).1.2 !! 1000
    = Some anim) by exact Hanim.
  exists anim. split; [exact Hanim'|].
  vm_compute in Hanim'. injection Hanim' as <-.
  split; vm_compute; reflexivity.
Defined.

(** ** Dragging *)

(** X10 — a drag moves the window rigidly with the pointer.  After a drag
    is begun with the pointer at [c0] and the window's top-left corner
    reported at (left, top), an update with the pointer at [c1] asks for one
    move, without resize, z-order change or activation, to
    (left + (c1.x - c0.x), top + (c1.y - c0.y)); the recorded start is not
    changed by the update, so the offsets are never accumulated. *)
Theorem DragWindow_follows_the_pointer :
  forall (os0 os1 : Win32) (c0 c1 : POINT) (w : HostWindow) (drag : DragState),
    GetWindowHandle w <> NULL ->
    os_window_rect_ok os0 = true ->
    point_ok c0 -> point_ok c1 -> rect_ok (os_window_rect os0) ->
    let begun := (DragWindow os0 c0 (Some w) drag 0).1 in
    let moved := DragWindow os1 c1 (Some w) begun 1 in
    moved.1 = begun
    /\ moved.2
       = [SetWindowPos (GetWindowHandle w)
            (left (os_window_rect os0) + (pt_x c1 - pt_x c0))
            (top (os_window_rect os0) + (pt_y c1 - pt_y c0))
            0 0 (Z.lor (Z.lor SWP_NOSIZE SWP_NOZORDER) SWP_NOACTIVATE)].
Proof.
  intros os0 os1 c0 c1 w drag Hh Hok [Hx0 Hy0] [Hx1 Hy1] (Hl & Ht & _ & _).
  unfold coord_ok in *.
  assert (Hnull : (GetWindowHandle w =? NULL) = false) by lia.
  unfold DragWindow. rewrite Hnull, Hok.
  cbn [Z.eqb fst snd is_dragging_ drag_start_cursor_pos_
       drag_start_window_pos_ pt_x pt_y].
  split; [reflexivity|].
  rewrite (int32_small (pt_x c1 - pt_x c0)) by lia.
  rewrite (int32_small (pt_y c1 - pt_y c0)) by lia.
  rewrite !int32_small by lia.
  reflexivity.
Qed.

Lemma DragWindow_follows_the_pointer_witness :
  (DragWindow (example_os 0) {| pt_x := 130; pt_y := 95 |}
     (Some {| GetWindowHandle := 42 |})
     (DragWindow (example_os 0) {| pt_x := 100; pt_y := 100 |}
        (Some {| GetWindowHandle := 42 |}) DragState_new 0).1 1).2
  = [SetWindowPos 42
       (left (os_window_rect (example_os 0)) + 30)
       (top (os_window_rect (example_os 0)) + -5) 0 0 21].
Proof.
  refine (proj2 (DragWindow_follows_the_pointer (example_os 0) (example_os 0)
                   {| pt_x := 100; pt_y := 100 |} {| pt_x := 130; pt_y := 95 |}
                   {| GetWindowHandle := 42 |} DragState_new _ _ _ _ _)).
  - vm_compute; lia.
  - reflexivity.
  - split; vm_compute; split; discriminate.
  - split; vm_compute; split; discriminate.
  - repeat split; vm_compute; discriminate.
Defined.

Lemma drag_run_idle (window : option HostWindow) (drag : DragState)
    (gesture : list (Win32 * POINT * Z)) :
  is_dragging_ drag = false ->
  Forall (fun g => g.2 <> 0) gesture ->
  drag_run window drag gesture = (drag, []).
Proof.
  intros Hidle Hall. induction Hall as [|[[os cursor] state] rest Hs _ IH].
  - reflexivity.
  - cbn [drag_run]. cbn [snd] in Hs.
    assert (Hstep : DragWindow os cursor window drag state = (drag, [])).
    { unfold DragWindow. destruct window as [w|]; [|reflexivity].
      destruct (GetWindowHandle w =? NULL); [reflexivity|].
      destruct (state =? 0) eqn:H0; [lia|].
      rewrite Hidle.
      destruct (state =? 1); [reflexivity|].
      destruct (state =? 2); [|reflexivity].
      destruct drag as [c p d]. cbn in *. subst d. reflexivity. }
    rewrite Hstep, IH. reflexivity.
Qed.

Lemma DragWindow_never_resizes (os : Win32) (cursor : POINT)
    (window : option HostWindow) (drag : DragState) (state : Z) :
  existsb is_resize (DragWindow os cursor window drag state).2 = false.
Proof.
  unfold DragWindow. destruct window as [w|]; [|reflexivity].
  destruct (GetWindowHandle w =? NULL); [reflexivity|].
  destruct (state =? 0); [reflexivity|].
  destruct (state =? 1); [destruct (is_dragging_ drag); reflexivity|].
  destruct (state =? 2); reflexivity.
Qed.

(** X11 — what a drag gesture never does.  Whatever states the embedder
    sends, with whatever pointer positions, no call of the gesture resizes
    the window; while no drag is in progress, updates, ends and unknown
    states change nothing and make no call; and an end on a live window
    leaves no drag in progress, so the window stays where it is until the
    next begin. *)
Theorem drag_run_moves_only_in_a_session :
  forall (window : option HostWindow) (drag : DragState)
         (gesture : list (Win32 * POINT * Z)),
    existsb is_resize (drag_run window drag gesture).2 = false
    /\ (is_dragging_ drag = false ->
        Forall (fun g => g.2 <> 0) gesture ->
        drag_run window drag gesture = (drag, []))
    /\ (forall os cursor w,
          window = Some w -> GetWindowHandle w <> NULL ->
          Forall (fun g => g.2 <> 0) gesture ->
          let ended := (DragWindow os cursor window drag 2).1 in
          is_dragging_ ended = false
          /\ drag_run window ended gesture = (ended, [])).
Proof.
  intros window drag gesture. repeat apply conj.
  - revert drag. induction gesture as [|[[os cursor] state] rest IH];
      intros drag; [reflexivity|].
    cbn [drag_run].
    pose proof (DragWindow_never_resizes os cursor window drag state) as Hstep.
    destruct (DragWindow os cursor window drag state) as [drag1 events].
    specialize (IH drag1).
    destruct (drag_run window drag1 rest) as [drag2 more].
    cbn [snd] in *. rewrite existsb_app, Hstep, IH. reflexivity.
  - apply drag_run_idle.
  - intros os cursor w -> Hh Hall. cbv zeta.
    assert (Hended : is_dragging_ (DragWindow os cursor (Some w) drag 2).1
                     = false).
    { unfold DragWindow.
      destruct (GetWindowHandle w =? NULL) eqn:Hnull; [lia|]. reflexivity. }
    split; [exact Hended|].
    apply drag_run_idle; assumption.
Qed.

(** A gesture on the example window: begin, two updates, end, and a stray
    update afterwards.  The two updates move the window; the stray one does
    not. *)
Example drag_run_example :
  (drag_run (Some {| GetWindowHandle := 42 |}) DragState_new
     [(example_os 0, {| pt_x := 100; pt_y := 100 |}, 0);
      (example_os 0, {| pt_x := 110; pt_y := 100 |}, 1);
      (example_os 0, {| pt_x := 130; pt_y := 95 |}, 1);
      (example_os 0, {| pt_x := 130; pt_y := 95 |}, 2);
      (example_os 0, {| pt_x := 500; pt_y := 500 |}, 1)]).2
  = [GetWindowRect 42;
     SetWindowPos 42 (left (os_window_rect (example_os 0)) + 10)
       (top (os_window_rect (example_os 0))) 0 0 21;
     SetWindowPos 42 (left (os_window_rect (example_os 0)) + 30)
       (top (os_window_rect (example_os 0)) - 5) 0 0 21].
Proof. vm_compute. reflexivity. Qed.

(** ** Centring *)

Lemma quot2_bounds (a : Z) :
  -1 <= a - 2 * (a ÷ 2) <= 1 /\ Z.abs (a ÷ 2) <= Z.abs a.
Proof.
  pose proof (Z.quot_rem' a 2) as Hqr.
  destruct (Z_le_gt_dec 0 a) as [Hpos|Hneg].
  - pose proof (Z.rem_bound_pos a 2 Hpos ltac:(lia)). lia.
  - pose proof (Z.rem_bound_pos (- a) 2 ltac:(lia) ltac:(lia)) as Hr.
    rewrite Z.rem_opp_l' in Hr. lia.
Qed.

Lemma GetMonitorUnderMouse_rect_ok (mon : MonitorOs) :
  rect_ok (mon_work_rect mon) -> rect_ok (GetMonitorUnderMouse mon).2.
Proof.
  intros Hok. unfold GetMonitorUnderMouse.
  destruct (mon_cursor_ok mon), (mon_info_ok mon); cbn [negb snd];
    try exact Hok; unfold rect_ok, coord_ok; cbn; lia.
Qed.



(** ** Window styles *)

Lemma testbit_uint32 (z i : Z) :
  0 <= i < 32 -> Z.testbit (uint32 z) i = Z.testbit z i.
Proof.
  intros Hi. unfold uint32, wrap_unsigned.
  apply Z.mod_pow2_bits_low. lia.
Qed.

Lemma testbit_int32 (z i : Z) :
  0 <= i < 32 -> Z.testbit (int32 z) i = Z.testbit z i.
Proof.
  intros Hi.
  rewrite <- (Z.mod_pow2_bits_low (int32 z) 32 i) by lia.
  rewrite <- (Z.mod_pow2_bits_low z 32 i) by lia.
  f_equal. unfold int32, wrap_signed.
  change (2 ^ (32 - 1)) with (2 ^ 31).
  rewrite Zminus_mod_idemp_l. f_equal. lia.
Qed.

Lemma testbit_clear_bits (value mask i : Z) :
  0 <= i ->
  Z.testbit (clear_bits value mask) i
  = if Z.testbit mask i then false else Z.testbit value i.
Proof.
  intros Hi. unfold clear_bits.
  rewrite Z.land_spec, Z.lnot_spec by lia.
  destruct (Z.testbit mask i), (Z.testbit value i); reflexivity.
Qed.

Lemma testbit_set_bits (value mask i : Z) :
  Z.testbit (Z.lor value mask) i
  = if Z.testbit mask i then true else Z.testbit value i.
Proof.
  rewrite Z.lor_spec.
  destruct (Z.testbit mask i), (Z.testbit value i); reflexivity.
Qed.

(** X13 — [SetResizable] changes the thick-frame bit and nothing else.
    On a live window it reads the style and writes it back with every bit
    of [WS_THICKFRAME] equal to the flag and every other of the 32 bits
    unchanged, and [IsResizable] then returns the flag.  Without a live
    window it makes no call and [IsResizable] keeps its previous answer. *)
Theorem SetResizable_changes_only_the_thick_frame :
  forall (style : Z) (this : WindowApi) (is_resizable_ flag : bool),
    (forall w, window_ this = Some w -> GetWindowHandle w <> NULL ->
       exists written,
         (SetResizable style this is_resizable_ flag).2
         = [GetWindowLong (GetWindowHandle w) GWL_STYLE;
            SetWindowLong (GetWindowHandle w) GWL_STYLE written]
         /\ (forall i, 0 <= i < 32 ->
               Z.testbit written i
               = if Z.testbit WS_THICKFRAME i then flag
                 else Z.testbit style i)
         /\ IsResizable (SetResizable style this is_resizable_ flag).1 = flag)
    /\ ((window_ this = None
         \/ exists w, window_ this = Some w /\ GetWindowHandle w = NULL) ->
        SetResizable style this is_resizable_ flag = (is_resizable_, [])).
Proof.
  intros style this is_resizable_ flag. split.
  - intros w Hw Hh. unfold SetResizable. rewrite Hw.
    destruct (GetWindowHandle w =? NULL) eqn:Hnull; [lia|].
    eexists. split; [reflexivity|]. split; [|reflexivity].
    intros i Hi. rewrite testbit_int32 by exact Hi.
    destruct flag.
    + rewrite testbit_uint32, testbit_set_bits, testbit_uint32 by exact Hi.
      reflexivity.
    + rewrite testbit_uint32, testbit_clear_bits, testbit_uint32 by lia.
      reflexivity.
  - intros [Hnone | (w & Hw & Hh)]; unfold SetResizable.
    + rewrite Hnone. reflexivity.
    + rewrite Hw, Hh. reflexivity.
Qed.

(** X14 — removing the frame or the system menu clears exactly the named
    style bits.  On a live window [SetNoFrame] writes the style without the
    bits of [WS_CAPTION] and [WS_THICKFRAME] and the extended style without
    the four edge bits, and [SetNoSystemMenu] writes the style without
    [WS_SYSMENU]; every other of the 32 bits is written as it was read.  In
    particular the thick-frame bit is cleared whatever [SetResizable] was
    last told. *)
Theorem SetNoFrame_clears_exactly_the_frame_bits :
  forall (dwStyle dwExStyle : Z) (this : WindowApi) (w : HostWindow),
    window_ this = Some w -> GetWindowHandle w <> NULL ->
    (exists style ex_style,
       SetNoFrame dwStyle dwExStyle this
       = [SetWindowLong (GetWindowHandle w) GWL_STYLE style;
          SetWindowLong (GetWindowHandle w) GWL_EXSTYLE ex_style]
       /\ (forall i, 0 <= i < 32 ->
             Z.testbit style i
             = if Z.testbit (Z.lor WS_CAPTION WS_THICKFRAME) i then false
               else Z.testbit dwStyle i)
       /\ (forall i, 0 <= i < 32 ->
             Z.testbit ex_style i
             = if Z.testbit (Z.lor (Z.lor (Z.lor WS_EX_DLGMODALFRAME
                                                 WS_EX_WINDOWEDGE)
                                          WS_EX_CLIENTEDGE)
                                   WS_EX_STATICEDGE) i
               then false else Z.testbit dwExStyle i)
       /\ (forall i, 0 <= i < 32 -> Z.testbit WS_THICKFRAME i = true ->
             Z.testbit style i = false))
    /\ (exists style,
          SetNoSystemMenu dwStyle this
          = [GetWindowLong (GetWindowHandle w) GWL_STYLE;
             SetWindowLong (GetWindowHandle w) GWL_STYLE style]
          /\ (forall i, 0 <= i < 32 ->
                Z.testbit style i
                = if Z.testbit WS_SYSMENU i then false
                  else Z.testbit dwStyle i)).
Proof.
  intros dwStyle dwExStyle this w Hw Hh.
  assert (Hnull : (GetWindowHandle w =? NULL) = false) by lia.
  assert (Hbits : forall value mask i, 0 <= i < 32 ->
            Z.testbit (int32 (uint32 (clear_bits (uint32 value) mask))) i
            = if Z.testbit mask i then false else Z.testbit value i).
  { intros value mask i Hi.
    rewrite testbit_int32, testbit_uint32, testbit_clear_bits, testbit_uint32
      by lia. reflexivity. }
  split.
  - unfold SetNoFrame. rewrite Hw, Hnull.
    do 2 eexists. split; [reflexivity|].
    repeat apply conj.
    + intros i Hi. apply Hbits, Hi.
    + intros i Hi. apply Hbits, Hi.
    + intros i Hi Hthick. rewrite Hbits by exact Hi.
      rewrite Z.lor_spec, Hthick, orb_true_r. reflexivity.
  - unfold SetNoSystemMenu. rewrite Hw, Hnull.
    eexists. split; [reflexivity|].
    intros i Hi. apply Hbits, Hi.
Qed.

(** A resizable overlapped window (style 0x00CF0000) loses caption and
    thick frame and keeps the other bits: 0x000B0000 is written. *)
Lemma SetNoFrame_clears_exactly_the_frame_bits_witness :
  exists style ex_style,
    SetNoFrame 0x00CF0000 0x00000100 example_api
    = [SetWindowLong 42 GWL_STYLE style; SetWindowLong 42 GWL_EXSTYLE ex_style]
    /\ Z.testbit style 18 = false /\ Z.testbit style 19 = true
    /\ Z.testbit ex_style 8 = false.
Proof.
  destruct (SetNoFrame_clears_exactly_the_frame_bits 0x00CF0000 0x00000100
              example_api {| GetWindowHandle := 42 |})
    as [(style & ex_style & Hcalls & Hstyle & Hex & _) _].
  - reflexivity.
  - vm_compute; lia.
  - exists style, ex_style. split; [exact Hcalls|].
    rewrite (Hstyle 18), (Hstyle 19), (Hex 8) by lia.
    repeat split; reflexivity.
Defined.

(** X15 — click-through toggles the transparent and the layered bit
    together.  On a live window [SetIgnoreMouseEvents] reads the extended
    style and writes it back with the bits of [WS_EX_TRANSPARENT] and
    [WS_EX_LAYERED] both equal to the flag and every other of the 32 bits
    unchanged: turning click-through off also removes the layered style
    that opacity relies on. *)
Theorem SetIgnoreMouseEvents_toggles_transparent_and_layered :
  forall (os : Win32) (this : WindowApi) (ignore : bool) (w : HostWindow),
    window_ this = Some w -> GetWindowHandle w <> NULL ->
    exists written,
      SetIgnoreMouseEvents os this ignore
      = [GetWindowLong (GetWindowHandle w) GWL_EXSTYLE;
         SetWindowLong (GetWindowHandle w) GWL_EXSTYLE written]
      /\ (forall i, 0 <= i < 32 ->
            Z.testbit written i
            = if Z.testbit (Z.lor WS_EX_TRANSPARENT WS_EX_LAYERED) i
              then ignore else Z.testbit (os_ex_style os) i)
      /\ (ignore = false -> Z.land written WS_EX_LAYERED = 0).
Proof.
  intros os this ignore w Hw Hh.
  assert (Hnull : (GetWindowHandle w =? NULL) = false) by lia.
  unfold SetIgnoreMouseEvents. rewrite Hw, Hnull.
  eexists. split; [reflexivity|].
  assert (Hbits : forall i, 0 <= i < 32 ->
    Z.testbit
      (if ignore
       then int32 (Z.lor (os_ex_style os) (Z.lor WS_EX_TRANSPARENT WS_EX_LAYERED))
       else int32 (clear_bits (os_ex_style os)
                     (Z.lor WS_EX_TRANSPARENT WS_EX_LAYERED))) i
    = if Z.testbit (Z.lor WS_EX_TRANSPARENT WS_EX_LAYERED) i
      then ignore else Z.testbit (os_ex_style os) i).
  { intros i Hi. destruct ignore; rewrite testbit_int32 by exact Hi.
    - apply testbit_set_bits.
    - apply testbit_clear_bits. lia. }
  split; [exact Hbits|].
  intros ->. apply Z.bits_inj'. intros i Hi.
  rewrite Z.land_spec, Z.bits_0.
  destruct (Z.testbit WS_EX_LAYERED i) eqn:Hlayered;
    [|apply andb_false_r].
  assert (Hi' : i = 19).
  { unfold WS_EX_LAYERED in Hlayered.
    change 524288 with (2 ^ 19) in Hlayered.
    rewrite Z.pow2_bits_eqb in Hlayered by lia. lia. }
  subst i. rewrite Hbits by lia. reflexivity.
Qed.

Lemma SetIgnoreMouseEvents_witness :
  exists written,
    SetIgnoreMouseEvents (example_os 0) example_api false
    = [GetWindowLong 42 GWL_EXSTYLE; SetWindowLong 42 GWL_EXSTYLE written]
    /\ Z.land written WS_EX_LAYERED = 0.
Proof.
  destruct (SetIgnoreMouseEvents_toggles_transparent_and_layered
              (example_os 0) example_api false {| GetWindowHandle := 42 |})
    as (written & Hcalls & _ & Hlayered).
  - reflexivity.
  - vm_compute; lia.
  - exists written. split; [exact Hcalls | exact (Hlayered eq_refl)].
Defined.

(** ** The registry of the second scheduler *)

Lemma registry_ok_new (frequency : Z) :
  registry_ok (TimerCache.WindowApiTimer_new frequency).
Proof.
  split.
  - intros Hdirty. discriminate Hdirty.
  - cbn. apply not_elem_of_empty.
Qed.

Lemma timer_step_registry_ok (this : TimerCache.WindowApiTimer) (op : TimerOp) :
  registry_ok this -> registry_ok (timer_step this op).1.
Proof.
  intros [Hcoherent Hnull]. destruct op as [api|api| |now]; cbn [timer_step fst].
  - unfold TimerCache.AddWindowApi.
    destruct (api =? 0) eqn:Hz; [split; assumption|].
    split; [intros Hdirty; discriminate Hdirty|].
    cbn. intros [Hin|Hin]%elem_of_union;
      [apply elem_of_singleton in Hin; lia | exact (Hnull Hin)].
  - unfold TimerCache.RemoveWindowApi.
    destruct (api =? 0) eqn:Hz; [split; assumption|].
    split; [intros Hdirty; discriminate Hdirty|].
    cbn. intros [Hin _]%elem_of_difference. exact (Hnull Hin).
  - split; [intros Hdirty; discriminate Hdirty|]. cbn.
    apply not_elem_of_empty.
  - split; [|exact Hnull].
    intros _. cbn.
    destruct (TimerCache.windowApis_dirty_ this) eqn:Hdirty;
      [reflexivity | exact (Hcoherent Hdirty)].
Qed.

Lemma timer_run_registry_ok (ops : list TimerOp) :
  forall this : TimerCache.WindowApiTimer,
    registry_ok this -> registry_ok (timer_run this ops).1.
Proof.
  induction ops as [|op ops IH]; intros this Hok; [exact Hok|].
  cbn [timer_run].
  pose proof (timer_step_registry_ok this op Hok) as Hstep.
  destruct (timer_step this op) as [this1 ticked].
  specialize (IH this1 Hstep).
  destruct (timer_run this1 ops) as [this2 more]. exact IH.
Qed.

Lemma omap_without_null (delivered : double) (cache : list Z) :
  0 ∉ cache ->
  omap (fun window : Z =>
          if window =? 0 then None else Some (window, delivered)) cache
  = (fun window => (window, delivered)) <$> cache.
Proof.
  induction cache as [|window cache IH]; intros Hnull; [reflexivity|].
  cbn. destruct (window =? 0) eqn:Hz.
  - exfalso. apply Hnull. assert (window = 0) as -> by lia. left.
  - rewrite IH; [reflexivity|]. intros Hin. apply Hnull. right. exact Hin.
Qed.

Lemma OnTick_of_registry (this : TimerCache.WindowApiTimer) (now : Z) :
  registry_ok this ->
  exists delivered,
    (TimerCache.OnTick this now).2
    = (fun window => (window, delivered))
        <$> elements (TimerCache.windowApis_ this).
Proof.
  intros [Hcoherent Hnull]. unfold TimerCache.OnTick. cbn [snd].
  eexists.
  assert (Hcache :
    (if TimerCache.windowApis_dirty_ this
     then elements (TimerCache.windowApis_ this)
     else TimerCache.windowApis_cache_ this)
    = elements (TimerCache.windowApis_ this)).
  { destruct (TimerCache.windowApis_dirty_ this) eqn:Hdirty;
      [reflexivity | exact (Hcoherent Hdirty)]. }
  rewrite Hcache. apply omap_without_null.
  rewrite elem_of_elements. exact Hnull.
Qed.

(** X16 — a tick reaches exactly the registered consumers.  After any
    history of registrations, removals, clearings and ticks on a new timer
    object, the next tick calls every consumer for which [HasWindowApi]
    holds, each exactly once and all with the same elapsed time, and no
    other; the number of calls is [GetWindowCount]; and the null consumer is
    never registered. *)
Theorem OnTick_reaches_exactly_the_registered :
  forall (frequency : Z) (ops : list TimerOp) (now : Z),
    let this := (timer_run (TimerCache.WindowApiTimer_new frequency) ops).1 in
    let ticked := (TimerCache.OnTick this now).2 in
    (forall api, api ∈ ticked.*1 <-> TimerCache.HasWindowApi this api = true)
    /\ NoDup ticked.*1
    /\ length ticked = TimerCache.GetWindowCount this
    /\ TimerCache.HasWindowApi this 0 = false
    /\ (forall api api' delta delta',
          (api, delta) ∈ ticked -> (api', delta') ∈ ticked -> delta = delta').
Proof.
  intros frequency ops now this ticked.
  assert (Hok : registry_ok this)
    by apply timer_run_registry_ok, registry_ok_new.
  destruct (OnTick_of_registry this now Hok) as [delivered Hticked].
  fold ticked in Hticked.
  assert (Hfst : ticked.*1 = elements (TimerCache.windowApis_ this)).
  { rewrite Hticked, <- list_fmap_compose.
    rewrite <- (list_fmap_id (elements (TimerCache.windowApis_ this))) at 2.
    reflexivity. }
  repeat apply conj.
  - intros api. rewrite Hfst, elem_of_elements.
    unfold TimerCache.HasWindowApi. rewrite bool_decide_eq_true. reflexivity.
  - rewrite Hfst. apply NoDup_elements.
  - rewrite Hticked, length_fmap. reflexivity.
  - unfold TimerCache.HasWindowApi. apply bool_decide_eq_false.
    exact (proj2 Hok).
  - intros api api' delta delta'. rewrite Hticked.
    rewrite !list_elem_of_fmap.
    intros (w & Hw & _) (w' & Hw' & _). congruence.
Qed.

(** A history on a new timer object: two consumers are registered, a tick
    follows, the first is removed, and the next tick is delivered to the
    second consumer only. *)
Example timer_run_example :
  (timer_run (TimerCache.WindowApiTimer_new 10000000)
     [TimerAddWindowApi 7; TimerAddWindowApi 9; TimerAddWindowApi 0;
      TimerOnTick 0; TimerRemoveWindowApi 7; TimerOnTick 100000]).2
  = [(7, d_0); (9, d_0); (9, d_10)].
Proof. vm_compute. reflexivity. Qed.

(** X17 — changes of the registry take effect at the next tick.  In every
    state of the timer object, also with a cache left from earlier ticks: a
    consumer just registered is called by the next tick; a consumer just
    removed is not; after [ClearWindows] the next tick calls nobody; and
    registering or removing the null consumer changes nothing. *)
Theorem registry_changes_take_effect_at_the_next_tick :
  forall (this : TimerCache.WindowApiTimer) (api now : Z),
    (api <> 0 ->
     exists delta,
       (api, delta)
         ∈ (TimerCache.OnTick (TimerCache.AddWindowApi this api) now).2)
    /\ (forall delta,
          (api, delta)
            ∈ (TimerCache.OnTick (TimerCache.RemoveWindowApi this api) now).2
          -> False)
    /\ (TimerCache.OnTick (TimerCache.ClearWindows this) now).2 = []
    /\ TimerCache.AddWindowApi this 0 = this
    /\ TimerCache.RemoveWindowApi this 0 = this.
Proof.
  intros this api now. repeat apply conj.
  - intros Hapi. unfold TimerCache.AddWindowApi.
    destruct (api =? 0) eqn:Hz; [lia|].
    unfold TimerCache.OnTick. cbn [snd TimerCache.with_registry
      TimerCache.windowApis_dirty_ TimerCache.windowApis_].
    eexists. apply TimerCache_deliveries.
    split; [|split; [exact Hapi | reflexivity]].
    rewrite elem_of_elements.
    apply elem_of_union_l, elem_of_singleton. reflexivity.
  - intros delta. unfold TimerCache.RemoveWindowApi.
    destruct (api =? 0) eqn:Hz.
    + unfold TimerCache.OnTick. cbn [snd].
      rewrite TimerCache_deliveries. intros (_ & Hnz & _). lia.
    + unfold TimerCache.OnTick. cbn [snd TimerCache.with_registry
        TimerCache.windowApis_dirty_ TimerCache.windowApis_].
      rewrite TimerCache_deliveries, elem_of_elements.
      intros (Hin & _ & _). apply elem_of_difference in Hin as [_ Hout].
      apply Hout, elem_of_singleton. reflexivity.
  - unfold TimerCache.OnTick, TimerCache.ClearWindows.
    cbn [snd TimerCache.with_registry TimerCache.windowApis_dirty_
         TimerCache.windowApis_].
    rewrite elements_empty. reflexivity.
  - reflexivity.
  - reflexivity.
Qed.

(** ** The life cycle of the second scheduler *)

Lemma initialize_all_initialized (calls : list (TimerCache.TimerOs * Z))
    (timer : TimerCache.WindowApiTimer) (handles : TimerCache.TimerHandles) :
  TimerCache.initialized_ handles = true ->
  initialize_all calls (timer, handles) = (timer, handles).
Proof.
  intros Hinit. induction calls as [|[os engine] calls IH]; [reflexivity|].
  cbn [initialize_all]. unfold TimerCache.Initialize. rewrite Hinit. exact IH.
Qed.

(** X18 — [Initialize] retries a failed queue but never a failed timer.
    On a timer object that is neither initialised nor running:
    if the timer queue exists or is created and [CreateTimerQueueTimer]
    fails, the object is marked initialised without running, every later
    [Initialize] leaves it as it is, and [TimerCallback] delivers nothing;
    if [CreateTimerQueue] fails, the object stays uninitialised and a later
    [Initialize] that succeeds starts the timer;
    and after a successful [Initialize] the callback performs the tick,
    measured from the counter reading of the initialisation. *)
Theorem Initialize_retries_the_queue_but_not_the_timer :
  forall (timer : TimerCache.WindowApiTimer)
         (handles : TimerCache.TimerHandles),
    TimerCache.initialized_ handles = false ->
    TimerCache.timer_running_ handles = false ->
    (forall os engine calls now,
        TimerCache.timer_queue_ handles <> 0
        \/ TimerCache.tos_CreateTimerQueue os <> 0 ->
        TimerCache.tos_CreateTimerQueueTimer os = false ->
        let failed := TimerCache.Initialize os engine (timer, handles) in
        TimerCache.initialized_ failed.2 = true
        /\ initialize_all calls failed = failed
        /\ (TimerCache.TimerCallback (Some (initialize_all calls failed)) now).2
           = [])
    /\ (forall os engine os' engine',
          TimerCache.timer_queue_ handles = 0 ->
          TimerCache.tos_CreateTimerQueue os = 0 ->
          TimerCache.tos_CreateTimerQueue os' <> 0 ->
          TimerCache.tos_CreateTimerQueueTimer os' = true ->
          let failed := TimerCache.Initialize os engine (timer, handles) in
          let retried := TimerCache.Initialize os' engine' failed in
          TimerCache.initialized_ failed.2 = false
          /\ TimerCache.timer_running_ failed.2 = false
          /\ TimerCache.initialized_ retried.2 = true
          /\ TimerCache.timer_running_ retried.2 = true)
    /\ (forall os engine now,
          TimerCache.timer_queue_ handles <> 0
          \/ TimerCache.tos_CreateTimerQueue os <> 0 ->
          TimerCache.tos_CreateTimerQueueTimer os = true ->
          let started := TimerCache.Initialize os engine (timer, handles) in
          TimerCache.last_tick_time_ms_ started.1
          = qpc_to_ms (TimerCache.tos_qpc_now os)
              (TimerCache.qpc_frequency_ timer)
          /\ TimerCache.TimerCallback (Some started) now
             = (Some ((TimerCache.OnTick started.1 now).1, started.2),
                (TimerCache.OnTick started.1 now).2)).
Proof.
  intros timer handles Hinit Hrun.
  assert (Hqueue : forall os : TimerCache.TimerOs,
    TimerCache.timer_queue_ handles <> 0
    \/ TimerCache.tos_CreateTimerQueue os <> 0 ->
    ((if TimerCache.timer_queue_ handles =? 0
      then TimerCache.tos_CreateTimerQueue os
      else TimerCache.timer_queue_ handles) =? 0) = false).
  { intros os Hq.
    destruct (TimerCache.timer_queue_ handles =? 0) eqn:Hz; lia. }
  repeat apply conj.
  - intros os engine calls now Hq Hfail. cbv zeta.
    unfold TimerCache.Initialize at 1 2 3 4.
    rewrite Hinit, (Hqueue os Hq), Hfail, Hrun. cbn [snd TimerCache.initialized_].
    split; [reflexivity|].
    rewrite initialize_all_initialized by reflexivity.
    split; reflexivity.
  - intros os engine os' engine' Hq Hfail Hq' Hok. cbv zeta.
    unfold TimerCache.Initialize.
    rewrite Hinit, Hq, Hfail. cbn.
    destruct (TimerCache.tos_CreateTimerQueue os' =? 0) eqn:Hz; [lia|].
    cbn. rewrite Hok, Hrun. repeat split; reflexivity.
  - intros os engine now Hq Hok. cbv zeta.
    unfold TimerCache.Initialize.
    rewrite Hinit, (Hqueue os Hq), Hok. cbn [fst snd].
    split; [reflexivity|].
    unfold TimerCache.TimerCallback. cbn [TimerCache.timer_running_ negb].
    destruct (TimerCache.OnTick _ now) as [ticked deliveries]. reflexivity.
Qed.

(** A new timer object whose timer cannot be created the first time: a
    second [Initialize], with a system that would now succeed, does not
    start it. *)
Lemma Initialize_never_retries_the_timer_witness :
  let failing :=
    {| TimerCache.tos_qpc_now := 0; TimerCache.tos_CreateTimerQueue := 5;
       TimerCache.tos_CreateTimerQueueTimer := false;
       TimerCache.tos_timer := 0 |} in
  let working :=
    {| TimerCache.tos_qpc_now := 10; TimerCache.tos_CreateTimerQueue := 5;
       TimerCache.tos_CreateTimerQueueTimer := true;
       TimerCache.tos_timer := 6 |} in
  let failed :=
    TimerCache.Initialize failing 1
      (TimerCache.WindowApiTimer_new 10000000, TimerCache.TimerHandles_new) in
  TimerCache.initialized_ failed.2 = true
  /\ initialize_all [(working, 1)] failed = failed
  /\ (TimerCache.TimerCallback (Some (initialize_all [(working, 1)] failed))
        20).2 = [].
Proof.
  cbv zeta.
  refine (proj1 (Initialize_retries_the_queue_but_not_the_timer
                   (TimerCache.WindowApiTimer_new 10000000)
                   TimerCache.TimerHandles_new eq_refl eq_refl) _ 1 _ 20 _ _).
  - right. vm_compute. discriminate.
  - reflexivity.
Defined.

(** ** The exported C interface *)

Lemma existsb_filter_nil {A : Type} (f : A -> bool) (l : list A) :
  List.filter f l = [] -> existsb f l = false.
Proof.
  induction l as [|x l IH]; [reflexivity|].
  cbn. destruct (f x); [discriminate | exact IH].
Qed.

Lemma GetWindowApiFromHwnd_sole_host (this : WindowApi) (hwnd : HWND) :
  GetWindowApiFromHwnd (sole_host this) hwnd
  = if hwnd =? NULL then None else Some this.
Proof. reflexivity. Qed.

Lemma spring_in_range_after (this : WindowApi) (use : bool)
    (damping stiffness : double) :
  spring_in_range this ->
  spring_in_range
    (if use then SetSpringParameters this damping stiffness else this).
Proof.
  intros Hrange. destruct use; [|exact Hrange].
  apply SetSpringParameters_range.
Qed.

(** [StartAnimation] for a request without custom spring parameters and
    without callback. *)
Lemma StartAnimation_plain (os : Win32) (this : WindowApi)
    (request : AnimationRequest) (w : HostWindow) :
  window_ this = Some w -> GetWindowHandle w <> NULL ->
  req_use_custom_spring request = false ->
  req_on_complete request = None ->
  exists this' anim,
    (StartAnimation os this request).1 = (next_timer_id_ this, this')
    /\ active_animations_ this'
       = <[next_timer_id_ this := anim]>
           (survivors (req_property request) (active_animations_ this))
    /\ easing anim = req_easing request
    /\ property anim = req_property request
    /\ on_complete anim = None
    /\ spring_damping_ this' = spring_damping_ this
    /\ spring_stiffness_ this' = spring_stiffness_ this
    /\ existsb is_OnComplete (StartAnimation os this request).2 = false.
Proof.
  intros Hw Hh Huse Hcb.
  destruct (StartAnimation_valid os this request w Hw Hh)
    as (anim & events & Hstart & _ & _ & Hprop & Heasing & _ & Hcomplete
        & _ & _ & Hevents & _).
  rewrite Hstart. exists (started this request anim), anim.
  unfold started. cbn [fst snd active_animations_ spring_damping_
    spring_stiffness_]. rewrite Huse.
  repeat apply conj; try reflexivity; try assumption.
  congruence.
Qed.

Lemma StartAnimation_keeps_invariants (os : Win32) (this : WindowApi)
    (request : AnimationRequest) :
  req_use_custom_spring request = false ->
  req_on_complete request = None ->
  spring_in_range this -> no_callbacks (active_animations_ this) ->
  spring_in_range (StartAnimation os this request).1.2
  /\ no_callbacks (active_animations_ (StartAnimation os this request).1.2)
  /\ existsb is_OnComplete (StartAnimation os this request).2 = false.
Proof.
  intros Huse Hcb Hrange Hnone.
  assert (Hinvalid :
    StartAnimation os this request = (0, this, []) ->
    spring_in_range (StartAnimation os this request).1.2
    /\ no_callbacks (active_animations_ (StartAnimation os this request).1.2)
    /\ existsb is_OnComplete (StartAnimation os this request).2 = false).
  { intros ->. cbn [fst snd]. split; [exact Hrange|]. split; [exact Hnone|].
    reflexivity. }
  destruct (window_ this) as [w|] eqn:Hw.
  - destruct (Z.eq_dec (GetWindowHandle w) NULL) as [Hnull|Hh].
    + apply Hinvalid, StartAnimation_invalid. right. exists w. split; assumption.
    + destruct (StartAnimation_plain os this request w Hw Hh Huse Hcb)
        as (this' & anim & Hresult & Hmap & _ & _ & Hcomplete & Hd & Hs
            & Hevents).
      destruct (StartAnimation os this request) as [[id this''] events].
      cbn [fst snd] in *. injection Hresult as -> ->.
      split; [|split].
      * unfold spring_in_range. rewrite Hd, Hs. exact Hrange.
      * intros k a. rewrite Hmap.
        destruct (decide (k = next_timer_id_ this)) as [->|Hk].
        -- rewrite lookup_insert_eq. intros [= <-]. exact Hcomplete.
        -- rewrite lookup_insert_ne by congruence.
           rewrite survivors_lookup_Some. intros [Hin _].
           exact (Hnone k a Hin).
      * exact Hevents.
  - apply Hinvalid, StartAnimation_invalid. left. exact Hw.
Qed.

Lemma convert_easing_value (e : AnimationEasingType) :
  ConvertEasingType (easing_value e) = e.
Proof. destruct e; reflexivity. Qed.

Lemma c_started_intro (os : Win32) (this : WindowApi) (w : HostWindow)
    (use : bool) (damping stiffness : double) (request : AnimationRequest) :
  window_ this = Some w -> GetWindowHandle w <> NULL ->
  req_use_custom_spring request = false ->
  req_on_complete request = None ->
  c_started this use damping stiffness (req_easing request)
    (req_property request)
    (let '(id, api, events) :=
       StartAnimation os
         (if use then SetSpringParameters this damping stiffness else this)
         request in
     (id, Some api, events)).
Proof.
  intros Hw Hh Huse Hcb.
  set (api := if use then SetSpringParameters this damping stiffness
              else this).
  assert (Hw' : window_ api = Some w) by (unfold api; destruct use; exact Hw).
  assert (Hnext : next_timer_id_ api = next_timer_id_ this)
    by (unfold api; destruct use; reflexivity).
  assert (Hmap : active_animations_ api = active_animations_ this)
    by (unfold api; destruct use; reflexivity).
  destruct (StartAnimation_plain os api request w Hw' Hh Huse Hcb)
    as (this' & anim & Hresult & Hstored & Heasing & Hprop & Hcomplete & Hd
        & Hs & Hevents).
  destruct (StartAnimation os api request) as [[id this''] events].
  cbn [fst snd] in *. injection Hresult as -> ->.
  exists this', anim. rewrite Hnext in *.
  repeat apply conj.
  - reflexivity.
  - rewrite Hstored. apply lookup_insert_eq.
  - exact Heasing.
  - exact Hprop.
  - exact Hcomplete.
  - rewrite Hd. unfold api. destruct use; reflexivity.
  - rewrite Hs. unfold api. destruct use; reflexivity.
  - intros ->. unfold spring_in_range. rewrite Hd, Hs.
    apply SetSpringParameters_range.
  - exact Hevents.
Qed.

(** X19 — a start through the C interface limits custom spring parameters
    and carries no callback.  For a handle that leads to a controller with
    a live window, each of the four exported start functions returns the
    controller's next identifier and stores under it a record with the
    converted easing, the function's property and no completion callback.
    The position, size and bounds functions pass custom spring parameters
    through [SetSpringParameters], so the controller's parameters become
    the limited ones; without custom parameters, and always for opacity,
    they stay as they were.  A null request or a handle that leads to no
    controller gives 0 and touches nothing. *)
Theorem C_interface_start_limits_the_spring :
  forall (os : Win32) (hosts : HostWindows) (hwnd : HWND),
    (forall this w,
        GetWindowApiFromHwnd hosts hwnd = Some this ->
        window_ this = Some w -> GetWindowHandle w <> NULL ->
        (forall request,
            c_started this (pos_use_custom_spring request)
              (pos_spring_damping request) (pos_spring_stiffness request)
              (ConvertEasingType (pos_easing request)) kPosition
              (InternalFlutterWindows_WindowApi_StartPositionAnimation os
                 hosts hwnd (Some request)))
        /\ (forall request,
              c_started this (size_use_custom_spring request)
                (size_spring_damping request) (size_spring_stiffness request)
                (ConvertEasingType (size_easing request)) kSize
                (InternalFlutterWindows_WindowApi_StartSizeAnimation os
                   hosts hwnd (Some request)))
        /\ (forall request,
              c_started this (bounds_use_custom_spring request)
                (bounds_spring_damping request)
                (bounds_spring_stiffness request)
                (ConvertEasingType (bounds_easing request)) kBounds
                (InternalFlutterWindows_WindowApi_StartBoundsAnimation os
                   hosts hwnd (Some request)))
        /\ (forall request,
              c_started this false d_0 d_0
                (ConvertEasingType (opacity_easing request)) kOpacity
                (InternalFlutterWindows_WindowApi_StartOpacityAnimation os
                   hosts hwnd (Some request))))
    /\ (InternalFlutterWindows_WindowApi_StartPositionAnimation os hosts hwnd
          None = (0, None, [])
        /\ InternalFlutterWindows_WindowApi_StartSizeAnimation os hosts hwnd
             None = (0, None, [])
        /\ InternalFlutterWindows_WindowApi_StartBoundsAnimation os hosts hwnd
             None = (0, None, [])
        /\ InternalFlutterWindows_WindowApi_StartOpacityAnimation os hosts hwnd
             None = (0, None, []))
    /\ (GetWindowApiFromHwnd hosts hwnd = None ->
        (forall request,
            InternalFlutterWindows_WindowApi_StartPositionAnimation os hosts
              hwnd request = (0, None, []))
        /\ (forall request,
              InternalFlutterWindows_WindowApi_StartSizeAnimation os hosts
                hwnd request = (0, None, []))
        /\ (forall request,
              InternalFlutterWindows_WindowApi_StartBoundsAnimation os hosts
                hwnd request = (0, None, []))
        /\ (forall request,
              InternalFlutterWindows_WindowApi_StartOpacityAnimation os hosts
                hwnd request = (0, None, [])))
    /\ (forall e, ConvertEasingType (easing_value e) = e)
    /\ (forall code, ~ 0 <= code <= 5 -> ConvertEasingType code = kLinear).
Proof.
  intros os hosts hwnd. repeat apply conj; try reflexivity.
  - intros this w Hapi Hw Hh. repeat apply conj; intros request.
    + unfold InternalFlutterWindows_WindowApi_StartPositionAnimation.
      rewrite Hapi.
      exact (c_started_intro os this w _ _ _
               (AnimationRequest_Position _ _ _ _) Hw Hh eq_refl eq_refl).
    + unfold InternalFlutterWindows_WindowApi_StartSizeAnimation.
      rewrite Hapi.
      exact (c_started_intro os this w _ _ _
               (AnimationRequest_Size _ _ _ _) Hw Hh eq_refl eq_refl).
    + unfold InternalFlutterWindows_WindowApi_StartBoundsAnimation.
      rewrite Hapi.
      exact (c_started_intro os this w _ _ _
               (AnimationRequest_Bounds _ _ _ _ _ _) Hw Hh eq_refl eq_refl).
    + unfold InternalFlutterWindows_WindowApi_StartOpacityAnimation.
      rewrite Hapi.
      exact (c_started_intro os this w false d_0 d_0
               (AnimationRequest_Opacity _ _ _) Hw Hh eq_refl eq_refl).
  - intros Hapi. repeat apply conj; intros [request|]; try reflexivity.
    + unfold InternalFlutterWindows_WindowApi_StartPositionAnimation.
      rewrite Hapi. reflexivity.
    + unfold InternalFlutterWindows_WindowApi_StartSizeAnimation.
      rewrite Hapi. reflexivity.
    + unfold InternalFlutterWindows_WindowApi_StartBoundsAnimation.
      rewrite Hapi. reflexivity.
    + unfold InternalFlutterWindows_WindowApi_StartOpacityAnimation.
      rewrite Hapi. reflexivity.
  - apply convert_easing_value.
  - intros code Hcode. unfold ConvertEasingType, kAnimationEasingLinear,
      kAnimationEasingEaseIn, kAnimationEasingEaseOut,
      kAnimationEasingEaseInOut, kAnimationEasingSpringBounce,
      kAnimationEasingOvershoot.
    repeat match goal with
           | |- context [code =? ?n] => destruct (code =? n) eqn:?; [lia|]
           end.
    reflexivity.
Qed.

(** A position request with damping 100 and stiffness 100000 through the C
    interface: identifier 1000 is returned and the controller ends with
    the limits 2.0 and 500. *)
Example C_interface_start_example :
  let result :=
    InternalFlutterWindows_WindowApi_StartPositionAnimation (example_os 0)
      (sole_host example_api) 42
      (Some {| pos_target_x := d_100; pos_target_y := d_100;
               pos_duration := 300; pos_easing := 4;
               pos_use_custom_spring := true;
               pos_spring_damping := d_100;
               pos_spring_stiffness := b64_of_Z 100000 |}) in
  result.1.1 = 1000
  /\ option_map spring_damping_ result.1.2 = Some d_2
  /\ option_map spring_stiffness_ result.1.2 = Some d_500.
Proof. vm_compute. repeat split; reflexivity. Qed.

Lemma UpdateAnimation_without_callback (libm : Libm) (os : Win32)
    (this : WindowApi) (anim : WindowAnimation) :
  on_complete anim = None ->
  on_complete (UpdateAnimation libm os this anim).1 = None
  /\ existsb is_OnComplete (UpdateAnimation libm os this anim).2 = false.
Proof.
  intros Hnone. unfold UpdateAnimation.
  destruct (negb (is_active anim) || (hwnd anim =? NULL));
    [split; [exact Hnone | reflexivity]|].
  destruct (fle (b64_of_Z (duration anim))
              (GetElapsedMs os (start_time_qpc anim))).
  - cbn [fst snd]. split; [exact Hnone|].
    rewrite !existsb_app.
    rewrite (existsb_filter_nil _ _ (ApplyAnimationFrame_no_callback _ _)).
    unfold completion_events. cbn [on_complete with_is_active with_progress].
    rewrite Hnone. reflexivity.
  - cbn [fst snd]. split; [exact Hnone|].
    apply existsb_filter_nil, ApplyAnimationFrame_no_callback.
Qed.

Lemma OnTimer_without_callback (libm : Libm) (os : Win32) (this : WindowApi)
    (wParam : Z) :
  no_callbacks (active_animations_ this) ->
  no_callbacks (active_animations_ (OnTimer libm os this wParam).1.2)
  /\ existsb is_OnComplete (OnTimer libm os this wParam).2 = false.
Proof.
  intros Hnone. unfold OnTimer.
  destruct (active_animations_ this !! wParam) as [anim|] eqn:Hlookup;
    [|split; [exact Hnone | reflexivity]].
  assert (Hdeleted :
    no_callbacks (delete wParam (active_animations_ this))).
  { intros k a Hk. apply lookup_delete_Some in Hk as [_ Hk].
    exact (Hnone k a Hk). }
  destruct (negb (is_active anim)); [split; [exact Hdeleted | reflexivity]|].
  pose proof (UpdateAnimation_without_callback libm os this anim
                (Hnone _ _ Hlookup)) as [Hcomplete Hevents].
  destruct (UpdateAnimation libm os this anim) as [anim' events].
  cbn [fst snd] in *.
  destruct (negb (is_active anim')); cbn [fst snd active_animations_
    with_animations]; (split; [|exact Hevents]); [exact Hdeleted|].
  intros k a.
  destruct (decide (k = wParam)) as [->|Hk].
  - rewrite lookup_insert_eq. intros [= <-]. exact Hcomplete.
  - rewrite lookup_insert_ne by congruence. apply Hnone.
Qed.

Lemma c_step_keeps_invariants (libm : Libm) (this : WindowApi) (op : COp) :
  spring_in_range this -> no_callbacks (active_animations_ this) ->
  spring_in_range (c_step libm this op).1
  /\ no_callbacks (active_animations_ (c_step libm this op).1)
  /\ existsb is_OnComplete (c_step libm this op).2 = false.
Proof.
  intros Hrange Hnone.
  assert (Hsame : spring_in_range this
                  /\ no_callbacks (active_animations_ this)
                  /\ existsb is_OnComplete [] = false)
    by (split; [exact Hrange | split; [exact Hnone | reflexivity]]).
  assert (Hstart : forall os (use : bool) damping stiffness request,
    req_use_custom_spring request = false ->
    req_on_complete request = None ->
    let result :=
      (let '(id, api, events) :=
         StartAnimation os
           (if use then SetSpringParameters this damping stiffness else this)
           request in
       (id, Some api, events)) in
    spring_in_range (default this result.1.2)
    /\ no_callbacks (active_animations_ (default this result.1.2))
    /\ existsb is_OnComplete result.2 = false).
  { intros os use damping stiffness request Huse Hcb. cbv zeta.
    pose proof (StartAnimation_keeps_invariants os
                  (if use then SetSpringParameters this damping stiffness
                   else this) request Huse Hcb
                  (spring_in_range_after this use damping stiffness Hrange))
      as Hkeep.
    destruct (StartAnimation os _ request) as [[ident api] events].
    cbn [fst snd from_option id] in *. apply Hkeep.
    destruct use; exact Hnone. }
  destruct op as [os hwnd [request|] | os hwnd [request|]
                 | os hwnd [request|] | os hwnd [request|]
                 | hwnd tid | hwnd | hwnd damping stiffness
                 | os wParam | h];
    cbn [c_step];
    try exact Hsame.
  - unfold InternalFlutterWindows_WindowApi_StartPositionAnimation.
    rewrite GetWindowApiFromHwnd_sole_host.
    destruct (hwnd =? NULL); [exact Hsame|].
    pose proof (Hstart os (pos_use_custom_spring request)
                  (pos_spring_damping request) (pos_spring_stiffness request)
                  (AnimationRequest_Position (pos_target_x request)
                     (pos_target_y request) (pos_duration request)
                     (ConvertEasingType (pos_easing request)))
                  eq_refl eq_refl) as Hkeep.
    cbv zeta in *.
    destruct (StartAnimation os _ _) as [[ident api] events]. exact Hkeep.
  - unfold InternalFlutterWindows_WindowApi_StartSizeAnimation.
    rewrite GetWindowApiFromHwnd_sole_host.
    destruct (hwnd =? NULL); [exact Hsame|].
    pose proof (Hstart os (size_use_custom_spring request)
                  (size_spring_damping request)
                  (size_spring_stiffness request)
                  (AnimationRequest_Size (size_target_width request)
                     (size_target_height request) (size_duration request)
                     (ConvertEasingType (size_easing request)))
                  eq_refl eq_refl) as Hkeep.
    cbv zeta in *.
    destruct (StartAnimation os _ _) as [[ident api] events]. exact Hkeep.
  - unfold InternalFlutterWindows_WindowApi_StartBoundsAnimation.
    rewrite GetWindowApiFromHwnd_sole_host.
    destruct (hwnd =? NULL); [exact Hsame|].
    pose proof (Hstart os (bounds_use_custom_spring request)
                  (bounds_spring_damping request)
                  (bounds_spring_stiffness request)
                  (AnimationRequest_Bounds (bounds_target_x request)
                     (bounds_target_y request) (bounds_target_width request)
                     (bounds_target_height request) (bounds_duration request)
                     (ConvertEasingType (bounds_easing request)))
                  eq_refl eq_refl) as Hkeep.
    cbv zeta in *.
    destruct (StartAnimation os _ _) as [[ident api] events]. exact Hkeep.
  - unfold InternalFlutterWindows_WindowApi_StartOpacityAnimation.
    rewrite GetWindowApiFromHwnd_sole_host.
    destruct (hwnd =? NULL); [exact Hsame|].
    pose proof (Hstart os false d_0 d_0
                  (AnimationRequest_Opacity (opacity_target_opacity request)
                     (opacity_duration request)
                     (ConvertEasingType (opacity_easing request)))
                  eq_refl eq_refl) as Hkeep.
    cbv zeta in *.
    destruct (StartAnimation os _ _) as [[ident api] events]. exact Hkeep.
  - unfold InternalFlutterWindows_WindowApi_StopAnimation.
    rewrite GetWindowApiFromHwnd_sole_host.
    destruct (hwnd =? NULL); [exact Hsame|].
    pose proof (StopAnimation_map this tid) as Hmap.
    pose proof (StopAnimation_frame this tid) as (_ & _ & Hd & Hs).
    pose proof (StopAnimation_no_callback this tid) as Hevents.
    destruct (StopAnimation this tid) as [api events].
    cbn [fst snd from_option id] in *.
    split; [|split; [|exact Hevents]].
    + unfold spring_in_range. rewrite Hd, Hs. exact Hrange.
    + intros k a. rewrite Hmap. intros [_ Hk]%lookup_delete_Some.
      exact (Hnone k a Hk).
  - unfold InternalFlutterWindows_WindowApi_StopAllAnimations.
    rewrite GetWindowApiFromHwnd_sole_host.
    destruct (hwnd =? NULL); [exact Hsame|].
    unfold StopAllAnimations.
    destruct (window_ this) as [w|]; [|exact Hsame].
    destruct (GetWindowHandle w =? NULL); [exact Hsame|].
    cbn [fst snd from_option id].
    split; [exact Hrange|]. split.
    + intros k a Hk. cbn in Hk. rewrite lookup_empty in Hk. discriminate.
    + rewrite kill_each_key. apply kill_each_no_callback.
  - unfold InternalFlutterWindows_WindowApi_SetSpringParameters.
    rewrite GetWindowApiFromHwnd_sole_host.
    destruct (hwnd =? NULL); [exact Hsame|].
    cbn [fst snd from_option id].
    split; [apply SetSpringParameters_range|].
    split; [exact Hnone | reflexivity].
  - pose proof (OnTimer_frame libm os this wParam) as (_ & _ & Hd & Hs).
    pose proof (OnTimer_without_callback libm os this wParam Hnone)
      as [Hmap Hevents].
    destruct (OnTimer libm os this wParam) as [[handled api] events].
    cbn [fst snd] in *.
    split; [|split; [exact Hmap | exact Hevents]].
    unfold spring_in_range. rewrite Hd, Hs. exact Hrange.
Qed.

(** X20 — through the C interface the spring stays within its limits and
    no callback ever runs.  Starting from a controller whose spring
    parameters are within the limits of [SetSpringParameters] and whose
    records carry no callback (a new controller is one), after any history
    of calls of the exported animation functions, timer messages and
    changes of the window handle, the spring parameters are still within
    the limits, no record carries a callback, and no completion callback
    was invoked. *)
Theorem C_interface_keeps_the_spring_limited :
  forall (libm : Libm) (ops : list COp) (this : WindowApi),
    spring_in_range this -> no_callbacks (active_animations_ this) ->
    spring_in_range (c_run libm this ops).1
    /\ no_callbacks (active_animations_ (c_run libm this ops).1)
    /\ existsb is_OnComplete (c_run libm this ops).2 = false.
Proof.
  intros libm ops. induction ops as [|op ops IH]; intros this Hrange Hnone.
  - split; [exact Hrange | split; [exact Hnone | reflexivity]].
  - cbn [c_run].
    pose proof (c_step_keeps_invariants libm this op Hrange Hnone)
      as (Hrange1 & Hnone1 & Hevents1).
    destruct (c_step libm this op) as [this1 events]. cbn [fst snd] in *.
    specialize (IH this1 Hrange1 Hnone1) as (Hrange2 & Hnone2 & Hevents2).
    destruct (c_run libm this1 ops) as [this2 more]. cbn [fst snd] in *.
    split; [exact Hrange2|]. split; [exact Hnone2|].
    rewrite existsb_app, Hevents1, Hevents2. reflexivity.
Qed.

(** A new controller of window 42: a bounds animation with custom spring
    parameters far outside the limits, a direct setting of the parameters,
    and a timer message after the animation's end. *)
Lemma C_interface_keeps_the_spring_limited_witness :
  let ops :=
    [CStartBoundsAnimation (example_os 0) 42
       (Some {| bounds_target_x := d_10; bounds_target_y := d_10;
                bounds_target_width := d_400; bounds_target_height := d_300;
                bounds_duration := 300; bounds_easing := 4;
                bounds_use_custom_spring := true;
                bounds_spring_damping := d_100;
                bounds_spring_stiffness := d_0 |});
     CSetSpringParameters 42 d_0 d_1000;
     COnTimer (example_os 4000000) 1000] in
  spring_in_range (c_run series_libm example_api ops).1
  /\ no_callbacks (active_animations_ (c_run series_libm example_api ops).1)
  /\ existsb is_OnComplete (c_run series_libm example_api ops).2 = false.
Proof.
  cbv zeta.
  apply C_interface_keeps_the_spring_limited.
  - vm_compute. repeat split; reflexivity.
  - intros k a Hk. vm_compute in Hk. discriminate Hk.
Defined.

(** ** Frames of an opacity animation *)

Lemma static_cast_BYTE_range (x : double) : 0 <= static_cast_BYTE x <= 255.
Proof.
  unfold static_cast_BYTE. destruct (trunc_double x) as [z|]; [|lia].
  pose proof (Z.mod_pos_bound z 256 ltac:(lia)). lia.
Qed.

(** X21 — an opacity frame writes a saturated alpha and touches nothing
    else.  For a record of an opacity animation with a window, every frame
    is one [SetLayeredWindowAttributes] with a zero colour key and the
    [LWA_ALPHA] flag, followed by [DwmFlush]; the alpha is a byte; an
    interpolated opacity that is not below 1 (an overshooting easing, or
    NaN) gives 255 and one that is not above 0 gives 0. *)
Theorem ApplyAnimationFrame_opacity_saturates :
  forall (anim : WindowAnimation) (e : double),
    hwnd anim <> NULL -> property anim = kOpacity ->
    let current := lerp (start_opacity anim) (target_opacity anim) e in
    exists alpha,
      ApplyAnimationFrame anim e
      = [SetLayeredWindowAttributes (hwnd anim) 0 alpha LWA_ALPHA; DwmFlush]
      /\ 0 <= alpha <= 255
      /\ (flt current d_1 = false -> alpha = 255)
      /\ (fle current d_0 = true -> alpha = 0).
Proof.
  intros anim e Hh Hp current.
  unfold ApplyAnimationFrame. rewrite Hp.
  destruct (hwnd anim =? NULL) eqn:Hnull; [lia|].
  fold current. eexists. split; [reflexivity|].
  split; [apply static_cast_BYTE_range|]. split.
  - intros Hhigh. unfold std_min. rewrite Hhigh. reflexivity.
  - intros Hlow. rewrite (clamp_low current Hlow). reflexivity.
Qed.

(** The fade-out of the example window, sampled at the eased progress 2:
    the interpolated opacity is -1 and the alpha written is 0. *)
Lemma ApplyAnimationFrame_opacity_saturates_witness :
  let anim :=
    default WindowAnimation_default
      (active_animations_
         (StartAnimation (example_os 0) example_api
            (example_fade_out false d_0 d_0)).1.2 !! 1000) in
  exists alpha,
    ApplyAnimationFrame anim d_2
    = [SetLayeredWindowAttributes (hwnd anim) 0 alpha LWA_ALPHA; DwmFlush]
    /\ alpha = 0.
Proof.
  cbv zeta.
  match goal with
  | |- exists alpha, ApplyAnimationFrame ?a _ = _ /\ _ =>
      destruct (ApplyAnimationFrame_opacity_saturates a d_2)
        as (alpha & Hframe & _ & _ & Hlow)
  end.
  - vm_compute. lia.
  - vm_compute. reflexivity.
  - exists alpha. split; [exact Hframe|]. apply Hlow. vm_compute. reflexivity.
Defined.

(** ** The posted task of the first scheduler *)

(** X22 — in the first scheduler the elapsed time is fixed at the tick and
    the consumers at the run of the posted task.  The task a tick posts
    carries the capped elapsed time; when it runs it calls the controllers
    of the host windows registered at that moment: one registered after
    the tick is called with the tick's elapsed time, one removed after the
    tick is not called (unless another registered window has the same
    controller), and registering or removing the null window changes
    nothing. *)
Theorem posted_task_reads_the_registry_when_it_runs :
  forall (GetApi : Z -> Z) (this : TimerPostTask.WindowApiTimer)
         (now window : Z),
    let ticked := (TimerPostTask.OnTick this now).1 in
    let task := (TimerPostTask.OnTick this now).2 in
    TimerPostTask.windows_ ticked = TimerPostTask.windows_ this
    /\ (window <> 0 -> GetApi window <> 0 ->
        (GetApi window, TimerPostTask.delta_ms task)
          ∈ TimerPostTask.RunTask GetApi
              (TimerPostTask.AddWindow ticked window) task)
    /\ ((forall other,
            other ∈ TimerPostTask.windows_ this ->
            GetApi other = GetApi window -> other = window) ->
        forall delta,
          (GetApi window, delta)
            ∈ TimerPostTask.RunTask GetApi
                (TimerPostTask.RemoveWindow ticked window) task ->
          False)
    /\ TimerPostTask.AddWindow ticked 0 = ticked
    /\ TimerPostTask.RemoveWindow ticked 0 = ticked.
Proof.
  intros GetApi this now window ticked task.
  split; [reflexivity|]. split; [|split; [|split; reflexivity]].
  - intros Hw Hapi. unfold TimerPostTask.RunTask.
    apply TimerPostTask_deliveries. split; [|reflexivity].
    exists window. rewrite elem_of_elements.
    unfold TimerPostTask.AddWindow.
    destruct (window =? 0) eqn:Hz; [lia|]. cbn.
    repeat split; try assumption.
    apply elem_of_union_l, elem_of_singleton. reflexivity.
  - intros Hinj delta. unfold TimerPostTask.RunTask.
    rewrite TimerPostTask_deliveries.
    intros [(other & Hin & Hother & Hsame & Hapi) _].
    rewrite elem_of_elements in Hin.
    unfold TimerPostTask.RemoveWindow in Hin.
    destruct (window =? 0) eqn:Hz.
    + assert (window = 0) as -> by lia.
      apply Hother, Hinj; assumption.
    + cbn in Hin. apply elem_of_difference in Hin as [Hin Hout].
      apply Hout, elem_of_singleton, Hinj; assumption.
Qed.

(** Windows 7 and 9 with controllers 70 and 90: window 9 is removed after
    the tick and before the task runs, so only controller 70 is called. *)
Example posted_task_example :
  let this :=
    TimerPostTask.AddWindow
      (TimerPostTask.AddWindow
         {| TimerPostTask.windows_ := ∅;
            TimerPostTask.last_tick_time_ms_ := d_0;
            TimerPostTask.qpc_frequency_ := 10000000 |} 7) 9 in
  let '(ticked, task) := TimerPostTask.OnTick this 100000 in
  TimerPostTask.RunTask (fun window => window * 10)
    (TimerPostTask.RemoveWindow ticked 9) task
  = [(70, d_10)].
Proof. vm_compute. reflexivity. Qed.

(** ** Non-client hit testing *)

(** X23 — the resize bands of the hit test.  With a resize border of [b]
    pixels and a client rectangle ending at ([W], [H]), a point (x, y) in
    client coordinates resizes from the left exactly when x < b and from
    the top exactly when y < b, but from the right only when x > W - b and
    from the bottom only when y > H - b: within the client rectangle the
    left and top bands are [b] pixels thick and the right and bottom bands
    [b - 1].  Left wins over right and top over bottom where bands overlap.
    The caption is hit exactly by the points outside all four bands above
    the scaled title bar height, and every other point is client area. *)
Theorem OnNcHitTest_bands :
  forall (os : NcOs) (titleBarHeightLogical : Z),
    rect_ok (nc_rc os) ->
    coord_ok (resizeBorder (GetNcMetrics os (nc_dpi os))) ->
    let b := resizeBorder (GetNcMetrics os (nc_dpi os)) in
    let W := right (nc_rc os) in
    let H := bottom (nc_rc os) in
    let x := pt_x (nc_pt os) in
    let y := pt_y (nc_pt os) in
    let title := ScaleByDpi os titleBarHeightLogical (nc_dpi os) in
    let code := OnNcHitTest os titleBarHeightLogical in
    (hit_left code = true <-> x < b)
    /\ (hit_right code = true <-> b <= x /\ W - b < x)
    /\ (hit_top code = true <-> y < b)
    /\ (hit_bottom code = true <-> b <= y /\ H - b < y)
    /\ (code = HTCAPTION
        <-> b <= x <= W - b /\ b <= y <= H - b /\ y < title)
    /\ (code = HTCLIENT
        <-> b <= x <= W - b /\ b <= y <= H - b /\ title <= y).
Proof.
  intros os titleBarHeightLogical (_ & _ & Hr & Hb) Hborder. cbv zeta.
  unfold OnNcHitTest. unfold coord_ok in *.
  set (b := resizeBorder (GetNcMetrics os (nc_dpi os))) in *.
  rewrite (int32_small (right (nc_rc os) - b)) by lia.
  rewrite (int32_small (bottom (nc_rc os) - b)) by lia.
  set (title := ScaleByDpi os titleBarHeightLogical (nc_dpi os)).
  clearbody b title.
  destruct (pt_y (nc_pt os) <? b) eqn:Hy1;
    destruct (pt_x (nc_pt os) <? b) eqn:Hx1;
    destruct (right (nc_rc os) - b <? pt_x (nc_pt os)) eqn:Hx2;
    destruct (bottom (nc_rc os) - b <? pt_y (nc_pt os)) eqn:Hy2;
    destruct (pt_y (nc_pt os) <? title) eqn:Ht;
    unfold hit_left, hit_right, hit_top, hit_bottom, HTCLIENT, HTCAPTION,
      HTLEFT, HTRIGHT, HTTOP, HTTOPLEFT, HTTOPRIGHT, HTBOTTOM, HTBOTTOMLEFT,
      HTBOTTOMRIGHT;
    cbn; repeat split; intros; try discriminate; try lia.
Qed.

(** A client area of 800 by 600 with an 8 pixel border: column 7 resizes
    from the left, but the mirrored column 792 does not resize from the
    right; column 793 does. *)
Lemma OnNcHitTest_bands_witness :
  let os x :=
    {| nc_MulDiv := fun value numerator denominator =>
                      value * numerator / denominator;
       nc_SM_CXFRAME := 4; nc_SM_CYFRAME := 4; nc_SM_CXPADDEDBORDER := 4;
       nc_dpi := 96;
       nc_pt := {| pt_x := x; pt_y := 300 |};
       nc_rc := {| left := 0; top := 0; right := 800; bottom := 600 |} |} in
  hit_left (OnNcHitTest (os 7) 32) = true
  /\ hit_right (OnNcHitTest (os 792) 32) = false
  /\ hit_right (OnNcHitTest (os 793) 32) = true.
Proof.
  cbv zeta.
  split; [|split].
  - apply (OnNcHitTest_bands _ 32).
    + repeat split; vm_compute; discriminate.
    + split; vm_compute; discriminate.
    + vm_compute. reflexivity.
  - vm_compute. reflexivity.
  - apply (OnNcHitTest_bands _ 32).
    + repeat split; vm_compute; discriminate.
    + split; vm_compute; discriminate.
    + vm_compute. split; discriminate || reflexivity.
Defined.
